(** * AutoMem: the deploy webhook and the Gemini embedding provider

    A shallow embedding of [scripts/deploy-webhook.py] and of
    [automem/embedding/gemini.py], with the properties their specification
    states about them.

    Conventions of the embedding.
    - A Python [str] is a [string]; each character stands for one code point
      in U+0000..U+00FF.  This is exact for header values, which
      [http.client] decodes as ISO-8859-1.  A [str] that can hold any code
      point (a JSON string, the output of the script) is a list of code
      points in [WebhookIO].
    - A Python [bytes] object is a [list byte].
    - Python [int]s are [Z]; lengths are [nat].
    - A call that can raise returns in [M], which keeps the effects performed
      before the exception was raised.
    - The handler is embedded twice.  In [Webhook] the exceptions are those
      of [int], [hmac.compare_digest], [json.loads], [data.get] and
      [subprocess.run]; reading the body, logging and writing the response
      are taken to succeed.  This is the handler on which requests are
      computed, and on which its failures are shown.  In [WebhookIO]
      reading, logging and writing can raise as well, as they do in the
      libraries; what is stated of every request is stated there.
    - The file system, the deployment script, [json.loads] and the embedding
      API are parameters: a [world], or the [client] of a provider. *)

From Stdlib Require Import ZArith List String Ascii Bool Lia.
From Stdlib Require Import Strings.Byte.
From stdpp Require Import base strings pretty gmap.
Import ListNotations.

#[local] Open Scope string_scope.
#[local] Open Scope list_scope.
#[local] Open Scope Z_scope.

(** ** Python prelude *)

Module Py.

(** The exception classes the two modules can meet.  [KeyboardInterrupt]
    stands for the [BaseException]s that are not [Exception]s. *)
Inductive exn_class :=
| ValueError | TypeError | AttributeError | IndexError
| JSONDecodeError | UnicodeDecodeError
| TimeoutExpired | FileNotFoundError | PermissionError | OSError
| APIError | KeyboardInterrupt
| UnicodeEncodeError | OverflowError | MemoryError | BrokenPipeError.

Definition exn_class_eqb (a b : exn_class) : bool :=
  match a, b with
  | ValueError, ValueError | TypeError, TypeError
  | AttributeError, AttributeError | IndexError, IndexError
  | JSONDecodeError, JSONDecodeError
  | UnicodeDecodeError, UnicodeDecodeError
  | TimeoutExpired, TimeoutExpired
  | FileNotFoundError, FileNotFoundError
  | PermissionError, PermissionError | OSError, OSError
  | APIError, APIError
  | KeyboardInterrupt, KeyboardInterrupt
  | UnicodeEncodeError, UnicodeEncodeError
  | OverflowError, OverflowError
  | MemoryError, MemoryError
  | BrokenPipeError, BrokenPipeError => true
  | _, _ => false
  end.

(** An exception object: its class and what [str(e)] gives. *)
Record exn := Exn { exn_cls : exn_class; exn_str : string }.

(** [isinstance(e, Exception)]. *)
Definition is_Exception (e : exn) : bool :=
  match exn_cls e with KeyboardInterrupt => false | _ => true end.

(** Truthiness of a [str], of a [bytes] and of an optional [str]
    ([None] and the empty string are falsy). *)
Definition truthy (s : string) : bool :=
  match s with EmptyString => false | String _ _ => true end.

Definition truthy_bytes (b : list byte) : bool :=
  match b with [] => false | _ :: _ => true end.

Definition truthy_opt (o : option string) : bool :=
  match o with None => false | Some s => truthy s end.

(** [a or b] on optional strings. *)
Definition py_or (a b : option string) : option string :=
  if truthy_opt a then a else b.

(** [a != b] where [a] may be [None] and [b] is a [str]. *)
Definition opt_str_ne (a : option string) (b : string) : bool :=
  match a with None => true | Some s => negb (String.eqb s b) end.

(** [str.isascii()]. *)
Definition is_ascii_char (c : ascii) : bool := (nat_of_ascii c <? 128)%nat.

Fixpoint isascii (s : string) : bool :=
  match s with
  | EmptyString => true
  | String c s' => is_ascii_char c && isascii s'
  end.

(** [s[-n:]] for [n > 0]: the last [n] characters, or all of [s] when it
    has fewer. *)
Fixpoint drop (n : nat) (s : string) : string :=
  match n, s with
  | O, _ => s
  | S _, EmptyString => EmptyString
  | S n', String _ s' => drop n' s'
  end.

Definition slice_last (n : nat) (s : string) : string :=
  drop (String.length s - n) s.

(** [str.encode()] (UTF-8) on code points below 256. *)
Definition encode_char (c : ascii) : list byte :=
  let n := N_of_ascii c in
  if (n <? 128)%N then [byte_of_ascii c]
  else
    match Byte.of_N (N.lor 192 (N.shiftr n 6)),
          Byte.of_N (N.lor 128 (N.land n 63)) with
    | Some hi, Some lo => [hi; lo]
    | _, _ => []
    end.

Fixpoint encode (s : string) : list byte :=
  match s with
  | EmptyString => []
  | String c s' => encode_char c ++ encode s'
  end.

(** Bytes literal [b"..."] for ASCII text. *)
Definition b (s : string) : list byte := list_byte_of_string s.

(** [int(s)] for a [str] in base 10: optional surrounding whitespace, an
    optional sign, then digits that single underscores may separate. *)
Definition is_space (c : ascii) : bool :=
  let n := nat_of_ascii c in
  ((9 <=? n) && (n <=? 13) || (n =? 32) || (n =? 133) || (n =? 160))%nat.

Fixpoint lstrip (s : string) : string :=
  match s with
  | String c s' => if is_space c then lstrip s' else s
  | EmptyString => EmptyString
  end.

Fixpoint rstrip (s : string) : string :=
  match s with
  | EmptyString => EmptyString
  | String c s' =>
      match rstrip s' with
      | EmptyString => if is_space c then EmptyString else String c EmptyString
      | r => String c r
      end
  end.

Definition digit_of (c : ascii) : option Z :=
  let n := nat_of_ascii c in
  if ((48 <=? n) && (n <=? 57))%nat then Some (Z.of_nat n - 48) else None.

Fixpoint digits (s : string) (acc : Z) (after_digit : bool) : option Z :=
  match s with
  | EmptyString => if after_digit then Some acc else None
  | String c s' =>
      match digit_of c with
      | Some d => digits s' (10 * acc + d) true
      | None =>
          if Ascii.eqb c "_" && after_digit then digits s' acc false
          else None
      end
  end.

Definition int (s : string) : exn + Z :=
  let s := rstrip (lstrip s) in
  let '(sign, body) :=
    match s with
    | String "-" r => (-1, r)
    | String "+" r => (1, r)
    | _ => (1, s)
    end in
  match digits body 0 false with
  | Some n => inr (sign * n)
  | None => inl (Exn ValueError "invalid literal for int() with base 10")
  end.

(** [hmac.compare_digest(a, b)] on two [str]: a [TypeError] unless both
    are ASCII, else whether they are equal (in constant time, which the
    embedding does not observe). *)
Definition compare_digest (a c : string) : exn + bool :=
  if isascii a && isascii c then inr (String.eqb a c)
  else inl (Exn TypeError
              "comparing strings with non-ASCII characters is not supported").

(** [posixpath.join(a, *p)]. *)
Definition startswith_sep (s : string) : bool :=
  match s with String "/" _ => true | _ => false end.

Fixpoint endswith_sep (s : string) : bool :=
  match s with
  | EmptyString => false
  | String c EmptyString => Ascii.eqb c "/"
  | String _ s' => endswith_sep s'
  end.

Definition join (a : string) (p : list string) : string :=
  fold_left
    (fun path c =>
       if startswith_sep c then c
       else if negb (truthy path) || endswith_sep path then path +:+ c
       else path +:+ "/" +:+ c)
    p a.

(** *** Effects and exceptions

    A computation yields the effects it performed, in order, and either
    the exception that ended it or its value. *)
Definition M (E A : Type) : Type := list E * (exn + A).

Definition ret {E A} (a : A) : M E A := ([], inr a).
Definition raise {E A} (e : exn) : M E A := ([], inl e).
Definition emit {E} (ev : E) : M E unit := ([ev], inr tt).
Definition lift {E A} (r : exn + A) : M E A := ([], r).

Definition bind {E A B} (m : M E A) (k : A -> M E B) : M E B :=
  match m with
  | (t, inl e) => (t, inl e)
  | (t, inr a) => let (t', r) := k a in (t ++ t', r)
  end.

(** [try: body except ...: handler]; the handler says which exceptions
    it catches. *)
Definition try_except {E A} (body : M E A) (handler : exn -> option (M E A))
  : M E A :=
  match body with
  | (t, inl e) =>
      match handler e with
      | Some h => let (t', r) := h in (t ++ t', r)
      | None => (t, inl e)
      end
  | (t, inr a) => (t, inr a)
  end.

Definition trace {E A} (m : M E A) : list E := fst m.
Definition outcome {E A} (m : M E A) : exn + A := snd m.

End Py.

Declare Scope py_scope.
Delimit Scope py_scope with py.
Notation "x <- m ;; k" := (Py.bind m (fun x => k))
  (at level 100, m at next level, right associativity) : py_scope.
Notation "m ;; k" := (Py.bind m (fun _ => k))
  (at level 100, right associativity) : py_scope.

(** ** [hashlib.sha256] and [hmac]

    The two library functions [verify_signature] calls, written out from
    FIPS 180-4 and RFC 2104 so that signatures can be computed. *)

Module SHA256.

Definition w32 (x : Z) : Z := Z.land x (Z.ones 32).
Definition add32 (x y : Z) : Z := w32 (x + y).
Definition rotr (n x : Z) : Z :=
  Z.lor (Z.shiftr x n) (w32 (Z.shiftl x (32 - n))).
Definition not32 (x : Z) : Z := Z.lxor x (Z.ones 32).

Definition Ch (x y z : Z) : Z := Z.lxor (Z.land x y) (Z.land (not32 x) z).
Definition Maj (x y z : Z) : Z :=
  Z.lxor (Z.lxor (Z.land x y) (Z.land x z)) (Z.land y z).
Definition Sigma0 (x : Z) : Z :=
  Z.lxor (Z.lxor (rotr 2 x) (rotr 13 x)) (rotr 22 x).
Definition Sigma1 (x : Z) : Z :=
  Z.lxor (Z.lxor (rotr 6 x) (rotr 11 x)) (rotr 25 x).
Definition sigma0 (x : Z) : Z :=
  Z.lxor (Z.lxor (rotr 7 x) (rotr 18 x)) (Z.shiftr x 3).
Definition sigma1 (x : Z) : Z :=
  Z.lxor (Z.lxor (rotr 17 x) (rotr 19 x)) (Z.shiftr x 10).

(** The round constants are the first 32 bits of the fractional parts of
    the cube roots of the first 64 primes, the initial hash value those of
    the square roots of the first 8. *)
Fixpoint primes_from (fuel : nat) (c : Z) (found : list Z) : list Z :=
  match fuel with
  | O => rev found
  | S fuel' =>
      if forallb (fun p => negb (c mod p =? 0)) found
      then primes_from fuel' (c + 1) (c :: found)
      else primes_from fuel' (c + 1) found
  end.

Fixpoint cbrt_bits (bits : nat) (n r : Z) : Z :=
  match bits with
  | O => r
  | S bits' =>
      let r' := r + Z.shiftl 1 (Z.of_nat bits') in
      cbrt_bits bits' n (if r' * r' * r' <=? n then r' else r)
  end.

Definition frac_cbrt32 (p : Z) : Z := w32 (cbrt_bits 40 (Z.shiftl p 96) 0).
Definition frac_sqrt32 (p : Z) : Z := w32 (Z.sqrt (Z.shiftl p 64)).

Definition K : list Z :=
  Eval vm_compute in map frac_cbrt32 (primes_from 310 2 []).
Definition H0 : list Z :=
  Eval vm_compute in map frac_sqrt32 (primes_from 18 2 []).

(** Padding: a 1 bit, zeros up to 56 mod 64 bytes, the bit length on 64
    bits. *)
Fixpoint be_bytes (n : nat) (x : Z) : list Z :=
  match n with
  | O => []
  | S n' => Z.land (Z.shiftr x (8 * Z.of_nat n')) 255 :: be_bytes n' x
  end.

Definition pad (msg : list Z) : list Z :=
  let l := List.length msg in
  msg ++ [128] ++ repeat 0 ((119 - l mod 64) mod 64)%nat
      ++ be_bytes 8 (8 * Z.of_nat l).

Fixpoint be_words (fuel : nat) (bs : list Z) : list Z :=
  match fuel, bs with
  | S fuel', b0 :: b1 :: b2 :: b3 :: bs' =>
      (Z.shiftl b0 24 + Z.shiftl b1 16 + Z.shiftl b2 8 + b3)
        :: be_words fuel' bs'
  | _, _ => []
  end.

(** The message schedule, newest word first while it is built. *)
Fixpoint schedule (n : nat) (w : list Z) : list Z :=
  match n with
  | O => w
  | S n' =>
      let at_ i := nth i w 0 in
      schedule n'
        (add32 (add32 (add32 (sigma1 (at_ 1%nat)) (at_ 6%nat))
                      (sigma0 (at_ 14%nat))) (at_ 15%nat) :: w)
  end.

Definition state : Type := Z * Z * Z * Z * Z * Z * Z * Z.

Definition round (s : state) (kw : Z * Z) : state :=
  let '(a, b, c, d, e, f, g, h) := s in
  let t1 := add32 (add32 (add32 (add32 h (Sigma1 e)) (Ch e f g)) (fst kw))
                  (snd kw) in
  let t2 := add32 (Sigma0 a) (Maj a b c) in
  (add32 t1 t2, a, b, c, add32 d t1, e, f, g).

Definition compress (s : state) (block : list Z) : state :=
  let w := rev (schedule 48 (rev block)) in
  let '(a, b, c, d, e, f, g, h) := fold_left round (combine K w) s in
  let '(a0, b0, c0, d0, e0, f0, g0, h0) := s in
  (add32 a0 a, add32 b0 b, add32 c0 c, add32 d0 d,
   add32 e0 e, add32 f0 f, add32 g0 g, add32 h0 h).

Fixpoint blocks (fuel : nat) (ws : list Z) (s : state) : state :=
  match fuel, ws with
  | S fuel', _ :: _ => blocks fuel' (skipn 16 ws) (compress s (firstn 16 ws))
  | _, _ => s
  end.

Definition initial : state :=
  match H0 with
  | [a; b; c; d; e; f; g; h] => (a, b, c, d, e, f, g, h)
  | _ => (0, 0, 0, 0, 0, 0, 0, 0)
  end.

Definition digest_Z (msg : list Z) : list Z :=
  let p := pad msg in
  let ws := be_words (List.length p) p in
  let '(a, b, c, d, e, f, g, h) := blocks (List.length ws) ws initial in
  flat_map (be_bytes 4) [a; b; c; d; e; f; g; h].

Definition Z_of_byte (x : byte) : Z := Z.of_N (Byte.to_N x).
Definition byte_of_Z (z : Z) : byte :=
  match Byte.of_N (Z.to_N (Z.land z 255)) with Some x => x | None => x00 end.

(** [hashlib.sha256(msg).digest()]. *)
Definition sha256 (msg : list byte) : list byte :=
  map byte_of_Z (digest_Z (map Z_of_byte msg)).

(** [hmac.new(key, msg, hashlib.sha256).digest()]. *)
Definition hmac (key msg : list byte) : list byte :=
  let k := if (64 <? List.length key)%nat then sha256 key else key in
  let k := map Z_of_byte k ++ repeat 0 (64 - List.length k)%nat in
  let ipad := map (fun x => byte_of_Z (Z.lxor x 54)) k in
  let opad := map (fun x => byte_of_Z (Z.lxor x 92)) k in
  sha256 (opad ++ sha256 (ipad ++ msg)).

(** [bytes.hex()]: two lowercase hexadecimal digits per byte. *)
Definition hex_digit (n : N) : ascii :=
  ascii_of_N (if (n <? 10)%N then 48 + n else 87 + n).

Fixpoint hex (bs : list byte) : string :=
  match bs with
  | [] => EmptyString
  | x :: bs' =>
      let n := Byte.to_N x in
      String (hex_digit (N.shiftr n 4))
        (String (hex_digit (N.land n 15)) (hex bs'))
  end.

Definition hmac_hexdigest (key msg : list byte) : string :=
  hex (hmac key msg).

End SHA256.


(** ** [scripts/deploy-webhook.py] *)

Module Webhook.
Import Py.
#[local] Open Scope py_scope.

(** What [json.loads] can return. *)
#[warnings="-register-all"]
Inductive value :=
| VNone
| VBool (x : bool)
| VInt (z : Z)
| VFloat (repr : string)
| VStr (s : string)
| VList (l : list value)
| VDict (d : list (string * value)).

(** [d.get(key, default)] on the bindings of a [dict]. *)
Fixpoint dict_get (d : list (string * value)) (key : string) (dflt : value)
  : value :=
  match d with
  | [] => dflt
  | (k, v) :: d' => if String.eqb k key then v else dict_get d' key dflt
  end.

(** [data.get(key, default)]: only a [dict] has the method. *)
Definition value_get (data : value) (key : string) (dflt : value)
  : exn + value :=
  match data with
  | VDict d => inr (dict_get d key dflt)
  | _ => inl (Exn AttributeError "object has no attribute 'get'")
  end.

(** [v == s] for a string literal [s]. *)
Definition eq_str (v : value) (s : string) : bool :=
  match v with VStr t => String.eqb t s | _ => false end.

(** An f-string: literal text and interpolated values. *)
Inductive frag := Lit (s : string) | Fmt (v : value).
Definition text : Type := list frag.

Inductive event :=
| Log (line : text)
| SubprocessRun (args : list string) (timeout : Z) (cwd : string)
| SendError (code : Z) (message : text)
| SendResponse (code : Z)
| SendHeader (keyword val : string)
| EndHeaders
| Write (body : list (string * string)).

Record CompletedProcess :=
  { returncode : Z; stdout : string; stderr : string }.

(** The world outside the handler: the file system, the deployment
    script and the [json] library. *)
Record world :=
  { path_exists : string -> bool;
    subprocess_run : list string -> Z -> string -> exn + CompletedProcess;
    json_loads : list byte -> exn + value }.

Record request :=
  { path : string;
    headers : list (string * string);
    rfile : list byte;
    client_address : string }.

Record config := { WEBHOOK_SECRET : string; AUTOMEM_DIR : string }.

(** [os.getenv(key, default)]. *)
Definition getenv (environ : gmap string string) (key dflt : string)
  : string :=
  default dflt (environ !! key).

(** The module-level configuration; [here] is the directory above the
    script's own. *)
Definition load_config (environ : gmap string string) (here : string)
  : config :=
  {| WEBHOOK_SECRET := getenv environ "WEBHOOK_SECRET" "automem-deploy-secret";
     AUTOMEM_DIR := getenv environ "AUTOMEM_DIR" here |}.

(** [self.headers.get(name)]: the first header of that name, whatever
    its case. *)
Definition lower_char (c : ascii) : ascii :=
  let n := nat_of_ascii c in
  if ((65 <=? n) && (n <=? 90))%nat then ascii_of_nat (n + 32) else c.

Fixpoint lower (s : string) : string :=
  match s with
  | EmptyString => EmptyString
  | String c s' => String (lower_char c) (lower s')
  end.

Fixpoint headers_get (hs : list (string * string)) (name : string)
  : option string :=
  match hs with
  | [] => None
  | (k, v) :: hs' =>
      if String.eqb (lower k) (lower name) then Some v
      else headers_get hs' name
  end.

(** [self.rfile.read(n)] on the bytes the client sent, where the call
    returns: [n] from -1 up to what the machine can allocate.  The lengths
    on which it raises are in [WebhookIO]. *)
Definition read (f : list byte) (n : Z) : list byte :=
  if n <? 0 then f else firstn (Z.to_nat n) f.

(** [log] and the [send_*] methods, taken to succeed: a line written, a
    response started or continued.  In [WebhookIO] they can raise. *)
Definition log (line : text) : M event unit := emit (Log line).
Definition send_error (code : Z) (message : text) : M event unit :=
  emit (SendError code message).
Definition send_json (code : Z) (body : list (string * string))
  : M event unit :=
  emit (SendResponse code) ;;
  emit (SendHeader "Content-Type" "application/json") ;;
  emit EndHeaders ;;
  emit (Write body).

Definition verify_signature (payload : list byte) (signature : option string)
    (secret : string) : exn + bool :=
  match signature with
  | None => inr false
  | Some signature =>
      if negb (truthy signature) then inr false
      else
        let expected :=
          "sha256=" +:+ SHA256.hmac_hexdigest (encode secret) payload in
        compare_digest expected signature
  end.

Definition script_path (cfg : config) : string :=
  join (AUTOMEM_DIR cfg) ["scripts"; "sync-and-deploy.sh"].

Definition run (w : world) (args : list string) (timeout : Z) (cwd : string)
  : M event CompletedProcess :=
  emit (SubprocessRun args timeout cwd) ;;
  lift (subprocess_run w args timeout cwd).

Definition deploy (cfg : config) (w : world) : M event unit :=
  let script_path := script_path cfg in
  if negb (path_exists w script_path) then
    log [Lit ("Script not found: " +:+ script_path)] ;;
    send_error 500 [Lit "Deploy script not found"]
  else
    try_except
      (log [Lit "Starting deployment..."] ;;
       result <- run w [script_path; "--auto"] 300 (AUTOMEM_DIR cfg) ;;
       if returncode result =? 0 then
         log [Lit ("Deployment successful:" +:+ String "010" (stdout result))] ;;
         send_json 200
           [("status", "success");
            ("message", "Deployment completed");
            ("output", slice_last 1000 (stdout result))]
       else
         log [Lit ("Deployment failed:" +:+ String "010" (stderr result))] ;;
         send_json 500
           [("status", "error");
            ("message", "Deployment failed");
            ("error", slice_last 1000 (stderr result))])
      (fun e =>
         if exn_class_eqb (exn_cls e) TimeoutExpired then
           Some (log [Lit "Deployment timed out"] ;;
                 send_error 504 [Lit "Deployment timed out"])
         else if is_Exception e then
           Some (log [Lit ("Deployment error: " +:+ exn_str e)] ;;
                 send_error 500 [Lit (exn_str e)])
         else None).

Definition check (cfg : config) (w : world) : M event unit :=
  let script_path := script_path cfg in
  result <- run w [script_path; "--check"] 60 (AUTOMEM_DIR cfg) ;;
  send_json 200 [("status", "ok"); ("output", stdout result)].

(** Lines 70 to 73: the body as JSON, an empty [dict] when there is no
    body or [json.loads] raises [JSONDecodeError]. *)
Definition parse_body (w : world) (payload : list byte) : M event value :=
  try_except
    (if truthy_bytes payload then lift (json_loads w payload)
     else ret (VDict []))
    (fun e =>
       if exn_class_eqb (exn_cls e) JSONDecodeError
       then Some (ret (VDict [])) else None).

(** The log line [f"Received {action} request from {source} (...)"]. *)
Definition received (req : request) (action source : value) : text :=
  [Lit "Received "; Fmt action; Lit " request from "; Fmt source;
   Lit (" (" +:+ client_address req +:+ ")")].

(** Lines 70 to 151: what [do_POST] does once the request is let in. *)
Definition dispatch (cfg : config) (w : world) (req : request)
    (payload : list byte) : M event unit :=
  data <- parse_body w payload ;;
  action <- lift (value_get data "action" (VStr "deploy")) ;;
  source <- lift (value_get data "source" (VStr "unknown")) ;;
  log (received req action source) ;;
  if eq_str action "deploy" then deploy cfg w
  else if eq_str action "check" then check cfg w
  else send_error 400 [Lit "Unknown action: "; Fmt action].

Definition content_length (req : request) : exn + Z :=
  match headers_get (headers req) "Content-Length" with
  | None => inr 0
  | Some s => int s
  end.

Definition reject (req : request) : M event unit :=
  log [Lit ("Invalid signature from " +:+ client_address req)] ;;
  send_error 403 [Lit "Invalid signature"].

Definition do_POST (cfg : config) (w : world) (req : request)
  : M event unit :=
  if negb (String.eqb (path req) "/deploy") then
    send_error 404 [Lit "Not Found"]
  else
    n <- lift (content_length req) ;;
    let payload := read (rfile req) n in
    let signature :=
      py_or (headers_get (headers req) "X-Webhook-Secret")
            (headers_get (headers req) "X-Hub-Signature-256") in
    invalid <- (if truthy (WEBHOOK_SECRET cfg) then
                  ok <- lift (verify_signature payload signature
                                (WEBHOOK_SECRET cfg)) ;;
                  ret (negb ok)
                else ret false) ;;
    if invalid then
      if opt_str_ne (headers_get (headers req) "X-Webhook-Secret")
           (WEBHOOK_SECRET cfg)
      then reject req
      else dispatch cfg w req payload
    else dispatch cfg w req payload.

Definition do_GET (req : request) : M event unit :=
  if String.eqb (path req) "/health" then
    send_json 200 [("status", "healthy"); ("service", "automem-webhook")]
  else send_error 404 [Lit "Not Found"].

(** How many responses a trace holds: each [send_error] and each
    [send_response] starts one. *)
Definition is_response (ev : event) : bool :=
  match ev with SendError _ _ | SendResponse _ => true | _ => false end.

Definition responses (t : list event) : nat :=
  List.length (List.filter is_response t).

Definition is_run (ev : event) : bool :=
  match ev with SubprocessRun _ _ _ => true | _ => false end.

Definition runs (t : list event) : list event := List.filter is_run t.

(** *** Vocabulary of the specification *)

(** The request passes lines 54 to 68: the handler goes on to [dispatch]
    with [payload] as the body it read, having sent and logged nothing. *)
Definition authorized (cfg : config) (req : request) (payload : list byte)
  : Prop :=
  forall w, do_POST cfg w req = dispatch cfg w req payload.

(** The action a body asks for: the body is a JSON object (or is taken as
    the empty one) and this is its [action], [deploy] when it has none. *)
Definition requested (w : world) (payload : list byte) : option value :=
  match outcome (parse_body w payload) with
  | inr (VDict d) => Some (dict_get d "action" (VStr "deploy"))
  | _ => None
  end.

(** The header the handler verifies: [X-Webhook-Secret] when it is there
    and not empty, else [X-Hub-Signature-256]. *)
Definition presented (req : request) : option string :=
  py_or (headers_get (headers req) "X-Webhook-Secret")
        (headers_get (headers req) "X-Hub-Signature-256").

(** The same, read off the conditions of lines 54 to 68: the path is
    [/deploy], the body could be read, and the secret is empty, or the
    presented header verifies, or it does not and [X-Webhook-Secret] is the
    secret. *)
Definition passes_gate (cfg : config) (req : request) (payload : list byte)
  : Prop :=
  path req = "/deploy"
  /\ exists n,
       content_length req = inr n
       /\ payload = read (rfile req) n
       /\ (truthy (WEBHOOK_SECRET cfg) = false
           \/ verify_signature payload (presented req) (WEBHOOK_SECRET cfg)
              = inr true
           \/ (verify_signature payload (presented req) (WEBHOOK_SECRET cfg)
               = inr false
               /\ opt_str_ne (headers_get (headers req) "X-Webhook-Secret")
                    (WEBHOOK_SECRET cfg) = false)).

(** Two worlds that tell requests apart: in the first nothing is JSON and
    the script is missing; in the second [json.loads] raises an error that
    quotes its argument. *)
Definition bare_world : world :=
  {| path_exists := fun _ => false;
     subprocess_run := fun _ _ _ => inl (Exn OSError EmptyString);
     json_loads := fun _ => inl (Exn JSONDecodeError EmptyString) |}.

Definition echo_world : world :=
  {| path_exists := fun _ => false;
     subprocess_run := fun _ _ _ => inl (Exn OSError EmptyString);
     json_loads := fun p => inl (Exn ValueError (string_of_list_byte p)) |}.

(** The value the signature header must carry for [payload]. *)
Definition expected_signature (secret : string) (payload : list byte)
  : string :=
  "sha256=" +:+ SHA256.hmac_hexdigest (encode secret) payload.

(** Two sequences that differ at exactly one position. *)
Inductive single_change {A : Type} : list A -> list A -> Prop :=
| change_here x y l : x <> y -> single_change (x :: l) (y :: l)
| change_later x l l' : single_change l l' -> single_change (x :: l) (x :: l').

Definition single_char_change (s s' : string) : Prop :=
  single_change (list_ascii_of_string s) (list_ascii_of_string s').

(** Whether [needle] occurs in [hay], and whether a message names it. *)
Fixpoint contains (needle hay : string) : bool :=
  String.prefix needle hay
  || match hay with
     | EmptyString => false
     | String _ hay' => contains needle hay'
     end.

Definition mentions (needle : string) (message : text) : bool :=
  existsb
    (fun f =>
       match f with
       | Lit s | Fmt (VStr s) => contains needle s
       | Fmt _ => false
       end)
    message.

End Webhook.

(** ** [automem/embedding/gemini.py] *)

Module Gemini.
Import Py.
#[local] Open Scope py_scope.

(** The arithmetic [_normalize_embedding] does on Python floats; the
    properties below hold whatever these operations compute. *)
Class FloatOps (F : Type) :=
  { fmul : F -> F -> F;
    fsum : list F -> F;
    fsqrt : F -> F;
    fdiv : F -> F -> F;
    is_zero : F -> bool }.

(** [contents=] of [embed_content]: one text or a list of texts. *)
Inductive contents := Text (t : string) | Texts (ts : list string).

Record EmbedContentConfig :=
  { output_dimensionality : Z; config_task_type : option string }.

(** The one effect: a call of [client.models.embed_content]. *)
Inductive event :=
| EmbedContent (model : string) (c : contents) (config : EmbedContentConfig).

Section Provider.
Context {F : Type} `{FloatOps F}.

(** A provider as [__init__] leaves it.  [client] answers an
    [embed_content] call with the [values] of [result.embeddings], or
    raises. *)
Record GeminiEmbeddingProvider :=
  { client : string -> contents -> EmbedContentConfig -> exn + list (list F);
    model : string;
    _dimension : Z;
    task_type : option string }.

Definition len {A} (l : list A) : Z := Z.of_nat (List.length l).

Definition _normalize_embedding (self : GeminiEmbeddingProvider)
    (embedding : list F) : list F :=
  if _dimension self =? 3072 then embedding
  else
    let norm := fsqrt (fsum (map (fun x => fmul x x) embedding)) in
    if is_zero norm then embedding
    else map (fun x => fdiv x norm) embedding.

Definition make_config (self : GeminiEmbeddingProvider)
  : EmbedContentConfig :=
  {| output_dimensionality := _dimension self;
     config_task_type :=
       if truthy_opt (task_type self) then task_type self else None |}.

Definition embed_content (self : GeminiEmbeddingProvider) (c : contents)
  : M event (list (list F)) :=
  let config := make_config self in
  emit (EmbedContent (model self) c config) ;;
  lift (client self (model self) c config).

Definition generate_embedding (self : GeminiEmbeddingProvider)
    (text : string) : M event (list F) :=
  embeddings <- embed_content self (Text text) ;;
  match embeddings with
  | [] => raise (Exn IndexError "list index out of range")
  | embedding :: _ =>
      if negb (len embedding =? _dimension self) then
        raise (Exn ValueError
                 ("Gemini embedding length " +:+ pretty (len embedding)
                  +:+ " != configured dimension " +:+ pretty (_dimension self)
                  +:+ " (model=" +:+ model self
                  +:+ "). Check output_dimensionality setting."))
      else ret (_normalize_embedding self embedding)
  end.

(** [next((i for i, e in enumerate(embeddings) if len(e) != d), None)]. *)
Fixpoint first_bad (d : Z) (i : nat) (embeddings : list (list F))
  : option nat :=
  match embeddings with
  | [] => None
  | e :: rest =>
      if negb (len e =? d) then Some i else first_bad d (S i) rest
  end.

Definition generate_embeddings_batch (self : GeminiEmbeddingProvider)
    (texts : list string) : M event (list (list F)) :=
  match texts with
  | [] => ret []
  | _ :: _ =>
      embeddings <- embed_content self (Texts texts) ;;
      match first_bad (_dimension self) 0 embeddings with
      | Some bad =>
          raise (Exn ValueError
                   ("Gemini batch embedding length "
                    +:+ pretty (len (nth bad embeddings []))
                    +:+ " != configured dimension "
                    +:+ pretty (_dimension self)
                    +:+ " at index " +:+ pretty (N.of_nat bad)
                    +:+ " (model=" +:+ model self +:+ ")."))
      | None => ret (map (_normalize_embedding self) embeddings)
      end
  end.

Definition dimension (self : GeminiEmbeddingProvider) : Z :=
  _dimension self.

Definition provider_name (self : GeminiEmbeddingProvider) : string :=
  "gemini:" +:+ model self.

End Provider.

Arguments GeminiEmbeddingProvider F : clear implicits.

End Gemini.

(** ** Sample configurations, requests and worlds

    The inputs the examples below are run on. *)

Module Sample.
Import Py Webhook.

Definition quote : string := String "034" EmptyString.
Definition lit (s : string) : string := quote +:+ s +:+ quote.

(** The body [{k: v}] for two string literals. *)
Definition body1 (k v : string) : list byte :=
  b ("{" +:+ lit k +:+ ":" +:+ lit v +:+ "}").

Definition body_check : list byte := body1 "action" "check".
Definition body_restart : list byte := body1 "action" "restart".
Definition body_source : list byte := body1 "source" "ci".
Definition body_empty_object : list byte := b "{}".
Definition body_array : list byte := b "[]".
Definition body_text : list byte := b "deploy please".
Definition body_xff : list byte := ["255"%byte].

(** What [json.loads] gives on those bodies: the two objects parse to a
    [dict], the array to a [list]; the text is not JSON; the byte 0xFF is
    not UTF-8, which [json.loads] reports as a [UnicodeDecodeError] before
    it parses anything. *)
Definition loads_table : list (list byte * (exn + value)) :=
  [ (body_check, inr (VDict [("action", VStr "check")]));
    (body_restart, inr (VDict [("action", VStr "restart")]));
    (body_source, inr (VDict [("source", VStr "ci")]));
    (body_empty_object, inr (VDict []));
    (body_array, inr (VList []));
    (body_xff, inl (Exn UnicodeDecodeError "'utf-8' codec can't decode byte 0xff in position 0: invalid start byte")) ].

Definition bytes_eqb (x y : list byte) : bool :=
  String.eqb (string_of_list_byte x) (string_of_list_byte y).

Fixpoint lookup_body (t : list (list byte * (exn + value)))
    (payload : list byte) : exn + value :=
  match t with
  | [] => inl (Exn JSONDecodeError "Expecting value: line 1 column 1 (char 0)")
  | (k, r) :: t' => if bytes_eqb k payload then r else lookup_body t' payload
  end.

(** A world where the script is there or not, as [exists_] says, and its
    run ends as [result] says. *)
Definition world_with (exists_ : bool) (result : exn + CompletedProcess)
  : world :=
  {| path_exists := fun _ => exists_;
     subprocess_run := fun _ _ _ => result;
     json_loads := lookup_body loads_table |}.

Definition ok_run : exn + CompletedProcess :=
  inr {| returncode := 0; stdout := "Already up to date."; stderr := "" |}.

Definition failed_run : exn + CompletedProcess :=
  inr {| returncode := 1; stdout := "Fetching..."; stderr := "fatal: merge conflict" |}.

Definition timeout_error : exn := Exn TimeoutExpired "Command timed out".
Definition timed_out : exn + CompletedProcess := inl timeout_error.

Definition not_found_error : exn :=
  Exn FileNotFoundError "[Errno 2] No such file or directory".
Definition not_found : exn + CompletedProcess := inl not_found_error.

Definition cfg : config :=
  {| WEBHOOK_SECRET := "s3cret"; AUTOMEM_DIR := "/opt/automem" |}.

Definition post (hs : list (string * string)) (body : list byte) : request :=
  {| path := "/deploy";
     headers :=
       ("Content-Length", pretty (N.of_nat (List.length body))) :: hs;
     rfile := body;
     client_address := "203.0.113.7" |}.

Definition signed (secret : string) (body : list byte) : string :=
  "sha256=" +:+ SHA256.hmac_hexdigest (encode secret) body.

(** [signed] with its first hexadecimal digit replaced by another one. *)
Definition tamper (digest : string) : string :=
  match digest with
  | String c r => String (if Ascii.eqb c "0" then "1" else "0")%char r
  | EmptyString => EmptyString
  end.

Definition tampered (secret : string) (body : list byte) : string :=
  "sha256=" +:+ tamper (SHA256.hmac_hexdigest (encode secret) body).

(** A signature that is not ASCII: [sha256=] and the character U+00E9. *)
Definition latin1_signature : string :=
  "sha256=" +:+ String (ascii_of_nat 233) EmptyString.

Definition body_chock : list byte := body1 "action" "chock".

(** Requests with the signature header only, with a wrong [X-Webhook-Secret]
    beside it, with the shared secret only, and with no proof at all. *)
Definition req_signed : request :=
  post [("X-Hub-Signature-256", signed "s3cret" body_check)] body_check.

Definition req_tampered_signature : request :=
  post [("X-Hub-Signature-256", tampered "s3cret" body_check)] body_check.

Definition req_tampered_body : request :=
  post [("X-Hub-Signature-256", signed "s3cret" body_check)] body_chock.

Definition req_shadowed : request :=
  post [("X-Webhook-Secret", "wrong");
        ("X-Hub-Signature-256", signed "s3cret" body_check)] body_check.

Definition req_latin1_signature : request :=
  post [("X-Hub-Signature-256", latin1_signature)] body_check.

Definition req_secret (body : list byte) : request :=
  post [("X-Webhook-Secret", "s3cret")] body.

Definition req_bare (body : list byte) : request := post [] body.

(** [os.environ] without [WEBHOOK_SECRET], and with it set to nothing. *)
Definition environ_unset : gmap string string :=
  insert "PATH" "/usr/bin" empty.

Definition environ_empty_secret : gmap string string :=
  insert "WEBHOOK_SECRET" EmptyString environ_unset.

(** Integers in place of floats, and a provider of dimension 2 whose API
    answers with the given vectors. *)
Definition Z_ops : Gemini.FloatOps Z :=
  {| Gemini.fmul := Z.mul;
     Gemini.fsum := fold_right Z.add 0;
     Gemini.fsqrt := Z.sqrt;
     Gemini.fdiv := Z.div;
     Gemini.is_zero := Z.eqb 0 |}.

Definition provider_answering (answer : list (list Z))
  : Gemini.GeminiEmbeddingProvider Z :=
  {| Gemini.client := fun _ _ _ => inr answer;
     Gemini.model := "gemini-embedding-001";
     Gemini._dimension := 2;
     Gemini.task_type := Some "RETRIEVAL_DOCUMENT" |}.

End Sample.


(** ** The rest of the two modules

    What a trace of the webhook answers, and the constructor of the
    provider with its table of task types. *)

Module WebhookRest.
Import Py Webhook.

(** A string of decimal digits, as [int] reads them. *)
Definition is_digit (c : ascii) : bool :=
  match digit_of c with Some _ => true | None => false end.

Fixpoint all_digits (s : string) : bool :=
  match s with
  | EmptyString => true
  | String c s' => is_digit c && all_digits s'
  end.

(** The status codes of the responses a trace starts. *)
Definition status (ev : event) : option Z :=
  match ev with
  | SendError code _ | SendResponse code => Some code
  | _ => None
  end.

Fixpoint statuses (t : list event) : list Z :=
  match t with
  | [] => []
  | ev :: t' =>
      match status ev with
      | Some code => code :: statuses t'
      | None => statuses t'
      end
  end.

(** Two requests that [do_POST] cannot tell apart: the same path, bytes
    and client, and the same three headers. *)
Definition same_for_handler (req req' : request) : Prop :=
  path req = path req'
  /\ rfile req = rfile req'
  /\ client_address req = client_address req'
  /\ headers_get (headers req) "Content-Length"
     = headers_get (headers req') "Content-Length"
  /\ headers_get (headers req) "X-Webhook-Secret"
     = headers_get (headers req') "X-Webhook-Secret"
  /\ headers_get (headers req) "X-Hub-Signature-256"
     = headers_get (headers req') "X-Hub-Signature-256".

End WebhookRest.

Module GeminiInit.
Import Py Gemini.

Definition GEMINI_EMBEDDING_MODEL : string := "gemini-embedding-001".

Definition GEMINI_TASK_TYPES : list (string * string) :=
  [ ("semantic_similarity", "SEMANTIC_SIMILARITY");
    ("classification", "CLASSIFICATION");
    ("clustering", "CLUSTERING");
    ("retrieval_document", "RETRIEVAL_DOCUMENT");
    ("retrieval_query", "RETRIEVAL_QUERY");
    ("code_retrieval_query", "CODE_RETRIEVAL_QUERY");
    ("question_answering", "QUESTION_ANSWERING");
    ("fact_verification", "FACT_VERIFICATION") ].

(** The names [GEMINI_TASK_TYPES] maps to. *)
Definition task_type_values : list string := map snd GEMINI_TASK_TYPES.

(** [d[key]] when [key in d], and [x in d.values()]. *)
Fixpoint lookup (key : string) (d : list (string * string)) : option string :=
  match d with
  | [] => None
  | (k, v) :: d' => if String.eqb k key then Some v else lookup key d'
  end.

Definition in_values (x : string) (d : list (string * string)) : bool :=
  existsb (fun kv => String.eqb (snd kv) x) d.

(** [str.lower()] on code points below 256: the letters A to Z, and U+00C0
    to U+00DE but for the multiplication sign. *)
Definition lower_char (c : ascii) : ascii :=
  let n := nat_of_ascii c in
  if ((65 <=? n) && (n <=? 90)
      || (192 <=? n) && (n <=? 222) && negb (n =? 215))%nat
  then ascii_of_nat (n + 32) else c.

Fixpoint lower (s : string) : string :=
  match s with
  | EmptyString => EmptyString
  | String c s' => String (lower_char c) (lower s')
  end.

(** [str.upper()] on code points below 256.  The sharp s becomes [SS]; the
    micro sign and the y with diaeresis become characters above U+00FF,
    for which there is no result here. *)
Definition upper_char (c : ascii) : option string :=
  let n := nat_of_ascii c in
  if ((n =? 181) || (n =? 255))%nat then None
  else if (n =? 223)%nat then Some "SS"
  else if ((97 <=? n) && (n <=? 122)
           || (224 <=? n) && (n <=? 254) && negb (n =? 247))%nat
  then Some (String (ascii_of_nat (n - 32)) EmptyString)
  else Some (String c EmptyString).

Fixpoint upper (s : string) : option string :=
  match s with
  | EmptyString => Some EmptyString
  | String c s' =>
      match upper_char c, upper s' with
      | Some u, Some r => Some (u +:+ r)
      | _, _ => None
      end
  end.

(** Lines 67 to 84 of [__init__]: the task type the provider keeps.  An
    upper-cased name that leaves U+0000..U+00FF is none of the values of the
    table, which are ASCII. *)
Definition resolve_task_type (task_type : option string) : option string :=
  match task_type with
  | None => Some "RETRIEVAL_DOCUMENT"
  | Some t =>
      if negb (truthy t) then Some "RETRIEVAL_DOCUMENT"
      else
        let task_type_lower := lower t in
        match lookup task_type_lower GEMINI_TASK_TYPES with
        | Some v => Some v
        | None =>
            match upper t with
            | Some u => if in_values u GEMINI_TASK_TYPES then Some u else None
            | None => None
            end
        end
  end.

Section Init.
Context {F : Type}.

(** [GeminiEmbeddingProvider(api_key, model, dimension, task_type)], with
    the client that [genai.Client(api_key=api_key)] gave; an argument left
    out is [None] here. *)
Definition __init__
    (the_client : string -> contents -> EmbedContentConfig
                  -> exn + list (list F))
    (the_model : option string) (the_dimension : option Z)
    (the_task_type : option string) : GeminiEmbeddingProvider F :=
  {| client := the_client;
     model := default GEMINI_EMBEDDING_MODEL the_model;
     _dimension := default 768 the_dimension;
     task_type := resolve_task_type the_task_type |}.

End Init.

End GeminiInit.

Module MoreSamples.
Import Py Webhook Sample.

Definition permission_error : exn :=
  Exn PermissionError "[Errno 13] Permission denied".
Definition denied : exn + CompletedProcess := inl permission_error.

(** A request that carries the shared secret and a body, and no
    [Content-Length]. *)
Definition req_no_length : request :=
  {| path := "/deploy";
     headers := [("X-Webhook-Secret", "s3cret")];
     rfile := body_check;
     client_address := "203.0.113.7" |}.

Definition req_bad_length : request :=
  {| path := "/deploy";
     headers := [("Content-Length", "eighteen")];
     rfile := body_check;
     client_address := "203.0.113.7" |}.

(** [req_signed] with more headers, and the names in another case. *)
Definition req_signed_verbose : request :=
  {| path := "/deploy";
     headers :=
       [("Host", "deploy.example.org");
        ("content-length", "18");
        ("User-Agent", "GitHub-Hookshot/abc");
        ("x-hub-signature-256", signed "s3cret" body_check);
        ("X-GitHub-Event", "push")];
     rfile := body_check;
     client_address := "203.0.113.7" |}.

(** A request that carries the secret the code falls back on. *)
Definition req_default_secret : request :=
  post [("X-Webhook-Secret", "automem-deploy-secret")] body_check.

(** The API of a provider that raises, and one that answers. *)
Definition api_down : exn := Exn APIError "503 UNAVAILABLE".

Definition provider_down : Gemini.GeminiEmbeddingProvider Z :=
  GeminiInit.__init__ (fun _ _ _ => inl api_down) None (Some 2) None.

Definition provider_built (task_type : option string)
    (answer : list (list Z)) : Gemini.GeminiEmbeddingProvider Z :=
  GeminiInit.__init__ (fun _ _ _ => inr answer) None (Some 2) task_type.

End MoreSamples.

(** ** [scripts/deploy-webhook.py], input and output included

    [Webhook] above takes every line to be printed, every part of a response
    to be written and the body to be there to read, and keeps the strings of
    a JSON body and of the script's output within U+0000..U+00FF.  That is
    enough to show where the handler fails; it is too much to state what
    the handler does on every request.  This module is the same handler
    with none of these assumptions.
    - A [str] that comes from [json.loads] or from the script is a list of
      code points, lone surrogates included.  The configuration, the
      headers, the client address and the message of an exception stay
      [string]s; [send_error] can send no other message.
    - [self.rfile.read(n)] is answered by the request: the bytes read, or
      the exception raised ([ValueError] below -1, [OverflowError] from
      2^63 - 1 on, [MemoryError], or an error of the connection).
    - [log], [send_error], [send_response], [send_header], [end_headers]
      and [wfile.write] are calls that the world lets return or makes
      raise: [print] raises [UnicodeEncodeError] on what the standard
      output cannot encode, [send_error] encodes its message as Latin-1,
      and a write fails when the client has gone.
    - [int] refuses a numeral of more than 4300 digits.
    The trace of a computation holds the calls that returned, and the calls
    of [subprocess.run].  What a library method does inside a call, the
    lines it logs through [log_message] included, is part of that call. *)

Module WebhookIO.
Import Py.
#[local] Open Scope py_scope.

(** A Python [str] as its code points, and the [str] of a string of the
    embedding. *)
Definition str : Type := list N.

Definition u (s : string) : str :=
  map N_of_ascii (list_ascii_of_string s).
#[global] Arguments u : simpl never.

(** [s == t] on two [str]. *)
Fixpoint str_eqb (s t : str) : bool :=
  match s, t with
  | [], [] => true
  | c :: s', d :: t' => N.eqb c d && str_eqb s' t'
  | _, _ => false
  end.

(** [s[-n:]] for [n > 0]. *)
Definition slice_last (n : nat) (s : str) : str :=
  skipn (List.length s - n) s.

(** [int(s)] as CPython 3.11 has it: a numeral of more than 4300 digits
    ([sys.int_info.default_max_str_digits]) is refused, leading zeros
    counted, underscores and blanks not. *)
Fixpoint count_digits (s : string) : nat :=
  match s with
  | EmptyString => O
  | String c s' =>
      match digit_of c with
      | Some _ => S (count_digits s')
      | None => count_digits s'
      end
  end.

Definition int (s : string) : exn + Z :=
  if (4300 <? count_digits s)%nat then
    inl (Exn ValueError
           "Exceeds the limit (4300 digits) for integer string conversion")
  else Py.int s.

(** [WEBHOOK_PORT = int(os.getenv("WEBHOOK_PORT", "9000"))], evaluated when
    the module is loaded. *)
Definition WEBHOOK_PORT (environ : gmap string string) : exn + Z :=
  int (Webhook.getenv environ "WEBHOOK_PORT" "9000").

(** What [json.loads] can return. *)
#[warnings="-register-all"]
Inductive value :=
| VNone
| VBool (x : bool)
| VInt (z : Z)
| VFloat (repr : string)
| VStr (s : str)
| VList (l : list value)
| VDict (d : list (str * value)).

(** [d.get(key, default)] on the bindings of a [dict]. *)
Fixpoint dict_get (d : list (str * value)) (key : str) (dflt : value)
  : value :=
  match d with
  | [] => dflt
  | (k, v) :: d' => if str_eqb k key then v else dict_get d' key dflt
  end.

(** [data.get(key, default)]: only a [dict] has the method. *)
Definition value_get (data : value) (key : string) (dflt : value)
  : exn + value :=
  match data with
  | VDict d => inr (dict_get d (u key) dflt)
  | _ => inl (Exn AttributeError "object has no attribute 'get'")
  end.

(** [v == s] for a string literal [s]. *)
Definition eq_str (v : value) (s : string) : bool :=
  match v with VStr t => str_eqb t (u s) | _ => false end.

(** An f-string: literal text, an interpolated [str], an interpolated
    value.  The text of a [str] from the configuration, of a client address
    or of an exception is literal text. *)
Inductive frag := Lit (s : string) | Str (s : str) | Fmt (v : value).
Definition text : Type := list frag.

Inductive event :=
| Log (line : text)
| SubprocessRun (args : list string) (timeout : Z) (cwd : string)
| SendError (code : Z) (message : text)
| SendResponse (code : Z)
| SendHeader (keyword val : string)
| EndHeaders
| Write (body : list (string * str)).

Record CompletedProcess :=
  { returncode : Z; stdout : str; stderr : str }.

(** The world outside the handler: the file system, the deployment
    script, the [json] library, and what becomes of a call that prints or
    sends, the formatting of its argument included: [fails w ev = Some e]
    when the call [ev] raises [e], and [None] when it returns.  Within one
    request the handler makes no two calls with the same arguments, so the
    answer needs no history. *)
Record world :=
  { path_exists : string -> bool;
    subprocess_run : list string -> Z -> string -> exn + CompletedProcess;
    json_loads : list byte -> exn + value;
    fails : event -> option exn }.

(** A request: [rfile_read n] is what [self.rfile.read(n)] gives. *)
Record request :=
  { path : string;
    headers : list (string * string);
    rfile_read : Z -> exn + list byte;
    client_address : string }.

(** A call that prints or sends. *)
Definition perform (w : world) (ev : event) : M event unit :=
  match fails w ev with
  | Some e => raise e
  | None => emit ev
  end.

(** [log]: the [print] of line 36 is outside the [try] of lines 37 to 41,
    so what it raises leaves [log]; a failure to append to the file is
    swallowed and changes nothing here. *)
Definition log (w : world) (line : text) : M event unit :=
  perform w (Log line).

Definition send_error (w : world) (code : Z) (message : text)
  : M event unit :=
  perform w (SendError code message).

(** The four calls of lines 101 to 112, 115 to 126 and 145 to 148. *)
Definition send_json (w : world) (code : Z) (body : list (string * str))
  : M event unit :=
  perform w (SendResponse code) ;;
  perform w (SendHeader "Content-Type" "application/json") ;;
  perform w EndHeaders ;;
  perform w (Write body).

Definition run (w : world) (args : list string) (timeout : Z) (cwd : string)
  : M event CompletedProcess :=
  emit (SubprocessRun args timeout cwd) ;;
  lift (subprocess_run w args timeout cwd).

Definition deploy (cfg : Webhook.config) (w : world) : M event unit :=
  let script_path := Webhook.script_path cfg in
  if negb (path_exists w script_path) then
    log w [Lit ("Script not found: " +:+ script_path)] ;;
    send_error w 500 [Lit "Deploy script not found"]
  else
    try_except
      (log w [Lit "Starting deployment..."] ;;
       result <- run w [script_path; "--auto"] 300 (Webhook.AUTOMEM_DIR cfg) ;;
       if returncode result =? 0 then
         log w [Lit ("Deployment successful:" +:+ String "010" EmptyString);
                Str (stdout result)] ;;
         send_json w 200
           [("status", u "success");
            ("message", u "Deployment completed");
            ("output", slice_last 1000 (stdout result))]
       else
         log w [Lit ("Deployment failed:" +:+ String "010" EmptyString);
                Str (stderr result)] ;;
         send_json w 500
           [("status", u "error");
            ("message", u "Deployment failed");
            ("error", slice_last 1000 (stderr result))])
      (fun e =>
         if exn_class_eqb (exn_cls e) TimeoutExpired then
           Some (log w [Lit "Deployment timed out"] ;;
                 send_error w 504 [Lit "Deployment timed out"])
         else if is_Exception e then
           Some (log w [Lit ("Deployment error: " +:+ exn_str e)] ;;
                 send_error w 500 [Lit (exn_str e)])
         else None).

Definition check (cfg : Webhook.config) (w : world) : M event unit :=
  let script_path := Webhook.script_path cfg in
  result <- run w [script_path; "--check"] 60 (Webhook.AUTOMEM_DIR cfg) ;;
  send_json w 200 [("status", u "ok"); ("output", stdout result)].

(** Lines 70 to 73: the body as JSON, an empty [dict] when there is no
    body or [json.loads] raises [JSONDecodeError]. *)
Definition parse_body (w : world) (payload : list byte) : M event value :=
  try_except
    (if truthy_bytes payload then lift (json_loads w payload)
     else ret (VDict []))
    (fun e =>
       if exn_class_eqb (exn_cls e) JSONDecodeError
       then Some (ret (VDict [])) else None).

(** The log line [f"Received {action} request from {source} (...)"]. *)
Definition received (req : request) (action source : value) : text :=
  [Lit "Received "; Fmt action; Lit " request from "; Fmt source;
   Lit (" (" +:+ client_address req +:+ ")")].

(** Lines 70 to 151: what [do_POST] does once the request is let in. *)
Definition dispatch (cfg : Webhook.config) (w : world) (req : request)
    (payload : list byte) : M event unit :=
  data <- parse_body w payload ;;
  action <- lift (value_get data "action" (VStr (u "deploy"))) ;;
  source <- lift (value_get data "source" (VStr (u "unknown"))) ;;
  log w (received req action source) ;;
  if eq_str action "deploy" then deploy cfg w
  else if eq_str action "check" then check cfg w
  else send_error w 400 [Lit "Unknown action: "; Fmt action].

Definition content_length (req : request) : exn + Z :=
  match Webhook.headers_get (headers req) "Content-Length" with
  | None => inr 0
  | Some s => int s
  end.

Definition reject (w : world) (req : request) : M event unit :=
  log w [Lit ("Invalid signature from " +:+ client_address req)] ;;
  send_error w 403 [Lit "Invalid signature"].

Definition do_POST (cfg : Webhook.config) (w : world) (req : request)
  : M event unit :=
  if negb (String.eqb (path req) "/deploy") then
    send_error w 404 [Lit "Not Found"]
  else
    n <- lift (content_length req) ;;
    payload <- lift (rfile_read req n) ;;
    let signature :=
      py_or (Webhook.headers_get (headers req) "X-Webhook-Secret")
            (Webhook.headers_get (headers req) "X-Hub-Signature-256") in
    invalid <- (if truthy (Webhook.WEBHOOK_SECRET cfg) then
                  ok <- lift (Webhook.verify_signature payload signature
                                (Webhook.WEBHOOK_SECRET cfg)) ;;
                  ret (negb ok)
                else ret false) ;;
    if invalid then
      if opt_str_ne (Webhook.headers_get (headers req) "X-Webhook-Secret")
           (Webhook.WEBHOOK_SECRET cfg)
      then reject w req
      else dispatch cfg w req payload
    else dispatch cfg w req payload.

(** How many responses a trace holds: each [send_error] and each
    [send_response] that returned has started one. *)
Definition is_response (ev : event) : bool :=
  match ev with SendError _ _ | SendResponse _ => true | _ => false end.

Definition responses (t : list event) : nat :=
  List.length (List.filter is_response t).

Definition is_run (ev : event) : bool :=
  match ev with SubprocessRun _ _ _ => true | _ => false end.

Definition runs (t : list event) : list event := List.filter is_run t.

(** *** Vocabulary of the specification *)

(** Every call of [t] that prints or sends returns in [w]. *)
Definition returns (w : world) (ev : event) : bool :=
  match ev with
  | SubprocessRun _ _ _ => true
  | _ => match fails w ev with None => true | Some _ => false end
  end.

Definition succeed (w : world) (t : list event) : bool :=
  forallb (returns w) t.

(** The request passes lines 54 to 68: the handler goes on to [dispatch]
    with [payload] as the body it read, having sent and logged nothing. *)
Definition authorized (cfg : Webhook.config) (req : request)
    (payload : list byte) : Prop :=
  forall w, do_POST cfg w req = dispatch cfg w req payload.

(** The [action] and the [source] of lines 75 and 76: the body is a JSON
    object, or is taken as the empty one. *)
Definition requested (w : world) (payload : list byte) : option value :=
  match outcome (parse_body w payload) with
  | inr (VDict d) => Some (dict_get d (u "action") (VStr (u "deploy")))
  | _ => None
  end.

Definition sender (w : world) (payload : list byte) : option value :=
  match outcome (parse_body w payload) with
  | inr (VDict d) => Some (dict_get d (u "source") (VStr (u "unknown")))
  | _ => None
  end.

(** The header the handler verifies: [X-Webhook-Secret] when it is there
    and not empty, else [X-Hub-Signature-256]. *)
Definition presented (req : request) : option string :=
  py_or (Webhook.headers_get (headers req) "X-Webhook-Secret")
        (Webhook.headers_get (headers req) "X-Hub-Signature-256").

(** What lines 54 to 68 test: the path is [/deploy], [Content-Length]
    converts, the read returns [payload], and the secret is empty, or the
    presented header verifies, or it does not and [X-Webhook-Secret] is the
    secret. *)
Definition passes_gate (cfg : Webhook.config) (req : request)
    (payload : list byte) : Prop :=
  path req = "/deploy"
  /\ exists n,
       content_length req = inr n
       /\ rfile_read req n = inr payload
       /\ (truthy (Webhook.WEBHOOK_SECRET cfg) = false
           \/ Webhook.verify_signature payload (presented req)
                (Webhook.WEBHOOK_SECRET cfg) = inr true
           \/ (Webhook.verify_signature payload (presented req)
                 (Webhook.WEBHOOK_SECRET cfg) = inr false
               /\ opt_str_ne
                    (Webhook.headers_get (headers req) "X-Webhook-Secret")
                    (Webhook.WEBHOOK_SECRET cfg) = false)).

(** What [dispatch] does after the log line of line 78. *)
Definition branch_of (cfg : Webhook.config) (w : world) (action : value)
  : M event unit :=
  if eq_str action "deploy" then deploy cfg w
  else if eq_str action "check" then check cfg w
  else send_error w 400 [Lit "Unknown action: "; Fmt action].

(** The calls of a response that carries a JSON body. *)
Definition json_response (code : Z) (body : list (string * str))
  : list event :=
  [SendResponse code; SendHeader "Content-Type" "application/json";
   EndHeaders; Write body].

(** The two calls of a rejection, lines 66 and 67. *)
Definition rejection (req : request) : list event :=
  [Log [Lit ("Invalid signature from " +:+ client_address req)];
   SendError 403 [Lit "Invalid signature"]].

(** Two worlds where every call returns, that tell requests apart: in the
    first nothing is JSON and the script is missing; in the second
    [json.loads] raises an error that quotes its argument. *)
Definition bare_world : world :=
  {| path_exists := fun _ => false;
     subprocess_run := fun _ _ _ => inl (Exn OSError EmptyString);
     json_loads := fun _ => inl (Exn JSONDecodeError EmptyString);
     fails := fun _ => None |}.

Definition echo_world : world :=
  {| path_exists := fun _ => false;
     subprocess_run := fun _ _ _ => inl (Exn OSError EmptyString);
     json_loads := fun p => inl (Exn ValueError (string_of_list_byte p));
     fails := fun _ => None |}.

(** Whether a message names [needle]. *)
Definition mentions (needle : string) (message : text) : bool :=
  existsb
    (fun f =>
       match f with
       | Lit s => Webhook.contains needle s
       | Str _ | Fmt _ => false
       end)
    message.

End WebhookIO.

(** Sample requests and worlds for [WebhookIO]. *)

Module IOSample.
Import Py WebhookIO.

(** A client that sends [sent] and closes the connection: what
    [rfile.read(n)] then gives.  (A [MemoryError] for a length the machine
    cannot allocate is left out.) *)
Definition reader (sent : list byte) (n : Z) : exn + list byte :=
  if n <? -1 then
    inl (Exn ValueError "read length must be non-negative or -1")
  else if 2 ^ 63 - 1 <=? n then
    inl (Exn OverflowError "byte string is too large")
  else inr (Webhook.read sent n).

Definition post (hs : list (string * string)) (body : list byte) : request :=
  {| path := "/deploy";
     headers :=
       ("Content-Length", pretty (N.of_nat (List.length body))) :: hs;
     rfile_read := reader body;
     client_address := "203.0.113.7" |}.

Definition req_secret (body : list byte) : request :=
  post [("X-Webhook-Secret", "s3cret")] body.

Definition req_bare (body : list byte) : request := post [] body.

Definition req_signed : request :=
  post [("X-Hub-Signature-256", Sample.signed "s3cret" Sample.body_check)]
    Sample.body_check.

Definition req_tampered_signature : request :=
  post [("X-Hub-Signature-256", Sample.tampered "s3cret" Sample.body_check)]
    Sample.body_check.

Definition req_tampered_body : request :=
  post [("X-Hub-Signature-256", Sample.signed "s3cret" Sample.body_check)]
    Sample.body_chock.

Definition req_latin1_signature : request :=
  post [("X-Hub-Signature-256", Sample.latin1_signature)] Sample.body_check.

Definition req_default_secret : request :=
  post [("X-Webhook-Secret", "automem-deploy-secret")] Sample.body_check.


(** Two bodies in which JSON escapes stand for a lone surrogate, U+D800,
    and for the two Chinese characters U+90E8 U+7F72. *)
Definition body_surrogate : list byte :=
  b ("{" +:+ Sample.lit "source" +:+ ":" +:+ Sample.lit "\ud800" +:+ "}").

Definition body_wide_action : list byte :=
  b ("{" +:+ Sample.lit "action" +:+ ":" +:+ Sample.lit "\u90e8\u7f72" +:+ "}").

Definition lone_surrogate : str := [55296%N].
Definition wide_action : str := [37096%N; 32626%N].

(** What [json.loads] gives on the sample bodies; anything else is not
    JSON. *)
Definition loads_table : list (list byte * (exn + value)) :=
  [ (Sample.body_check, inr (VDict [(u "action", VStr (u "check"))]));
    (Sample.body_restart, inr (VDict [(u "action", VStr (u "restart"))]));
    (Sample.body_source, inr (VDict [(u "source", VStr (u "ci"))]));
    (Sample.body_empty_object, inr (VDict []));
    (body_surrogate, inr (VDict [(u "source", VStr lone_surrogate)]));
    (body_wide_action, inr (VDict [(u "action", VStr wide_action)])) ].

Fixpoint lookup_body (t : list (list byte * (exn + value)))
    (payload : list byte) : exn + value :=
  match t with
  | [] => inl (Exn JSONDecodeError "Expecting value: line 1 column 1 (char 0)")
  | (k, r) :: t' =>
      if Sample.bytes_eqb k payload then r else lookup_body t' payload
  end.

(** What becomes of the calls that print or send.  With [all_return]
    nothing fails.  With [utf8_console] the standard output is UTF-8: the
    line that names the source [\ud800] cannot be printed.  With
    [latin1_status] the status line of [send_error] is Latin-1: a message
    that ends in an action above U+00FF cannot be sent.  With
    [client_gone] the client has closed the connection before the body of
    the response is written. *)
Definition all_return (ev : event) : option exn := None.



Definition unsendable : exn :=
  Exn UnicodeEncodeError
    "'latin-1' codec can't encode characters in position 29-30: ordinal not in range(256)".

Definition latin1_status (ev : event) : option exn :=
  match ev with
  | SendError _ [_; Fmt (VStr (c :: _))] =>
      if (255 <? c)%N then Some unsendable else None
  | _ => None
  end.

Definition broken_pipe : exn := Exn BrokenPipeError "[Errno 32] Broken pipe".

Definition client_gone (ev : event) : option exn :=
  match ev with
  | Write _ | SendError _ _ => Some broken_pipe
  | _ => None
  end.

(** A world where the script is there or not, as [exists_] says, its run
    ends as [result] says, and the calls that print or send fail as
    [failing] says. *)
Definition world_with (exists_ : bool) (result : exn + CompletedProcess)
    (failing : event -> option exn) : world :=
  {| path_exists := fun _ => exists_;
     subprocess_run := fun _ _ _ => result;
     json_loads := lookup_body loads_table;
     fails := failing |}.

Definition ok_run : exn + CompletedProcess :=
  inr {| returncode := 0; stdout := u "Already up to date."; stderr := [] |}.

Definition failed_run : exn + CompletedProcess :=
  inr {| returncode := 1; stdout := u "Fetching...";
         stderr := u "fatal: merge conflict" |}.

Definition timed_out : exn + CompletedProcess := inl Sample.timeout_error.

Definition denied : exn + CompletedProcess :=
  inl MoreSamples.permission_error.

End IOSample.

(** * Properties *)

(** ** The library models agree with the libraries *)

Module SHA256Facts.
Import Py SHA256.

Example K_first : nth 0 K 0 = 0x428a2f98 /\ nth 63 K 0 = 0xc67178f2.
Proof. split; reflexivity. Qed.

Example H0_first : nth 0 H0 0 = 0x6a09e667 /\ nth 7 H0 0 = 0x5be0cd19.
Proof. split; reflexivity. Qed.

Example sha256_abc :
  hex (sha256 (b "abc"))
  = "ba7816bf8f01cfea414140de5dae2223b00361a396177a9cb410ff61f20015ad".
Proof. vm_compute. reflexivity. Qed.

Example sha256_empty :
  hex (sha256 [])
  = "e3b0c44298fc1c149afbf4c8996fb92427ae41e4649b934ca495991b7852b855".
Proof. vm_compute. reflexivity. Qed.

Example sha256_two_blocks :
  hex (sha256 (repeat "a"%byte 100))
  = "2816597888e4a0d3a36b82b83316ab32680eb8f00f8cd3b904d681246d285a0e".
Proof. vm_compute. reflexivity. Qed.

Example hmac_fox :
  hmac_hexdigest (b "key") (b "The quick brown fox jumps over the lazy dog")
  = "f7bc83f430538424b13298e6aa6fb143ef4d59a14946175997479dbc2d1a3cd8".
Proof. vm_compute. reflexivity. Qed.

Example hmac_long_key :
  hmac_hexdigest (repeat "k"%byte 100) (b "hello")
  = "3fd578d761a4f6703009e92d2e8a0aea22ab9ab50d4ad250dc95d8c369dec3f5".
Proof. vm_compute. reflexivity. Qed.

Lemma hex_digit_ascii (x : byte) :
  is_ascii_char (hex_digit (N.shiftr (Byte.to_N x) 4)) = true
  /\ is_ascii_char (hex_digit (N.land (Byte.to_N x) 15)) = true.
Proof. destruct x; split; reflexivity. Qed.

(** A hexadecimal digest is ASCII, whatever the digest. *)
Lemma hex_isascii (bs : list byte) : isascii (hex bs) = true.
Proof.
  induction bs as [|x bs IH]; [reflexivity|].
  destruct (hex_digit_ascii x) as [Hhi Hlo].
  cbn [hex isascii]. rewrite Hhi, Hlo, IH. reflexivity.
Qed.

End SHA256Facts.

Module PyFacts.
Import Py.

Example int_plain : int "18" = inr 18.
Proof. reflexivity. Qed.

Example int_spaces_sign_underscore : int " -1_000 " = inr (-1000).
Proof. reflexivity. Qed.

Example int_refused :
  map int ["abc"; "1__0"; "_1"; "1_"; "4 2"; "+-1"; "1.0"]
  = repeat (inl (Exn ValueError "invalid literal for int() with base 10")) 7.
Proof. reflexivity. Qed.

Example join_paths :
  map (fun d => join d ["scripts"; "sync-and-deploy.sh"])
    ["/opt/automem"; "/opt/automem/"; EmptyString]
  = ["/opt/automem/scripts/sync-and-deploy.sh";
     "/opt/automem/scripts/sync-and-deploy.sh";
     "scripts/sync-and-deploy.sh"].
Proof. reflexivity. Qed.

Example slice_last_example : slice_last 3 "abcdef" = "def".
Proof. reflexivity. Qed.

Section Monad.
Context {E A B : Type}.

Lemma bind_ret (a : A) (k : A -> M E B) : bind (ret a) k = k a.
Proof. unfold bind, ret. destruct (k a). reflexivity. Qed.

Lemma bind_lift_inr (a : A) (k : A -> M E B) : bind (lift (inr a)) k = k a.
Proof. apply bind_ret. Qed.

Lemma bind_lift_inl (e : exn) (k : A -> M E B) :
  bind (lift (inl e)) k = raise e.
Proof. reflexivity. Qed.

Lemma bind_emit (ev : E) (k : unit -> M E B) :
  bind (emit ev) k = (ev :: trace (k tt), outcome (k tt)).
Proof. unfold bind, emit, trace, outcome. destruct (k tt). reflexivity. Qed.

End Monad.

Lemma append_String (c : ascii) (s t : string) :
  String c s +:+ t = String c (s +:+ t).
Proof. reflexivity. Qed.

Lemma append_empty (t : string) : EmptyString +:+ t = t.
Proof. reflexivity. Qed.

Lemma isascii_app (s t : string) :
  isascii (s +:+ t) = isascii s && isascii t.
Proof.
  induction s as [|c s IH]; [reflexivity|].
  rewrite append_String. cbn [isascii]. rewrite IH. apply andb_assoc.
Qed.

Lemma compare_digest_ascii (a c : string) :
  isascii a = true -> isascii c = true ->
  compare_digest a c = inr (String.eqb a c).
Proof. intros Ha Hc. unfold compare_digest. rewrite Ha, Hc. reflexivity. Qed.

Lemma compare_digest_non_ascii (a c : string) :
  isascii c = false ->
  exists e, compare_digest a c = inl e /\ exn_cls e = TypeError.
Proof.
  intros Hc. unfold compare_digest. rewrite Hc, andb_false_r.
  eexists. split; reflexivity.
Qed.

(** [s[-n:]] is a suffix of [s], of length [min n (len s)]. *)
Lemma drop_suffix (n : nat) (s : string) :
  exists pre, s = pre +:+ drop n s /\ String.length pre = Nat.min n (String.length s).
Proof.
  revert s. induction n as [|n IH]; intros s.
  - exists EmptyString. split; reflexivity.
  - destruct s as [|c s].
    + exists EmptyString. split; reflexivity.
    + destruct (IH s) as (pre & Heq & Hlen).
      exists (String c pre). rewrite append_String. cbn [drop String.length].
      split; [congruence | lia].
Qed.

Lemma length_app_string (s t : string) :
  String.length (s +:+ t) = (String.length s + String.length t)%nat.
Proof.
  induction s as [|c s IH]; [reflexivity|].
  rewrite append_String. cbn [String.length]. now rewrite IH.
Qed.

Lemma slice_last_spec (n : nat) (s : string) :
  (exists pre, s = pre +:+ slice_last n s)
  /\ String.length (slice_last n s) = Nat.min n (String.length s).
Proof.
  unfold slice_last.
  destruct (drop_suffix (String.length s - n) s) as (pre & Heq & Hlen).
  split; [now exists pre|].
  apply (f_equal String.length) in Heq. rewrite length_app_string in Heq. lia.
Qed.

Lemma slice_last_short (n : nat) (s : string) :
  (String.length s <= n)%nat -> slice_last n s = s.
Proof.
  intros Hle. unfold slice_last.
  replace (String.length s - n)%nat with 0%nat by lia. reflexivity.
Qed.

End PyFacts.

(** ** The webhook handler *)

Module WebhookSpec.
Import Py Webhook PyFacts.
#[local] Open Scope py_scope.

(** *** Authentication (lines 58 to 68) *)

Lemma expected_isascii (secret : string) (payload : list byte) :
  isascii (expected_signature secret payload) = true.
Proof.
  unfold expected_signature, SHA256.hmac_hexdigest.
  rewrite isascii_app, SHA256Facts.hex_isascii. reflexivity.
Qed.

Lemma verify_signature_absent (payload : list byte) (sig : option string)
    (secret : string) :
  truthy_opt sig = false -> verify_signature payload sig secret = inr false.
Proof.
  intros Hs. unfold verify_signature. destruct sig as [sig|]; [|reflexivity].
  cbn [truthy_opt] in Hs. now rewrite Hs.
Qed.

Lemma verify_signature_present (payload : list byte) (sig secret : string) :
  truthy sig = true ->
  verify_signature payload (Some sig) secret
  = compare_digest (expected_signature secret payload) sig.
Proof.
  intros Hs. unfold verify_signature. rewrite Hs. reflexivity.
Qed.

Lemma verify_signature_valid (payload : list byte) (secret : string) :
  verify_signature payload (Some (expected_signature secret payload)) secret
  = inr true.
Proof.
  rewrite verify_signature_present by reflexivity.
  rewrite compare_digest_ascii by apply expected_isascii.
  now rewrite String.eqb_refl.
Qed.

Lemma verify_signature_mismatch (payload : list byte) (sig secret : string) :
  isascii sig = true -> sig <> expected_signature secret payload ->
  verify_signature payload (Some sig) secret = inr false.
Proof.
  intros Hascii Hne. destruct (truthy sig) eqn:Ht.
  - rewrite verify_signature_present by assumption.
    rewrite compare_digest_ascii by (apply expected_isascii || assumption).
    f_equal. apply String.eqb_neq. congruence.
  - apply verify_signature_absent. exact Ht.
Qed.

Lemma verify_signature_non_ascii (payload : list byte) (sig secret : string) :
  isascii sig = false ->
  exists e, verify_signature payload (Some sig) secret = inl e
            /\ exn_cls e = TypeError.
Proof.
  intros Hascii. rewrite verify_signature_present.
  - now apply compare_digest_non_ascii.
  - destruct sig; [discriminate | reflexivity].
Qed.

Lemma presented_hub (req : request) :
  truthy_opt (headers_get (headers req) "X-Webhook-Secret") = false ->
  presented req = headers_get (headers req) "X-Hub-Signature-256".
Proof. intros Hs. unfold presented, py_or. now rewrite Hs. Qed.

(** What [do_POST] does on [/deploy] once the body is read. *)
Lemma do_POST_deploy (cfg : config) (w : world) (req : request) (n : Z) :
  path req = "/deploy" -> content_length req = inr n ->
  do_POST cfg w req
  = if truthy (WEBHOOK_SECRET cfg) then
      match verify_signature (read (rfile req) n) (presented req)
              (WEBHOOK_SECRET cfg) with
      | inl e => raise e
      | inr true => dispatch cfg w req (read (rfile req) n)
      | inr false =>
          if opt_str_ne (headers_get (headers req) "X-Webhook-Secret")
               (WEBHOOK_SECRET cfg)
          then reject req
          else dispatch cfg w req (read (rfile req) n)
      end
    else dispatch cfg w req (read (rfile req) n).
Proof.
  intros Hpath Hlen. unfold do_POST, presented.
  rewrite Hpath, Hlen. cbn [String.eqb negb]. rewrite bind_lift_inr.
  destruct (truthy (WEBHOOK_SECRET cfg)).
  - destruct (verify_signature _ _ _) as [e | [|]].
    + reflexivity.
    + rewrite bind_lift_inr, bind_ret. reflexivity.
    + rewrite bind_lift_inr, bind_ret. reflexivity.
  - rewrite bind_ret. reflexivity.
Qed.

Lemma falsy_ne_secret (h : option string) (secret : string) :
  truthy secret = true -> truthy_opt h = false -> opt_str_ne h secret = true.
Proof.
  intros Hs Hh. destruct h as [[|c h]|]; try discriminate; try reflexivity.
  destruct secret; [discriminate | reflexivity].
Qed.

Lemma signature_accepted (cfg : config) (req : request) (n : Z) :
  path req = "/deploy" -> content_length req = inr n ->
  truthy_opt (headers_get (headers req) "X-Webhook-Secret") = false ->
  headers_get (headers req) "X-Hub-Signature-256"
  = Some (expected_signature (WEBHOOK_SECRET cfg) (read (rfile req) n)) ->
  authorized cfg req (read (rfile req) n).
Proof.
  intros Hpath Hlen Hws Hsig w.
  rewrite (do_POST_deploy cfg w req n Hpath Hlen).
  rewrite (presented_hub req Hws), Hsig, verify_signature_valid.
  now destruct (truthy _).
Qed.

Lemma single_change_ne {A : Type} (l l' : list A) :
  single_change l l' -> l <> l'.
Proof. induction 1; congruence. Qed.

Lemma single_char_change_ne (s s' : string) :
  single_char_change s s' -> s <> s'.
Proof.
  intros Hc Heq. apply single_change_ne in Hc. apply Hc. now rewrite Heq.
Qed.

Lemma shared_secret_accepted (cfg : config) (req : request) (n : Z) :
  path req = "/deploy" -> content_length req = inr n ->
  truthy (WEBHOOK_SECRET cfg) = true ->
  isascii (WEBHOOK_SECRET cfg) = true ->
  headers_get (headers req) "X-Webhook-Secret" = Some (WEBHOOK_SECRET cfg) ->
  authorized cfg req (read (rfile req) n).
Proof.
  intros Hpath Hlen Hsecret Hascii Hws w.
  rewrite (do_POST_deploy cfg w req n Hpath Hlen), Hsecret.
  unfold presented, py_or. rewrite Hws. cbn [truthy_opt]. rewrite Hsecret.
  rewrite verify_signature_present by assumption.
  rewrite compare_digest_ascii by (apply expected_isascii || assumption).
  cbn [opt_str_ne]. rewrite String.eqb_refl. now destruct (String.eqb _ _).
Qed.

(** [authorized] is what lines 54 to 68 test. *)
Lemma dispatch_bare (cfg : config) (req : request) (payload : list byte) :
  dispatch cfg bare_world req payload
  = ([Log (received req (VStr "deploy") (VStr "unknown"));
      Log [Lit ("Script not found: " +:+ script_path cfg)];
      SendError 500 [Lit "Deploy script not found"]], inr tt).
Proof. unfold dispatch, parse_body. now destruct payload. Qed.

Lemma dispatch_echo (cfg : config) (req : request) (x : byte)
    (payload : list byte) :
  dispatch cfg echo_world req (x :: payload)
  = ([], inl (Exn ValueError (string_of_list_byte (x :: payload)))).
Proof. reflexivity. Qed.

Lemma dispatch_echo_empty (cfg : config) (req : request) :
  dispatch cfg echo_world req []
  = ([Log (received req (VStr "deploy") (VStr "unknown"));
      Log [Lit ("Script not found: " +:+ script_path cfg)];
      SendError 500 [Lit "Deploy script not found"]], inr tt).
Proof. reflexivity. Qed.

Lemma dispatch_payload_inj (cfg : config) (req : request)
    (p q : list byte) :
  dispatch cfg echo_world req p = dispatch cfg echo_world req q -> p = q.
Proof.
  destruct p as [|x p], q as [|y q]; try reflexivity;
    rewrite ?dispatch_echo, ?dispatch_echo_empty; try discriminate.
  intros Heq.
  assert (Hs : string_of_list_byte (x :: p) = string_of_list_byte (y :: q))
    by congruence.
  apply (f_equal list_byte_of_string) in Hs.
  now rewrite !list_byte_of_string_of_list_byte in Hs.
Qed.

Lemma passes_gate_authorized (cfg : config) (req : request)
    (payload : list byte) :
  passes_gate cfg req payload -> authorized cfg req payload.
Proof.
  intros (Hpath & n & Hlen & -> & Hgate) w.
  rewrite (do_POST_deploy cfg w req n Hpath Hlen).
  destruct Hgate as [-> | [-> | [-> ->]]]; [reflexivity| |];
    now destruct (truthy _).
Qed.

Lemma authorized_passes_gate (cfg : config) (req : request)
    (payload : list byte) :
  authorized cfg req payload -> passes_gate cfg req payload.
Proof.
  intros Hauth.
  pose proof (Hauth bare_world) as Hbare. rewrite dispatch_bare in Hbare.
  pose proof (Hauth echo_world) as Hecho.
  destruct (String.eqb_spec (path req) "/deploy") as [Hpath|Hpath];
    [|unfold do_POST in Hbare; apply String.eqb_neq in Hpath;
      rewrite Hpath in Hbare; discriminate].
  split; [exact Hpath|].
  destruct (content_length req) as [e|n] eqn:Hlen;
    [unfold do_POST in Hbare; rewrite Hpath, Hlen in Hbare; discriminate|].
  exists n. split; [reflexivity|].
  rewrite (do_POST_deploy cfg _ req n Hpath Hlen) in Hbare.
  rewrite (do_POST_deploy cfg _ req n Hpath Hlen) in Hecho.
  destruct (truthy (WEBHOOK_SECRET cfg)).
  - destruct (verify_signature (read (rfile req) n) _ _) as [e|[|]] eqn:Hv;
      [discriminate | |].
    + apply dispatch_payload_inj in Hecho. subst payload. auto.
    + destruct (opt_str_ne _ _); [discriminate|].
      apply dispatch_payload_inj in Hecho. subst payload. auto.
  - apply dispatch_payload_inj in Hecho. subst payload. auto.
Qed.

(** C1 as stated fails: the signature is the valid one for the body, yet
    the request is rejected with 403, because it also carries an
    [X-Webhook-Secret] header, which the handler verifies instead. *)
Lemma valid_signature_shadowed :
  headers_get (headers Sample.req_shadowed) "X-Hub-Signature-256"
  = Some (expected_signature (WEBHOOK_SECRET Sample.cfg) Sample.body_check)
  /\ content_length Sample.req_shadowed = inr 18
  /\ read (rfile Sample.req_shadowed) 18 = Sample.body_check
  /\ do_POST Sample.cfg (Sample.world_with true Sample.ok_run)
       Sample.req_shadowed
     = ([Log [Lit "Invalid signature from 203.0.113.7"];
         SendError 403 [Lit "Invalid signature"]], inr tt).
Proof. repeat split; vm_compute; reflexivity. Qed.

(** C6 as stated fails: with [WEBHOOK_SECRET] unset, a request that carries
    no proof is rejected with 403. *)
Lemma unset_secret_rejects :
  Sample.environ_unset !! "WEBHOOK_SECRET" = None
  /\ do_POST (load_config Sample.environ_unset "/opt/automem")
       (Sample.world_with true Sample.ok_run)
       (Sample.req_bare Sample.body_check)
     = ([Log [Lit "Invalid signature from 203.0.113.7"];
         SendError 403 [Lit "Invalid signature"]], inr tt).
Proof. split; vm_compute; reflexivity. Qed.

(** C7 fails on the code: a request whose only proof is a signature header
    holding a character outside ASCII is not rejected with 403;
    [hmac.compare_digest] raises [TypeError], which nothing catches, and no
    response is sent. *)
Theorem latin1_signature_raises :
  do_POST Sample.cfg (Sample.world_with true Sample.ok_run)
    Sample.req_latin1_signature
  = ([], inl (Exn TypeError
                "comparing strings with non-ASCII characters is not supported")).
Proof. vm_compute. reflexivity. Qed.

(** *** Dispatch (lines 70 to 151) *)

Lemma parse_body_silent (w : world) (payload : list byte) :
  trace (parse_body w payload) = [].
Proof.
  unfold parse_body, try_except, lift, ret.
  destruct (truthy_bytes payload); [|reflexivity].
  destruct (json_loads w payload) as [e|v]; [|reflexivity].
  now destruct (exn_class_eqb (exn_cls e) JSONDecodeError).
Qed.

Lemma requested_parse (w : world) (payload : list byte) (action : value) :
  requested w payload = Some action ->
  exists d, parse_body w payload = ret (VDict d)
            /\ action = dict_get d "action" (VStr "deploy").
Proof.
  unfold requested. intros Hreq.
  pose proof (parse_body_silent w payload) as Ht.
  destruct (parse_body w payload) as [t [e|v]]; cbn in Hreq, Ht; subst t;
    [discriminate|].
  destruct v; try discriminate. injection Hreq as <-. now eexists.
Qed.

(** Once the action is known, [dispatch] logs the request and takes the
    branch of that action. *)
Lemma dispatch_requested (cfg : config) (w : world) (req : request)
    (payload : list byte) (action : value) :
  requested w payload = Some action ->
  exists source,
    dispatch cfg w req payload
    = (log (received req action source) ;;
       if eq_str action "deploy" then deploy cfg w
       else if eq_str action "check" then check cfg w
       else send_error 400 [Lit "Unknown action: "; Fmt action]).
Proof.
  intros Hreq. destruct (requested_parse w payload action Hreq) as (d & Hp & ->).
  exists (dict_get d "source" (VStr "unknown")).
  unfold dispatch. rewrite Hp, bind_ret. cbn [value_get].
  now rewrite !bind_lift_inr.
Qed.

Lemma dispatch_deploy (cfg : config) (w : world) (req : request)
    (payload : list byte) :
  requested w payload = Some (VStr "deploy") ->
  exists source,
    dispatch cfg w req payload
    = (Log (received req (VStr "deploy") source) :: trace (deploy cfg w),
       outcome (deploy cfg w)).
Proof.
  intros Hreq. destruct (dispatch_requested cfg w req payload _ Hreq) as (src & ->).
  exists src. unfold log. now rewrite bind_emit.
Qed.

Lemma dispatch_check (cfg : config) (w : world) (req : request)
    (payload : list byte) :
  requested w payload = Some (VStr "check") ->
  exists source,
    dispatch cfg w req payload
    = (Log (received req (VStr "check") source) :: trace (check cfg w),
       outcome (check cfg w)).
Proof.
  intros Hreq. destruct (dispatch_requested cfg w req payload _ Hreq) as (src & ->).
  exists src. unfold log. now rewrite bind_emit.
Qed.

Lemma check_raised (cfg : config) (w : world) (e : exn) :
  subprocess_run w [script_path cfg; "--check"] 60 (AUTOMEM_DIR cfg) = inl e ->
  check cfg w
  = ([SubprocessRun [script_path cfg; "--check"] 60 (AUTOMEM_DIR cfg)], inl e).
Proof. intros Hrun. unfold check, run. now rewrite Hrun. Qed.

(** *** What the specification claims of the executor *)

Lemma prefix_refl (s : string) : String.prefix s s = true.
Proof.
  induction s as [|c s IH]; [reflexivity|].
  cbn [String.prefix]. now destruct (ascii_dec c c).
Qed.

Lemma contains_suffix (needle pre : string) :
  contains needle (pre +:+ needle) = true.
Proof.
  induction pre as [|c pre IH].
  - rewrite append_empty. destruct needle; cbn [contains];
      now rewrite prefix_refl.
  - rewrite append_String. cbn [contains]. rewrite IH. apply orb_true_r.
Qed.

(** The sample requests that carry the shared secret are authorized. *)
Ltac sample_authorized body n :=
  exact (shared_secret_accepted Sample.cfg (Sample.req_secret body) n
           eq_refl eq_refl eq_refl eq_refl eq_refl).

(** C2 fails on the code: the check action has no handler around
    [subprocess.run], so whatever it raises leaves [do_POST] as an
    exception, and no response has been sent. *)
Theorem check_exception_escapes (cfg : config) (w : world) (req : request)
    (payload : list byte) (e : exn) :
  authorized cfg req payload ->
  requested w payload = Some (VStr "check") ->
  subprocess_run w [script_path cfg; "--check"] 60 (AUTOMEM_DIR cfg) = inl e ->
  outcome (do_POST cfg w req) = inl e
  /\ responses (trace (do_POST cfg w req)) = 0%nat.
Proof.
  intros Hauth Hreq Hrun. rewrite (Hauth w).
  destruct (dispatch_check cfg w req payload Hreq) as (src & ->).
  rewrite (check_raised cfg w e Hrun). split; reflexivity.
Qed.

Lemma check_exception_escapes_witness :
  outcome (do_POST Sample.cfg (Sample.world_with false Sample.not_found)
             (Sample.req_secret Sample.body_check))
  = inl Sample.not_found_error
  /\ responses
       (trace (do_POST Sample.cfg (Sample.world_with false Sample.not_found)
                 (Sample.req_secret Sample.body_check))) = 0%nat.
Proof.
  apply (check_exception_escapes Sample.cfg
           (Sample.world_with false Sample.not_found)
           (Sample.req_secret Sample.body_check) Sample.body_check).
  - sample_authorized Sample.body_check 18.
  - reflexivity.
  - reflexivity.
Defined.

(** C3 as stated fails for the check action: the script ends with exit code
    1 and the response is 200 with status [ok] and the standard output. *)
Lemma check_ignores_exit_code :
  subprocess_run (Sample.world_with true Sample.failed_run)
    [script_path Sample.cfg; "--check"] 60 (AUTOMEM_DIR Sample.cfg)
  = inr {| returncode := 1; stdout := "Fetching...";
           stderr := "fatal: merge conflict" |}
  /\ do_POST Sample.cfg (Sample.world_with true Sample.failed_run)
       (Sample.req_secret Sample.body_check)
     = ([Log [Lit "Received "; Fmt (VStr "check"); Lit " request from ";
              Fmt (VStr "unknown"); Lit " (203.0.113.7)"];
         SubprocessRun ["/opt/automem/scripts/sync-and-deploy.sh"; "--check"]
           60 "/opt/automem";
         SendResponse 200;
         SendHeader "Content-Type" "application/json";
         EndHeaders;
         Write [("status", "ok"); ("output", "Fetching...")]], inr tt).
Proof. split; vm_compute; reflexivity. Qed.

(** C4 fails on the code for the check action: the script runs past its 60
    seconds, [subprocess.run] raises [TimeoutExpired], and [do_POST] ends
    with that exception instead of a 504 response. *)
Theorem check_timeout_escapes :
  do_POST Sample.cfg (Sample.world_with true Sample.timed_out)
    (Sample.req_secret Sample.body_check)
  = ([Log [Lit "Received "; Fmt (VStr "check"); Lit " request from ";
           Fmt (VStr "unknown"); Lit " (203.0.113.7)"];
      SubprocessRun ["/opt/automem/scripts/sync-and-deploy.sh"; "--check"]
        60 "/opt/automem"],
     inl Sample.timeout_error).
Proof. vm_compute. reflexivity. Qed.

(** C5 as stated fails: the 500 response to a deploy request whose script
    is missing carries a message that does not name the path. *)
Lemma missing_script_message_unnamed :
  path_exists (Sample.world_with false Sample.not_found)
    (script_path Sample.cfg) = false
  /\ do_POST Sample.cfg (Sample.world_with false Sample.not_found)
       (Sample.req_secret Sample.body_source)
     = ([Log [Lit "Received "; Fmt (VStr "deploy"); Lit " request from ";
              Fmt (VStr "ci"); Lit " (203.0.113.7)"];
         Log [Lit "Script not found: /opt/automem/scripts/sync-and-deploy.sh"];
         SendError 500 [Lit "Deploy script not found"]], inr tt)
  /\ mentions (script_path Sample.cfg) [Lit "Deploy script not found"] = false.
Proof. repeat split; vm_compute; reflexivity. Qed.

(** C8 fails on the code: a body that is not JSON because it is not UTF-8
    makes [json.loads] raise [UnicodeDecodeError], which the handler for
    [JSONDecodeError] does not catch; the request is not taken as a deploy
    request, and no response is sent. *)
Theorem undecodable_body_raises :
  do_POST Sample.cfg (Sample.world_with true Sample.ok_run)
    (Sample.req_secret Sample.body_xff)
  = ([], inl (Exn UnicodeDecodeError
                "'utf-8' codec can't decode byte 0xff in position 0: invalid start byte")).
Proof. vm_compute. reflexivity. Qed.

(** *** The other routes *)

(** The other routes: [GET /health] answers 200 with a fixed body, any
    other path 404, for [GET] and for [POST]. *)
Theorem routes (cfg : config) (w : world) (req : request) :
  (path req = "/health" ->
   do_GET req
   = ([SendResponse 200;
       SendHeader "Content-Type" "application/json";
       EndHeaders;
       Write [("status", "healthy"); ("service", "automem-webhook")]], inr tt))
  /\ (path req <> "/health" ->
      do_GET req = ([SendError 404 [Lit "Not Found"]], inr tt))
  /\ (path req <> "/deploy" ->
      do_POST cfg w req = ([SendError 404 [Lit "Not Found"]], inr tt)).
Proof.
  repeat split.
  - intros Hpath. unfold do_GET. now rewrite Hpath.
  - intros Hpath. unfold do_GET. apply String.eqb_neq in Hpath.
    now rewrite Hpath.
  - intros Hpath. unfold do_POST. apply String.eqb_neq in Hpath.
    now rewrite Hpath.
Qed.

Lemma routes_witness :
  do_GET {| path := "/health"; headers := []; rfile := [];
            client_address := "203.0.113.7" |}
  = ([SendResponse 200;
      SendHeader "Content-Type" "application/json";
      EndHeaders;
      Write [("status", "healthy"); ("service", "automem-webhook")]], inr tt).
Proof.
  apply (proj1 (routes Sample.cfg (Sample.world_with true Sample.ok_run)
                  {| path := "/health"; headers := []; rfile := [];
                     client_address := "203.0.113.7" |})).
  reflexivity.
Defined.

End WebhookSpec.

(** ** The Gemini embedding provider *)

Module GeminiSpec.
Import Py Gemini PyFacts.
#[local] Open Scope py_scope.

Section Provider.
Context {F : Type} `{FloatOps F}.

Implicit Types (self : GeminiEmbeddingProvider F) (e v : list F).

Lemma normalize_len self e : len (_normalize_embedding self e) = len e.
Proof.
  unfold _normalize_embedding, len.
  destruct (_dimension self =? 3072); [reflexivity|].
  destruct (is_zero _); [reflexivity|]. now rewrite length_map.
Qed.

Lemma first_bad_None (d : Z) (i : nat) (es : list (list F)) :
  first_bad d i es = None <-> Forall (fun e => len e = d) es.
Proof.
  revert i. induction es as [|e es IH]; intros i; cbn [first_bad].
  - split; [constructor | reflexivity].
  - destruct (Z.eqb_spec (len e) d) as [Heq|Hne]; cbn [negb].
    + rewrite IH. split; [now constructor | now inversion 1].
    + split; [discriminate | inversion 1; contradiction].
Qed.

Lemma first_bad_Some (d : Z) (i : nat) (es : list (list F)) :
  Exists (fun e => len e <> d) es -> exists bad, first_bad d i es = Some bad.
Proof.
  intros Hex. destruct (first_bad d i es) as [bad|] eqn:Hfb; [now exists bad|].
  apply first_bad_None in Hfb. apply Exists_exists in Hex as (e & Hin & Hne).
  rewrite Forall_forall in Hfb. now apply Hfb in Hin.
Qed.

(** What the two methods do with the answer of the API. *)
Lemma generate_embedding_answer self (text : string) :
  generate_embedding self text
  = (emit (EmbedContent (model self) (Text text) (make_config self)) ;;
     match client self (model self) (Text text) (make_config self) with
     | inl err => raise err
     | inr [] => raise (Exn IndexError "list index out of range")
     | inr (e :: _) =>
         if len e =? _dimension self then ret (_normalize_embedding self e)
         else raise (Exn ValueError
                       ("Gemini embedding length " +:+ pretty (len e)
                        +:+ " != configured dimension "
                        +:+ pretty (_dimension self)
                        +:+ " (model=" +:+ model self
                        +:+ "). Check output_dimensionality setting."))
     end).
Proof.
  unfold generate_embedding, embed_content.
  destruct (client self _ _ _) as [err|[|e rest]]; cbn; try reflexivity.
  now destruct (len e =? _dimension self).
Qed.

Lemma generate_embeddings_batch_answer self (t : string) (ts : list string) :
  generate_embeddings_batch self (t :: ts)
  = (emit (EmbedContent (model self) (Texts (t :: ts)) (make_config self)) ;;
     match client self (model self) (Texts (t :: ts)) (make_config self) with
     | inl err => raise err
     | inr es =>
         match first_bad (_dimension self) 0 es with
         | Some bad =>
             raise (Exn ValueError
                      ("Gemini batch embedding length "
                       +:+ pretty (len (nth bad es []))
                       +:+ " != configured dimension "
                       +:+ pretty (_dimension self)
                       +:+ " at index " +:+ pretty (N.of_nat bad)
                       +:+ " (model=" +:+ model self +:+ ")."))
         | None => ret (map (_normalize_embedding self) es)
         end
     end).
Proof.
  unfold generate_embeddings_batch, embed_content.
  destruct (client self _ _ _) as [err|es]; cbn; [reflexivity|].
  now destruct (first_bad _ _ es).
Qed.

(** C9.  A vector that [generate_embedding] or [generate_embeddings_batch]
    returns has exactly [dimension()] components; and when the API answers
    with a vector of another length, the call raises [ValueError]. *)
Theorem returned_vectors_have_dimension self :
  (forall (text : string) v,
     outcome (generate_embedding self text) = inr v -> len v = dimension self)
  /\ (forall (texts : list string) (vs : list (list F)),
        outcome (generate_embeddings_batch self texts) = inr vs ->
        Forall (fun v => len v = dimension self) vs)
  /\ (forall (text : string) e (rest : list (list F)),
        client self (model self) (Text text) (make_config self)
        = inr (e :: rest) ->
        len e <> dimension self ->
        exists err, outcome (generate_embedding self text) = inl err
                    /\ exn_cls err = ValueError)
  /\ (forall (texts : list string) (es : list (list F)),
        texts <> [] ->
        client self (model self) (Texts texts) (make_config self) = inr es ->
        Exists (fun e => len e <> dimension self) es ->
        exists err, outcome (generate_embeddings_batch self texts) = inl err
                    /\ exn_cls err = ValueError).
Proof.
  unfold dimension. repeat split.
  - intros text v. rewrite generate_embedding_answer.
    destruct (client self _ _ _) as [err|[|e rest]]; cbn; try discriminate.
    destruct (Z.eqb_spec (len e) (_dimension self)) as [Heq|Hne]; cbn;
      [|discriminate].
    intros [= <-]. now rewrite normalize_len.
  - intros [|t ts] vs.
    + cbn. intros [= <-]. constructor.
    + rewrite generate_embeddings_batch_answer.
      destruct (client self _ _ _) as [err|es]; cbn; [discriminate|].
      destruct (first_bad _ _ es) eqn:Hfb; cbn; [discriminate|].
      intros [= <-]. apply first_bad_None in Hfb.
      induction Hfb as [|e es' He _ IH]; cbn [map]; constructor;
        [now rewrite normalize_len | exact IH].
  - intros text e rest Hans Hne. rewrite generate_embedding_answer, Hans.
    destruct (Z.eqb_spec (len e) (_dimension self)) as [Heq|_];
      [contradiction|].
    eexists. split; reflexivity.
  - intros [|t ts] es Hnil Hans Hex; [contradiction|].
    rewrite generate_embeddings_batch_answer, Hans.
    destruct (first_bad_Some (_dimension self) 0 es Hex) as (bad & ->).
    eexists. split; reflexivity.
Qed.

(** [generate_embedding] returns the normalized first vector of the
    answer when that vector has [dimension()] components. *)
Lemma generate_embedding_returns self (text : string) e
    (rest : list (list F)) :
  client self (model self) (Text text) (make_config self) = inr (e :: rest) ->
  len e = dimension self ->
  outcome (generate_embedding self text) = inr (_normalize_embedding self e).
Proof.
  intros Hans Hlen. rewrite generate_embedding_answer, Hans.
  unfold dimension in Hlen. rewrite Hlen, Z.eqb_refl. reflexivity.
Qed.

(** On a list of texts that is not empty, [generate_embeddings_batch]
    returns the normalized vectors of the answer, in order, when each has
    [dimension()] components. *)
Lemma generate_embeddings_batch_returns self (texts : list string)
    (es : list (list F)) :
  texts <> [] ->
  client self (model self) (Texts texts) (make_config self) = inr es ->
  Forall (fun e => len e = dimension self) es ->
  outcome (generate_embeddings_batch self texts)
  = inr (map (_normalize_embedding self) es).
Proof.
  intros Hnil Hans Hall. destruct texts as [|t ts]; [contradiction|].
  rewrite generate_embeddings_batch_answer, Hans.
  apply first_bad_None with (i := 0%nat) in Hall.
  unfold dimension in Hall. now rewrite Hall.
Qed.

(** C10.  On the empty list of texts [generate_embeddings_batch] returns
    the empty list, and its trace is empty: [embed_content] is not called. *)
Theorem empty_batch self : generate_embeddings_batch self [] = ([], inr []).
Proof. reflexivity. Qed.

End Provider.

Lemma generate_embedding_returns_witness :
  outcome (generate_embedding (H := Sample.Z_ops)
             (Sample.provider_answering [[3; 4]]) "memory")
  = inr [0; 0].
Proof.
  exact (generate_embedding_returns (H := Sample.Z_ops)
           (Sample.provider_answering [[3; 4]]) "memory" [3; 4] []
           eq_refl eq_refl).
Defined.

Lemma generate_embeddings_batch_returns_witness :
  outcome (generate_embeddings_batch (H := Sample.Z_ops)
             (Sample.provider_answering [[3; 4]; [0; 0]]) ["first"; "second"])
  = inr [[0; 0]; [0; 0]].
Proof.
  apply (generate_embeddings_batch_returns (H := Sample.Z_ops)
           (Sample.provider_answering [[3; 4]; [0; 0]]) ["first"; "second"]
           [[3; 4]; [0; 0]]).
  - discriminate.
  - reflexivity.
  - repeat constructor.
Defined.

Lemma returned_vectors_have_dimension_witness :
  len [0; 0] = 2
  /\ Forall (fun v : list Z => len v = 2) [[0; 0]; [0; 0]]
  /\ (exists err,
        outcome (generate_embedding (H := Sample.Z_ops)
                   (Sample.provider_answering [[1; 2; 3]]) "memory")
        = inl err /\ exn_cls err = ValueError)
  /\ (exists err,
        outcome (generate_embeddings_batch (H := Sample.Z_ops)
                   (Sample.provider_answering [[3; 4]; [1; 2; 3]])
                   ["first"; "second"])
        = inl err /\ exn_cls err = ValueError).
Proof.
  split; [|split; [|split]].
  - apply (proj1 (returned_vectors_have_dimension (H := Sample.Z_ops)
                    (Sample.provider_answering [[3; 4]])) "memory").
    reflexivity.
  - apply (proj1 (proj2 (returned_vectors_have_dimension (H := Sample.Z_ops)
                           (Sample.provider_answering [[3; 4]; [6; 8]])))
             ["first"; "second"]).
    reflexivity.
  - apply (proj1 (proj2 (proj2 (returned_vectors_have_dimension
                                  (H := Sample.Z_ops)
                                  (Sample.provider_answering [[1; 2; 3]]))))
             "memory" [1; 2; 3] []).
    + reflexivity.
    + discriminate.
  - apply (proj2 (proj2 (proj2 (returned_vectors_have_dimension
                                  (H := Sample.Z_ops)
                                  (Sample.provider_answering
                                     [[3; 4]; [1; 2; 3]]))))
             ["first"; "second"] [[3; 4]; [1; 2; 3]]).
    + discriminate.
    + reflexivity.
    + apply Exists_cons_tl, Exists_cons_hd. discriminate.
Defined.

End GeminiSpec.

(** ** The handler at its edges *)

Module WebhookEdges.
Import Py Webhook PyFacts WebhookSpec.
#[local] Open Scope py_scope.

Lemma verify_signature_accepts (payload : list byte) (sig : option string)
    (secret : string) :
  verify_signature payload sig secret = inr true ->
  sig = Some (expected_signature secret payload).
Proof.
  unfold verify_signature. destruct sig as [sig|]; [|discriminate].
  destruct (truthy sig); cbn [negb]; [|discriminate].
  fold (expected_signature secret payload). unfold compare_digest.
  destruct (isascii _ && isascii sig); [|discriminate].
  destruct (String.eqb_spec (expected_signature secret payload) sig)
    as [<-|_]; [reflexivity | discriminate].
Qed.

(** [verify_signature] answers [True] for one value only: [sha256=] and the
    hexadecimal HMAC-SHA256 of the payload under the secret. *)
Theorem verify_signature_exact (payload : list byte) (sig : option string)
    (secret : string) :
  verify_signature payload sig secret = inr true
  <-> sig = Some (expected_signature secret payload).
Proof.
  split; [apply verify_signature_accepts|].
  intros ->. apply verify_signature_valid.
Qed.

Lemma opt_str_ne_false (h : option string) (secret : string) :
  opt_str_ne h secret = false -> h = Some secret.
Proof.
  destruct h as [s|]; cbn [opt_str_ne]; [|discriminate].
  destruct (String.eqb_spec s secret) as [->|_]; [reflexivity | discriminate].
Qed.

(** With a non-empty secret, a request goes on to dispatch only if the
    header it presents is the signature of the body it sent, or its
    [X-Webhook-Secret] header is the secret. *)
Theorem no_entry_without_proof (cfg : config) (req : request)
    (payload : list byte) :
  truthy (WEBHOOK_SECRET cfg) = true ->
  authorized cfg req payload ->
  presented req = Some (expected_signature (WEBHOOK_SECRET cfg) payload)
  \/ headers_get (headers req) "X-Webhook-Secret" = Some (WEBHOOK_SECRET cfg).
Proof.
  intros Hsecret Hauth.
  destruct (authorized_passes_gate cfg req payload Hauth)
    as (_ & n & _ & _ & [Hopen | [Hvalid | [_ Hws]]]).
  - congruence.
  - left. now apply verify_signature_accepts.
  - right. now apply opt_str_ne_false.
Qed.

Lemma no_entry_without_proof_witness :
  presented Sample.req_signed
  = Some (expected_signature (WEBHOOK_SECRET Sample.cfg) Sample.body_check)
  \/ headers_get (headers Sample.req_signed) "X-Webhook-Secret"
     = Some (WEBHOOK_SECRET Sample.cfg).
Proof.
  apply (no_entry_without_proof Sample.cfg Sample.req_signed Sample.body_check).
  - reflexivity.
  - exact (signature_accepted Sample.cfg Sample.req_signed 18
             eq_refl eq_refl eq_refl eq_refl).
Defined.

(** Either the request passes the gate and [do_POST] is [dispatch], or
    nothing is run. *)
Lemma gate_or_silent (cfg : config) (w : world) (req : request) :
  (exists payload, passes_gate cfg req payload)
  \/ runs (trace (do_POST cfg w req)) = [].
Proof.
  destruct (String.eqb_spec (path req) "/deploy") as [Hpath|Hpath].
  - destruct (content_length req) as [e|n] eqn:Hlen.
    + right. unfold do_POST. now rewrite Hpath, Hlen.
    + rewrite (do_POST_deploy cfg w req n Hpath Hlen).
      destruct (truthy (WEBHOOK_SECRET cfg)) eqn:Hsecret.
      * destruct (verify_signature _ _ _) as [e|[|]] eqn:Hv.
        -- now right.
        -- left. exists (read (rfile req) n). split; [assumption|].
           exists n. repeat split; tauto.
        -- destruct (opt_str_ne _ _) eqn:Hws; [now right|].
           left. exists (read (rfile req) n). split; [assumption|].
           exists n. repeat split; tauto.
      * left. exists (read (rfile req) n). split; [assumption|].
        exists n. repeat split; tauto.
  - right. unfold do_POST. apply String.eqb_neq in Hpath. now rewrite Hpath.
Qed.

(** The script is run for authorized requests only: a request whose
    handling calls [subprocess.run] is one that passed the gate. *)
Theorem script_runs_only_if_authorized (cfg : config) (w : world)
    (req : request) :
  runs (trace (do_POST cfg w req)) <> [] ->
  exists payload, authorized cfg req payload.
Proof.
  intros Hruns. destruct (gate_or_silent cfg w req) as [[payload Hgate]|Hnone].
  - exists payload. now apply passes_gate_authorized.
  - contradiction.
Qed.

Lemma script_runs_only_if_authorized_witness :
  exists payload,
    authorized Sample.cfg (Sample.req_secret Sample.body_check) payload.
Proof.
  apply (script_runs_only_if_authorized Sample.cfg
           (Sample.world_with true Sample.ok_run)
           (Sample.req_secret Sample.body_check)).
  vm_compute. discriminate.
Defined.

(** Without a [Content-Length] header no byte of the body is read: an
    authorized request then has the empty payload, and asks for a deploy
    whatever it sent. *)
Theorem missing_content_length_deploys (cfg : config) (req : request)
    (payload : list byte) :
  headers_get (headers req) "Content-Length" = None ->
  authorized cfg req payload ->
  payload = [] /\ forall w, requested w payload = Some (VStr "deploy").
Proof.
  intros Hnone Hauth.
  destruct (authorized_passes_gate cfg req payload Hauth)
    as (_ & n & Hlen & -> & _).
  unfold content_length in Hlen. rewrite Hnone in Hlen.
  injection Hlen as <-. split; reflexivity.
Qed.

Lemma missing_content_length_deploys_witness :
  Sample.body_check = []
  \/ exists source,
       do_POST Sample.cfg (Sample.world_with true Sample.ok_run)
         MoreSamples.req_no_length
       = (Log (received MoreSamples.req_no_length (VStr "deploy") source)
            :: trace (deploy Sample.cfg (Sample.world_with true Sample.ok_run)),
          inr tt).
Proof.
  assert (Hauth : authorized Sample.cfg MoreSamples.req_no_length [])
    by exact (shared_secret_accepted Sample.cfg MoreSamples.req_no_length 0
                eq_refl eq_refl eq_refl eq_refl eq_refl).
  destruct (missing_content_length_deploys Sample.cfg
              MoreSamples.req_no_length [] eq_refl Hauth) as [_ Hreq].
  right. rewrite (Hauth (Sample.world_with true Sample.ok_run)).
  destruct (dispatch_deploy Sample.cfg (Sample.world_with true Sample.ok_run)
              MoreSamples.req_no_length [] (Hreq _)) as (source & ->).
  now exists source.
Defined.

Lemma int_error (s : string) (e : exn) :
  int s = inl e -> e = Exn ValueError "invalid literal for int() with base 10".
Proof.
  unfold int.
  destruct (match rstrip (lstrip s) with
            | String "-" r => (-1, r)
            | String "+" r => (1, r)
            | _ => (1, rstrip (lstrip s))
            end) as [sign body].
  destruct (digits body 0 false); congruence.
Qed.

(** A [Content-Length] that [int] refuses makes [do_POST] raise before the
    signature is looked at: nothing is logged, sent or run, with any
    secret. *)
Theorem bad_content_length_raises (cfg : config) (w : world) (req : request)
    (s : string) (e : exn) :
  path req = "/deploy" ->
  headers_get (headers req) "Content-Length" = Some s ->
  int s = inl e ->
  do_POST cfg w req = ([], inl e) /\ exn_cls e = ValueError.
Proof.
  intros Hpath Hhdr Hint. split.
  - unfold do_POST, content_length. now rewrite Hpath, Hhdr, Hint.
  - now rewrite (int_error s e Hint).
Qed.

Lemma bad_content_length_raises_witness :
  do_POST Sample.cfg (Sample.world_with true Sample.ok_run)
    MoreSamples.req_bad_length
  = ([], inl (Exn ValueError "invalid literal for int() with base 10")).
Proof.
  apply (bad_content_length_raises Sample.cfg
           (Sample.world_with true Sample.ok_run) MoreSamples.req_bad_length
           "eighteen");
    reflexivity.
Defined.

Lemma exn_class_eqb_eq (a c : exn_class) :
  exn_class_eqb a c = true <-> a = c.
Proof. destruct a, c; split; (reflexivity || discriminate). Qed.

Lemma parse_body_raises (w : world) (x : byte) (payload : list byte) (e : exn) :
  json_loads w (x :: payload) = inl e ->
  exn_cls e <> JSONDecodeError ->
  parse_body w (x :: payload) = raise e.
Proof.
  intros Hl Hcls. unfold parse_body. cbn [truthy_bytes]. rewrite Hl. cbn.
  destruct (exn_class_eqb (exn_cls e) JSONDecodeError) eqn:Heq; [|reflexivity].
  now apply exn_class_eqb_eq in Heq.
Qed.

(** What [json.loads] raises, when it is not a [JSONDecodeError], leaves
    [do_POST] as it is: the body is not taken as empty, nothing is logged,
    sent or run. *)
Theorem loads_error_escapes (cfg : config) (w : world) (req : request)
    (payload : list byte) (e : exn) :
  authorized cfg req payload ->
  payload <> [] ->
  json_loads w payload = inl e ->
  exn_cls e <> JSONDecodeError ->
  do_POST cfg w req = ([], inl e).
Proof.
  intros Hauth Hne Hl Hcls. rewrite (Hauth w).
  destruct payload as [|x payload]; [contradiction|].
  unfold dispatch. now rewrite (parse_body_raises w x payload e Hl Hcls).
Qed.

Lemma loads_error_escapes_witness :
  do_POST Sample.cfg (Sample.world_with true Sample.ok_run)
    (Sample.req_secret Sample.body_xff)
  = ([], inl (Exn UnicodeDecodeError
                "'utf-8' codec can't decode byte 0xff in position 0: invalid start byte")).
Proof.
  apply (loads_error_escapes Sample.cfg (Sample.world_with true Sample.ok_run)
           (Sample.req_secret Sample.body_xff) Sample.body_xff).
  - exact (shared_secret_accepted Sample.cfg
             (Sample.req_secret Sample.body_xff) 1
             eq_refl eq_refl eq_refl eq_refl eq_refl).
  - discriminate.
  - reflexivity.
  - discriminate.
Defined.

(** A body that is JSON but not an object makes [data.get] raise
    [AttributeError]: nothing is logged, sent or run. *)
Theorem non_object_body_raises (cfg : config) (w : world) (req : request)
    (payload : list byte) (v : value) :
  authorized cfg req payload ->
  payload <> [] ->
  json_loads w payload = inr v ->
  (forall d, v <> VDict d) ->
  exists e, do_POST cfg w req = ([], inl e) /\ exn_cls e = AttributeError.
Proof.
  intros Hauth Hne Hl Hv. rewrite (Hauth w).
  destruct payload as [|x payload]; [contradiction|].
  unfold dispatch, parse_body. cbn [truthy_bytes]. rewrite Hl. cbn.
  destruct v; try (eexists; split; reflexivity).
  now destruct (Hv d).
Qed.

Lemma non_object_body_raises_witness :
  exists e,
    do_POST Sample.cfg (Sample.world_with true Sample.ok_run)
      (Sample.req_secret Sample.body_array) = ([], inl e)
    /\ exn_cls e = AttributeError.
Proof.
  apply (non_object_body_raises Sample.cfg
           (Sample.world_with true Sample.ok_run)
           (Sample.req_secret Sample.body_array) Sample.body_array (VList [])).
  - exact (shared_secret_accepted Sample.cfg
             (Sample.req_secret Sample.body_array) 2
             eq_refl eq_refl eq_refl eq_refl eq_refl).
  - discriminate.
  - reflexivity.
  - discriminate.
Defined.

End WebhookEdges.

(** ** The provider at its edges *)

Module GeminiEdges.
Import Py Gemini GeminiInit PyFacts GeminiSpec.
#[local] Open Scope py_scope.

Lemma lookup_value (key v : string) (d : list (string * string)) :
  lookup key d = Some v -> In v (map snd d).
Proof.
  induction d as [|[k x] d IH]; cbn [lookup map snd]; [discriminate|].
  destruct (String.eqb k key).
  - intros [= ->]. now left.
  - intros Hl. right. now apply IH.
Qed.

Lemma in_values_In (x : string) (d : list (string * string)) :
  in_values x d = true -> In x (map snd d).
Proof.
  induction d as [|[k v] d IH]; cbn [in_values existsb map snd];
    [discriminate|].
  destruct (String.eqb_spec v x) as [->|_]; [now left|].
  intros Hin. right. now apply IH.
Qed.

Lemma resolve_in_values (t : option string) (v : string) :
  resolve_task_type t = Some v -> In v task_type_values.
Proof.
  unfold resolve_task_type, task_type_values.
  destruct t as [t|]; [|intros [= <-]; cbn; tauto].
  destruct (truthy t); cbn [negb]; [|intros [= <-]; cbn; tauto].
  destruct (lookup (lower t) GEMINI_TASK_TYPES) as [x|] eqn:Hl.
  - intros [= <-]. now apply lookup_value in Hl.
  - destruct (upper t) as [u|]; [|discriminate].
    destruct (in_values u GEMINI_TASK_TYPES) eqn:Hin; [|discriminate].
    intros [= <-]. now apply in_values_In.
Qed.

(** The task type [__init__] keeps.  It is [None] or one of the eight names
    the table maps to; no task type, or an empty one, gives
    [RETRIEVAL_DOCUMENT]; a name whose lower case is a key of the table
    gives the name that key maps to; and a task type that was kept is kept
    as it is when it is given again. *)
Theorem task_type_resolved (t : option string) :
  (resolve_task_type t = None
   \/ exists v, resolve_task_type t = Some v /\ In v task_type_values)
  /\ (truthy_opt t = false -> resolve_task_type t = Some "RETRIEVAL_DOCUMENT")
  /\ (forall s key v,
        t = Some s -> lower s = key -> In (key, v) GEMINI_TASK_TYPES ->
        resolve_task_type t = Some v)
  /\ (forall v,
        resolve_task_type t = Some v -> resolve_task_type (Some v) = Some v).
Proof.
  repeat split.
  - destruct (resolve_task_type t) as [v|] eqn:Hr; [right|now left].
    exists v. split; [reflexivity | exact (resolve_in_values t v Hr)].
  - destruct t as [[|c s]|]; (discriminate || reflexivity).
  - intros s key v -> Hkey Hin. unfold resolve_task_type.
    assert (Hl : lookup key GEMINI_TASK_TYPES = Some v).
    { cbn in Hin.
      repeat (destruct Hin as [[= <- <-]|Hin]; [reflexivity|]).
      contradiction. }
    destruct s as [|c s].
    + cbn in Hkey. subst key. discriminate.
    + cbn [truthy negb]. now rewrite Hkey, Hl.
  - intros v Hr. apply resolve_in_values in Hr. cbn in Hr.
    repeat (destruct Hr as [<-|Hr]; [reflexivity|]). contradiction.
Qed.

Lemma task_type_resolved_witness :
  resolve_task_type (Some "Retrieval_Query") = Some "RETRIEVAL_QUERY"
  /\ resolve_task_type (Some EmptyString) = Some "RETRIEVAL_DOCUMENT"
  /\ resolve_task_type (Some "RETRIEVAL_QUERY") = Some "RETRIEVAL_QUERY".
Proof.
  split; [|split].
  - apply (proj1 (proj2 (proj2 (task_type_resolved (Some "Retrieval_Query"))))
             "Retrieval_Query" "retrieval_query" "RETRIEVAL_QUERY");
      [reflexivity | reflexivity |].
    cbn. tauto.
  - apply (proj1 (proj2 (task_type_resolved (Some EmptyString)))).
    reflexivity.
  - apply (proj2 (proj2 (proj2 (task_type_resolved (Some "Retrieval_Query"))))).
    reflexivity.
Defined.

(** A task type that is not known is dropped, where a missing one is
    replaced: the provider then sends no task type at all. *)
Example unknown_task_type_dropped :
  resolve_task_type (Some "summarization") = None
  /\ resolve_task_type None = Some "RETRIEVAL_DOCUMENT".
Proof. split; reflexivity. Qed.

(** The sharp s upper-cases to [SS], so this spelling is taken as
    [CLASSIFICATION]. *)
Example sharp_s_task_type :
  resolve_task_type
    (Some ("cla" +:+ String (ascii_of_nat 223) "ification"))
  = Some "CLASSIFICATION".
Proof. reflexivity. Qed.

Section Provider.
Context {F : Type} `{FloatOps F}.

Implicit Types (self : GeminiEmbeddingProvider F).

(** A provider built by [__init__] asks the API for [dimension()]
    components, 768 when no dimension was given, under the model given or
    [gemini-embedding-001], and with the task type [__init__] kept, which
    is none or one of the eight names. *)
Theorem built_provider_config
    (the_client : string -> contents -> EmbedContentConfig
                  -> exn + list (list F))
    (the_model : option string) (the_dimension : option Z)
    (the_task_type : option string) :
  make_config (__init__ the_client the_model the_dimension the_task_type)
  = {| output_dimensionality := default 768 the_dimension;
       config_task_type := resolve_task_type the_task_type |}
  /\ dimension (__init__ the_client the_model the_dimension the_task_type)
     = default 768 the_dimension
  /\ provider_name (__init__ the_client the_model the_dimension the_task_type)
     = "gemini:" +:+ default "gemini-embedding-001" the_model
  /\ (config_task_type
        (make_config (__init__ the_client the_model the_dimension
                        the_task_type)) = None
      \/ exists v,
           config_task_type
             (make_config (__init__ the_client the_model the_dimension
                             the_task_type)) = Some v
           /\ In v task_type_values).
Proof.
  assert (Hcfg : make_config (__init__ the_client the_model the_dimension
                                the_task_type)
                 = {| output_dimensionality := default 768 the_dimension;
                      config_task_type := resolve_task_type the_task_type |}).
  { unfold make_config, __init__. cbn [_dimension task_type]. f_equal.
    destruct (resolve_task_type the_task_type) as [v|] eqn:Hr; [|reflexivity].
    apply resolve_in_values in Hr. cbn in Hr.
    repeat (destruct Hr as [<-|Hr]; [reflexivity|]). contradiction. }
  repeat split; try exact Hcfg; try reflexivity.
  rewrite Hcfg. cbn [config_task_type].
  destruct (resolve_task_type the_task_type) as [v|] eqn:Hr; [right|now left].
  exists v. split; [reflexivity | now apply resolve_in_values in Hr].
Qed.

(** Each call makes exactly one request to the API, whatever comes of it:
    for the text, or for the whole list of texts when it is not empty; and
    what the API raises is raised by the call unchanged. *)
Theorem one_api_call self :
  (forall text : string,
     trace (generate_embedding self text)
     = [EmbedContent (model self) (Text text) (make_config self)])
  /\ (forall texts : list string,
        texts <> [] ->
        trace (generate_embeddings_batch self texts)
        = [EmbedContent (model self) (Texts texts) (make_config self)])
  /\ (forall (text : string) (e : exn),
        client self (model self) (Text text) (make_config self) = inl e ->
        outcome (generate_embedding self text) = inl e)
  /\ (forall (texts : list string) (e : exn),
        texts <> [] ->
        client self (model self) (Texts texts) (make_config self) = inl e ->
        outcome (generate_embeddings_batch self texts) = inl e).
Proof.
  repeat split.
  - intros text. rewrite generate_embedding_answer.
    destruct (client self _ _ _) as [e|[|v rest]]; try reflexivity.
    now destruct (len v =? _dimension self).
  - intros [|t ts] Hne; [contradiction|].
    rewrite generate_embeddings_batch_answer.
    destruct (client self _ _ _) as [e|es]; [reflexivity|].
    now destruct (first_bad _ _ es).
  - intros text e Hans. now rewrite generate_embedding_answer, Hans.
  - intros [|t ts] e Hne Hans; [contradiction|].
    now rewrite generate_embeddings_batch_answer, Hans.
Qed.

(** An answer that holds no embedding: the call for one text raises
    [IndexError]; the call for a list of texts returns the empty list, and
    raises nothing. *)
Theorem empty_answer self :
  (forall text : string,
     client self (model self) (Text text) (make_config self) = inr [] ->
     exists e, outcome (generate_embedding self text) = inl e
               /\ exn_cls e = IndexError)
  /\ (forall texts : list string,
        client self (model self) (Texts texts) (make_config self) = inr [] ->
        outcome (generate_embeddings_batch self texts) = inr []).
Proof.
  split.
  - intros text Hans. rewrite generate_embedding_answer, Hans.
    eexists. split; reflexivity.
  - intros [|t ts] Hans; [reflexivity|].
    now rewrite generate_embeddings_batch_answer, Hans.
Qed.

End Provider.

Lemma built_provider_config_witness :
  make_config (MoreSamples.provider_built (Some "clustering") [[3; 4]])
  = {| output_dimensionality := 2; config_task_type := Some "CLUSTERING" |}.
Proof.
  exact (proj1 (built_provider_config (F := Z) (fun _ _ _ => inr [[3; 4]])
                  None (Some 2) (Some "clustering"))).
Defined.

Lemma one_api_call_witness :
  trace (generate_embeddings_batch (H := Sample.Z_ops)
           MoreSamples.provider_down ["first"; "second"])
  = [EmbedContent "gemini-embedding-001" (Texts ["first"; "second"])
       {| output_dimensionality := 2;
          config_task_type := Some "RETRIEVAL_DOCUMENT" |}]
  /\ outcome (generate_embedding (H := Sample.Z_ops)
                MoreSamples.provider_down "memory")
     = inl MoreSamples.api_down.
Proof.
  split.
  - apply (proj1 (proj2 (one_api_call (H := Sample.Z_ops)
                           MoreSamples.provider_down))).
    discriminate.
  - apply (proj1 (proj2 (proj2 (one_api_call (H := Sample.Z_ops)
                                  MoreSamples.provider_down)))).
    reflexivity.
Defined.

Lemma empty_answer_witness :
  (exists e,
     outcome (generate_embedding (H := Sample.Z_ops)
                (MoreSamples.provider_built None []) "memory") = inl e
     /\ exn_cls e = IndexError)
  /\ outcome (generate_embeddings_batch (H := Sample.Z_ops)
                (MoreSamples.provider_built None []) ["first"; "second"])
     = inr [].
Proof.
  split.
  - apply (proj1 (empty_answer (H := Sample.Z_ops)
                    (MoreSamples.provider_built None [])) "memory").
    reflexivity.
  - apply (proj2 (empty_answer (H := Sample.Z_ops)
                    (MoreSamples.provider_built None []))).
    reflexivity.
Defined.

End GeminiEdges.

(** ** Decimal numbers read back *)

Module IntFacts.
Import Py Webhook WebhookRest PyFacts WebhookSpec.

Lemma digit_of_pretty_char (d : N) :
  (d < 10)%N -> digit_of (pretty_N_char d) = Some (Z.of_N d).
Proof.
  intros Hd. replace d with (N.of_nat (N.to_nat d)) by lia.
  assert (Hn : (N.to_nat d < 10)%nat) by lia.
  revert Hn. generalize (N.to_nat d). intros n Hn.
  do 10 (destruct n as [|n]; [reflexivity|]). lia.
Qed.

Lemma digits_pretty_go (x : N) (s : string) :
  (0 < x)%N ->
  digits (pretty_N_go x s) 0 false = digits s (Z.of_N x) true.
Proof.
  revert s. induction (N.lt_wf_0 x) as [x _ IH]. intros s Hpos.
  rewrite pretty_N_go_step by assumption.
  assert (Hd : (x `mod` 10 < 10)%N) by (apply N.mod_lt; lia).
  assert (Hx : Z.of_N x = 10 * Z.of_N (x `div` 10) + Z.of_N (x `mod` 10))
    by (rewrite (N.div_mod x 10) at 1 by lia; lia).
  destruct (N.eq_dec (x `div` 10)%N 0%N) as [Hz|Hnz].
  - rewrite Hz in *. rewrite pretty_N_go_0. cbn [digits].
    rewrite (digit_of_pretty_char _ Hd), Hx. reflexivity.
  - rewrite IH; [|apply N.div_lt; lia|lia]. cbn [digits].
    rewrite (digit_of_pretty_char _ Hd), Hx. reflexivity.
Qed.

Lemma all_digits_pretty_go (x : N) (s : string) :
  all_digits s = true -> all_digits (pretty_N_go x s) = true.
Proof.
  revert s. induction (N.lt_wf_0 x) as [x _ IH]. intros s Hs.
  destruct (N.eq_dec x 0%N) as [->|Hnz]; [now rewrite pretty_N_go_0|].
  rewrite pretty_N_go_step by lia. apply IH; [apply N.div_lt; lia|].
  cbn [all_digits]. rewrite Hs, andb_true_r. unfold is_digit.
  rewrite digit_of_pretty_char; [reflexivity | apply N.mod_lt; lia].
Qed.

Lemma digit_not_space (c : ascii) : is_digit c = true -> is_space c = false.
Proof.
  destruct c as [[] [] [] [] [] [] [] []]; (discriminate || reflexivity).
Qed.

Lemma lstrip_digits (s : string) : all_digits s = true -> lstrip s = s.
Proof.
  destruct s as [|c s]; [reflexivity|]. cbn [all_digits lstrip].
  intros [Hc _]%andb_prop. now rewrite (digit_not_space c Hc).
Qed.

Lemma rstrip_digits (s : string) : all_digits s = true -> rstrip s = s.
Proof.
  induction s as [|c s IH]; [reflexivity|]. cbn [all_digits rstrip].
  intros [Hc Hs]%andb_prop. rewrite (IH Hs), (digit_not_space c Hc).
  now destruct s.
Qed.

(** [int] reads an unsigned decimal numeral as [digits] does. *)
Lemma int_digits (s : string) (n : Z) :
  all_digits s = true -> digits s 0 false = Some n -> int s = inr n.
Proof.
  intros Hs Hd. unfold int.
  rewrite (lstrip_digits s Hs), (rstrip_digits s Hs).
  destruct s as [|c s]; [discriminate|].
  cbn [all_digits] in Hs. apply andb_prop in Hs as [Hc _].
  assert (Hsign : match String c s with
                  | String "-" r => (-1, r)
                  | String "+" r => (1, r)
                  | _ => (1, String c s)
                  end = (1, String c s)).
  { destruct c as [[] [] [] [] [] [] [] []]; (discriminate || reflexivity). }
  rewrite Hsign, Hd. now rewrite Z.mul_1_l.
Qed.

(** A natural number written in decimal is read back by [int]. *)
Lemma int_pretty (n : N) : int (pretty n) = inr (Z.of_N n).
Proof.
  unfold pretty, pretty_N. destruct (decide (n = 0%N)) as [->|Hnz];
    [reflexivity|].
  apply int_digits.
  - now apply all_digits_pretty_go.
  - rewrite digits_pretty_go by lia. reflexivity.
Qed.

Lemma dispatch_client (cfg : config) (w : world) (req req' : request)
    (payload : list byte) :
  client_address req = client_address req' ->
  dispatch cfg w req payload = dispatch cfg w req' payload.
Proof. intros Hc. unfold dispatch, received. now rewrite Hc. Qed.

(** How much of what the client sends is the payload.  When
    [Content-Length] is the decimal length of what was sent, it is all of
    it; and what is sent beyond [Content-Length] bytes changes nothing: two
    requests that agree on path, headers, client and those first bytes are
    handled alike. *)
Theorem body_read_by_content_length (cfg : config) (w : world)
    (req : request) :
  (headers_get (headers req) "Content-Length"
   = Some (pretty (N.of_nat (List.length (rfile req)))) ->
   exists n, content_length req = inr n /\ read (rfile req) n = rfile req)
  /\ (forall (req' : request) (n : Z),
        path req' = path req -> headers req' = headers req ->
        client_address req' = client_address req ->
        content_length req = inr n -> 0 <= n ->
        firstn (Z.to_nat n) (rfile req') = firstn (Z.to_nat n) (rfile req) ->
        do_POST cfg w req' = do_POST cfg w req).
Proof.
  split.
  - intros Hhdr. exists (Z.of_N (N.of_nat (List.length (rfile req)))). split.
    + unfold content_length. rewrite Hhdr. apply int_pretty.
    + unfold read. destruct (Z.ltb_spec (Z.of_N (N.of_nat (List.length (rfile req)))) 0);
        [lia|].
      rewrite firstn_all2; [reflexivity | lia].
  - intros req' n Hpath Hhdrs Hclient Hlen Hn Hfirst.
    assert (Hlen' : content_length req' = inr n)
      by (unfold content_length in *; now rewrite Hhdrs).
    assert (Hread : read (rfile req') n = read (rfile req) n).
    { unfold read. destruct (Z.ltb_spec n 0); [lia | assumption]. }
    destruct (String.eqb_spec (path req) "/deploy") as [Hp|Hp].
    + rewrite (do_POST_deploy cfg w req n Hp Hlen).
      rewrite (do_POST_deploy cfg w req' n) by congruence.
      unfold presented, reject. rewrite Hhdrs, Hclient, Hread.
      now rewrite (dispatch_client cfg w req' req _ Hclient).
    + unfold do_POST. rewrite Hpath. apply String.eqb_neq in Hp.
      now rewrite Hp.
Qed.

Lemma body_read_by_content_length_witness :
  (exists n,
     content_length Sample.req_signed = inr n
     /\ read (rfile Sample.req_signed) n = Sample.body_check)
  /\ do_POST Sample.cfg (Sample.world_with true Sample.ok_run)
       {| path := "/deploy";
          headers := headers Sample.req_signed;
          rfile := Sample.body_check ++ Sample.body_restart;
          client_address := "203.0.113.7" |}
     = do_POST Sample.cfg (Sample.world_with true Sample.ok_run)
         Sample.req_signed.
Proof.
  split.
  - apply (proj1 (body_read_by_content_length Sample.cfg
                    (Sample.world_with true Sample.ok_run) Sample.req_signed)).
    reflexivity.
  - apply (proj2 (body_read_by_content_length Sample.cfg
                    (Sample.world_with true Sample.ok_run) Sample.req_signed)
             _ 18);
      (reflexivity || lia).
Defined.

(** A request signed over all it sends and announcing its length goes on
    to dispatch with all it sent as the payload, with any secret. *)
Theorem signed_request_dispatched (cfg : config) (w : world) (req : request) :
  path req = "/deploy" ->
  headers_get (headers req) "Content-Length"
  = Some (pretty (N.of_nat (List.length (rfile req)))) ->
  truthy_opt (headers_get (headers req) "X-Webhook-Secret") = false ->
  headers_get (headers req) "X-Hub-Signature-256"
  = Some (expected_signature (WEBHOOK_SECRET cfg) (rfile req)) ->
  do_POST cfg w req = dispatch cfg w req (rfile req).
Proof.
  intros Hpath Hhdr Hws Hsig.
  assert (Hlen : content_length req
                 = inr (Z.of_N (N.of_nat (List.length (rfile req)))))
    by (unfold content_length; rewrite Hhdr; apply int_pretty).
  assert (Hread : read (rfile req) (Z.of_N (N.of_nat (List.length (rfile req))))
                  = rfile req).
  { unfold read.
    destruct (Z.ltb_spec (Z.of_N (N.of_nat (List.length (rfile req)))) 0);
      [lia|].
    rewrite firstn_all2; [reflexivity | lia]. }
  pose proof (signature_accepted cfg req _ Hpath Hlen Hws) as Hacc.
  rewrite Hread in Hacc. exact (Hacc Hsig w).
Qed.

Lemma signed_request_dispatched_witness :
  do_POST Sample.cfg (Sample.world_with true Sample.ok_run) Sample.req_signed
  = dispatch Sample.cfg (Sample.world_with true Sample.ok_run)
      Sample.req_signed Sample.body_check.
Proof.
  exact (signed_request_dispatched Sample.cfg
           (Sample.world_with true Sample.ok_run) Sample.req_signed
           eq_refl eq_refl eq_refl eq_refl).
Defined.

End IntFacts.

(** ** What the handler looks at, and what it answers *)

Module WebhookFrame.
Import Py Webhook WebhookRest PyFacts WebhookSpec.
#[local] Open Scope py_scope.

(** [do_POST] reads the path, the bytes sent, the client address and three
    headers, and nothing else of the request: two requests that agree on
    those are handled alike, whatever other headers they carry. *)
Theorem other_headers_ignored (cfg : config) (w : world) (req req' : request) :
  same_for_handler req req' -> do_POST cfg w req = do_POST cfg w req'.
Proof.
  intros (Hpath & Hfile & Hclient & Hlen & Hws & Hsig).
  unfold do_POST, content_length, reject.
  rewrite Hpath, Hfile, Hclient, Hlen, Hws, Hsig.
  destruct (negb (String.eqb (path req') "/deploy")); [reflexivity|].
  destruct (match headers_get (headers req') "Content-Length" with
            | Some s => int s
            | None => inr 0
            end) as [e|n]; [reflexivity|].
  rewrite !bind_lift_inr.
  now rewrite !(IntFacts.dispatch_client cfg w req req' _ Hclient).
Qed.

Lemma other_headers_ignored_witness :
  do_POST Sample.cfg (Sample.world_with true Sample.ok_run) Sample.req_signed
  = do_POST Sample.cfg (Sample.world_with true Sample.ok_run)
      MoreSamples.req_signed_verbose.
Proof.
  apply (other_headers_ignored Sample.cfg
           (Sample.world_with true Sample.ok_run)
           Sample.req_signed MoreSamples.req_signed_verbose).
  repeat split; reflexivity.
Defined.

Lemma deploy_statuses (cfg : config) (w : world) (code : Z) :
  In code (statuses (trace (deploy cfg w))) -> In code [200; 500; 504].
Proof.
  unfold deploy, run.
  destruct (path_exists w (script_path cfg)); cbn [negb];
    [|cbn; intuition lia].
  destruct (subprocess_run w _ _ _) as [e|result]; cbn.
  - destruct (exn_class_eqb (exn_cls e) TimeoutExpired); cbn;
      [intuition lia|].
    destruct (is_Exception e); cbn; intuition lia.
  - destruct (returncode result =? 0); cbn; intuition lia.
Qed.

Lemma check_statuses (cfg : config) (w : world) (code : Z) :
  In code (statuses (trace (check cfg w))) -> In code [200].
Proof.
  unfold check, run.
  destruct (subprocess_run w _ _ _) as [e|result]; cbn; intuition lia.
Qed.

Lemma dispatch_statuses (cfg : config) (w : world) (req : request)
    (payload : list byte) (code : Z) :
  In code (statuses (trace (dispatch cfg w req payload))) ->
  In code [200; 400; 500; 504].
Proof.
  destruct (requested w payload) as [action|] eqn:Hreq.
  - destruct (dispatch_requested cfg w req payload action Hreq) as (src & ->).
    unfold log. rewrite bind_emit. cbn [trace fst statuses status].
    destruct (eq_str action "deploy"); [|destruct (eq_str action "check")].
    + intros Hin. apply deploy_statuses in Hin. cbn in *. intuition lia.
    + intros Hin. apply check_statuses in Hin. cbn in *. intuition lia.
    + cbn. intuition lia.
  - unfold requested in Hreq. unfold dispatch.
    pose proof (parse_body_silent w payload) as Ht.
    destruct (parse_body w payload) as [t [e|v]]; cbn in Hreq, Ht; subst t.
    + cbn. contradiction.
    + destruct v; try discriminate; cbn; contradiction.
Qed.

(** Whatever the request, [do_POST] answers with one of six status codes:
    200, 400, 403, 404, 500 or 504. *)
Theorem status_codes (cfg : config) (w : world) (req : request) (code : Z) :
  In code (statuses (trace (do_POST cfg w req))) ->
  In code [200; 400; 403; 404; 500; 504].
Proof.
  assert (Hd : forall payload,
             In code (statuses (trace (dispatch cfg w req payload))) ->
             In code [200; 400; 403; 404; 500; 504]).
  { intros payload Hin. apply dispatch_statuses in Hin. cbn in *.
    intuition lia. }
  destruct (String.eqb_spec (path req) "/deploy") as [Hpath|Hpath].
  - destruct (content_length req) as [e|n] eqn:Hlen.
    + unfold do_POST. rewrite Hpath, Hlen. cbn. contradiction.
    + rewrite (do_POST_deploy cfg w req n Hpath Hlen).
      destruct (truthy _); [|apply Hd].
      destruct (verify_signature _ _ _) as [e|[|]];
        [cbn; contradiction | apply Hd |].
      destruct (opt_str_ne _ _); [cbn; intuition lia | apply Hd].
  - unfold do_POST. apply String.eqb_neq in Hpath. rewrite Hpath. cbn.
    intuition lia.
Qed.

Lemma status_codes_witness : In 403 [200; 400; 403; 404; 500; 504].
Proof.
  apply (status_codes Sample.cfg (Sample.world_with true Sample.ok_run)
           (Sample.req_bare Sample.body_check) 403).
  vm_compute. tauto.
Defined.

End WebhookFrame.

(** ** The handler, input and output included *)

Module WebhookIOSpec.
Import Py WebhookIO PyFacts.
#[local] Open Scope py_scope.

(** *** Calls that return *)

Lemma perform_returns (w : world) (ev : event) :
  fails w ev = None -> perform w ev = emit ev.
Proof. intros Hf. unfold perform. now rewrite Hf. Qed.

Lemma perform_raises (w : world) (ev : event) (e : exn) :
  fails w ev = Some e -> perform w ev = raise e.
Proof. intros Hf. unfold perform. now rewrite Hf. Qed.

Lemma returns_perform (w : world) (ev : event) :
  is_run ev = false -> returns w ev = true -> perform w ev = emit ev.
Proof.
  intros Hrun Hret. apply perform_returns.
  destruct ev; try discriminate; cbn [returns] in Hret;
    now destruct (fails w _).
Qed.

Lemma succeed_cons (w : world) (ev : event) (t : list event) :
  succeed w (ev :: t) = true -> returns w ev = true /\ succeed w t = true.
Proof. unfold succeed. cbn [forallb]. apply andb_prop. Qed.

(** From [succeed w t = true], one equation [perform w ev = emit ev] for
    each call of [t]. *)
Ltac calls_return H :=
  repeat
    (let Hev := fresh "Hev" in
     apply succeed_cons in H as [Hev H];
     first [ apply returns_perform in Hev; [|reflexivity] | clear Hev ]);
  clear H.

(** *** Authentication (lines 54 to 68) *)

Lemma presented_signature (req : request) :
  truthy_opt (Webhook.headers_get (headers req) "X-Webhook-Secret") = false ->
  presented req = Webhook.headers_get (headers req) "X-Hub-Signature-256".
Proof. intros Hs. unfold presented, py_or. now rewrite Hs. Qed.

(** What [do_POST] does on [/deploy] once the body is read. *)
Lemma do_POST_read (cfg : Webhook.config) (w : world) (req : request)
    (n : Z) (payload : list byte) :
  path req = "/deploy" -> content_length req = inr n ->
  rfile_read req n = inr payload ->
  do_POST cfg w req
  = if truthy (Webhook.WEBHOOK_SECRET cfg) then
      match Webhook.verify_signature payload (presented req)
              (Webhook.WEBHOOK_SECRET cfg) with
      | inl e => raise e
      | inr true => dispatch cfg w req payload
      | inr false =>
          if opt_str_ne
               (Webhook.headers_get (headers req) "X-Webhook-Secret")
               (Webhook.WEBHOOK_SECRET cfg)
          then reject w req
          else dispatch cfg w req payload
      end
    else dispatch cfg w req payload.
Proof.
  intros Hpath Hlen Hread. unfold do_POST, presented.
  rewrite Hpath, Hlen. cbn [String.eqb negb].
  rewrite bind_lift_inr, Hread, bind_lift_inr.
  destruct (truthy (Webhook.WEBHOOK_SECRET cfg)).
  - destruct (Webhook.verify_signature _ _ _) as [e | [|]].
    + reflexivity.
    + rewrite bind_lift_inr, bind_ret. reflexivity.
    + rewrite bind_lift_inr, bind_ret. reflexivity.
  - rewrite bind_ret. reflexivity.
Qed.

Lemma reject_403 (w : world) (req : request) :
  succeed w (rejection req) = true -> reject w req = (rejection req, inr tt).
Proof.
  intros Hq. unfold rejection in Hq. calls_return Hq.
  unfold reject, log, send_error. now rewrite Hev, Hev0.
Qed.

Lemma signature_lets_in (cfg : Webhook.config) (req : request) (n : Z)
    (payload : list byte) :
  path req = "/deploy" -> content_length req = inr n ->
  rfile_read req n = inr payload ->
  truthy_opt (Webhook.headers_get (headers req) "X-Webhook-Secret") = false ->
  Webhook.headers_get (headers req) "X-Hub-Signature-256"
  = Some (Webhook.expected_signature (Webhook.WEBHOOK_SECRET cfg) payload) ->
  authorized cfg req payload.
Proof.
  intros Hpath Hlen Hread Hws Hsig w.
  rewrite (do_POST_read cfg w req n payload Hpath Hlen Hread).
  rewrite (presented_signature req Hws), Hsig, WebhookSpec.verify_signature_valid.
  now destruct (truthy _).
Qed.

Lemma signature_mismatch_rejected (cfg : Webhook.config) (w : world)
    (req : request) (n : Z) (payload : list byte) (sig : string) :
  path req = "/deploy" -> content_length req = inr n ->
  rfile_read req n = inr payload ->
  truthy (Webhook.WEBHOOK_SECRET cfg) = true ->
  truthy_opt (Webhook.headers_get (headers req) "X-Webhook-Secret") = false ->
  Webhook.headers_get (headers req) "X-Hub-Signature-256" = Some sig ->
  isascii sig = true ->
  sig <> Webhook.expected_signature (Webhook.WEBHOOK_SECRET cfg) payload ->
  do_POST cfg w req = reject w req.
Proof.
  intros Hpath Hlen Hread Hsecret Hws Hsig Hascii Hne.
  rewrite (do_POST_read cfg w req n payload Hpath Hlen Hread), Hsecret.
  rewrite (presented_signature req Hws), Hsig.
  rewrite WebhookSpec.verify_signature_mismatch by assumption.
  now rewrite WebhookSpec.falsy_ne_secret.
Qed.

Lemma shared_secret_lets_in (cfg : Webhook.config) (req : request) (n : Z)
    (payload : list byte) :
  path req = "/deploy" -> content_length req = inr n ->
  rfile_read req n = inr payload ->
  truthy (Webhook.WEBHOOK_SECRET cfg) = true ->
  isascii (Webhook.WEBHOOK_SECRET cfg) = true ->
  Webhook.headers_get (headers req) "X-Webhook-Secret"
  = Some (Webhook.WEBHOOK_SECRET cfg) ->
  authorized cfg req payload.
Proof.
  intros Hpath Hlen Hread Hsecret Hascii Hws w.
  rewrite (do_POST_read cfg w req n payload Hpath Hlen Hread), Hsecret.
  unfold presented, py_or. rewrite Hws. cbn [truthy_opt]. rewrite Hsecret.
  rewrite WebhookSpec.verify_signature_present by assumption.
  rewrite compare_digest_ascii
    by (apply WebhookSpec.expected_isascii || assumption).
  cbn [opt_str_ne]. rewrite String.eqb_refl. now destruct (String.eqb _ _).
Qed.

Lemma no_proof_rejected (cfg : Webhook.config) (w : world) (req : request)
    (n : Z) (payload : list byte) :
  path req = "/deploy" -> content_length req = inr n ->
  rfile_read req n = inr payload ->
  truthy (Webhook.WEBHOOK_SECRET cfg) = true ->
  truthy_opt (presented req) = false ->
  do_POST cfg w req = reject w req.
Proof.
  intros Hpath Hlen Hread Hsecret Hnone.
  rewrite (do_POST_read cfg w req n payload Hpath Hlen Hread), Hsecret.
  rewrite WebhookSpec.verify_signature_absent by assumption.
  rewrite WebhookSpec.falsy_ne_secret; [reflexivity | assumption |].
  unfold presented, py_or in Hnone.
  destruct (truthy_opt
              (Webhook.headers_get (headers req) "X-Webhook-Secret")) eqn:E;
    [congruence | reflexivity].
Qed.

Lemma open_secret_authorized (cfg : Webhook.config) (req : request) (n : Z)
    (payload : list byte) :
  path req = "/deploy" -> content_length req = inr n ->
  rfile_read req n = inr payload ->
  Webhook.WEBHOOK_SECRET cfg = EmptyString ->
  authorized cfg req payload.
Proof.
  intros Hpath Hlen Hread Hsecret w.
  rewrite (do_POST_read cfg w req n payload Hpath Hlen Hread), Hsecret.
  reflexivity.
Qed.

(** [authorized] is what lines 54 to 68 test. *)
Lemma bare_dispatch (cfg : Webhook.config) (req : request)
    (payload : list byte) :
  dispatch cfg bare_world req payload
  = ([Log (received req (VStr (u "deploy")) (VStr (u "unknown")));
      Log [Lit ("Script not found: " +:+ Webhook.script_path cfg)];
      SendError 500 [Lit "Deploy script not found"]], inr tt).
Proof. unfold dispatch, parse_body. now destruct payload. Qed.

Lemma echo_dispatch (cfg : Webhook.config) (req : request) (x : byte)
    (payload : list byte) :
  dispatch cfg echo_world req (x :: payload)
  = ([], inl (Exn ValueError (string_of_list_byte (x :: payload)))).
Proof. reflexivity. Qed.

Lemma echo_dispatch_empty (cfg : Webhook.config) (req : request) :
  dispatch cfg echo_world req []
  = ([Log (received req (VStr (u "deploy")) (VStr (u "unknown")));
      Log [Lit ("Script not found: " +:+ Webhook.script_path cfg)];
      SendError 500 [Lit "Deploy script not found"]], inr tt).
Proof. reflexivity. Qed.

Lemma echo_payload_inj (cfg : Webhook.config) (req : request)
    (p q : list byte) :
  dispatch cfg echo_world req p = dispatch cfg echo_world req q -> p = q.
Proof.
  destruct p as [|x p], q as [|y q]; try reflexivity;
    rewrite ?echo_dispatch, ?echo_dispatch_empty; try discriminate.
  intros Heq.
  assert (Hs : string_of_list_byte (x :: p) = string_of_list_byte (y :: q))
    by congruence.
  apply (f_equal list_byte_of_string) in Hs.
  now rewrite !list_byte_of_string_of_list_byte in Hs.
Qed.

Lemma gate_authorizes (cfg : Webhook.config) (req : request)
    (payload : list byte) :
  passes_gate cfg req payload -> authorized cfg req payload.
Proof.
  intros (Hpath & n & Hlen & Hread & Hgate) w.
  rewrite (do_POST_read cfg w req n payload Hpath Hlen Hread).
  destruct Hgate as [-> | [-> | [-> ->]]]; [reflexivity| |];
    now destruct (truthy _).
Qed.

Lemma authorized_gate (cfg : Webhook.config) (req : request)
    (payload : list byte) :
  authorized cfg req payload -> passes_gate cfg req payload.
Proof.
  intros Hauth.
  pose proof (Hauth bare_world) as Hbare. rewrite bare_dispatch in Hbare.
  pose proof (Hauth echo_world) as Hecho.
  destruct (String.eqb_spec (path req) "/deploy") as [Hpath|Hpath];
    [|unfold do_POST in Hbare; apply String.eqb_neq in Hpath;
      rewrite Hpath in Hbare; discriminate].
  split; [exact Hpath|].
  destruct (content_length req) as [e|n] eqn:Hlen;
    [unfold do_POST in Hbare; rewrite Hpath, Hlen in Hbare; discriminate|].
  destruct (rfile_read req n) as [e|read] eqn:Hread;
    [unfold do_POST in Hbare; rewrite Hpath, Hlen in Hbare;
     cbn [String.eqb negb] in Hbare;
     rewrite bind_lift_inr, Hread in Hbare; discriminate|].
  exists n. split; [reflexivity|].
  rewrite (do_POST_read cfg _ req n read Hpath Hlen Hread) in Hbare.
  rewrite (do_POST_read cfg _ req n read Hpath Hlen Hread) in Hecho.
  destruct (truthy (Webhook.WEBHOOK_SECRET cfg)).
  - destruct (Webhook.verify_signature read _ _) as [e|[|]] eqn:Hv;
      [discriminate | |].
    + apply echo_payload_inj in Hecho. subst payload. auto.
    + destruct (opt_str_ne _ _); [discriminate|].
      apply echo_payload_inj in Hecho. subst payload. auto.
  - apply echo_payload_inj in Hecho. subst payload. auto.
Qed.

(** *** Dispatch (lines 70 to 151) *)

Lemma parse_body_no_call (w : world) (payload : list byte) :
  trace (parse_body w payload) = [].
Proof.
  unfold parse_body, try_except, lift, ret.
  destruct (truthy_bytes payload); [|reflexivity].
  destruct (json_loads w payload) as [e|v]; [|reflexivity].
  now destruct (exn_class_eqb (exn_cls e) JSONDecodeError).
Qed.

Lemma dispatch_branches (cfg : Webhook.config) (w : world) (req : request)
    (payload : list byte) (action source : value) :
  requested w payload = Some action -> sender w payload = Some source ->
  dispatch cfg w req payload
  = (log w (received req action source) ;; branch_of cfg w action).
Proof.
  unfold requested, sender. intros Hreq Hsrc.
  pose proof (parse_body_no_call w payload) as Ht.
  unfold dispatch.
  destruct (parse_body w payload) as [t [e|v]];
    cbn [outcome trace fst snd] in Hreq, Hsrc, Ht; subst t; [discriminate|].
  destruct v; try discriminate. injection Hreq as <-. injection Hsrc as <-.
  change (@pair (list event) (exn + value) [] (inr (VDict d)))
    with (@ret event value (VDict d)).
  rewrite bind_ret. cbn [value_get]. now rewrite !bind_lift_inr.
Qed.

Lemma dispatch_logged (cfg : Webhook.config) (w : world) (req : request)
    (payload : list byte) (action source : value) :
  requested w payload = Some action -> sender w payload = Some source ->
  fails w (Log (received req action source)) = None ->
  dispatch cfg w req payload
  = (Log (received req action source) :: trace (branch_of cfg w action),
     outcome (branch_of cfg w action)).
Proof.
  intros Hreq Hsrc Hlog.
  rewrite (dispatch_branches cfg w req payload action source Hreq Hsrc).
  unfold log. rewrite (perform_returns w _ Hlog), bind_emit. reflexivity.
Qed.


Lemma send_json_returns (w : world) (code : Z) (body : list (string * str)) :
  succeed w (json_response code body) = true ->
  send_json w code body = (json_response code body, inr tt).
Proof.
  intros Hq. unfold json_response in Hq. calls_return Hq.
  unfold send_json. now rewrite Hev, Hev0, Hev1, Hev2.
Qed.

(** The branches, by what the world answers. *)
Lemma deploy_missing (cfg : Webhook.config) (w : world) :
  path_exists w (Webhook.script_path cfg) = false ->
  succeed w [Log [Lit ("Script not found: " +:+ Webhook.script_path cfg)];
             SendError 500 [Lit "Deploy script not found"]] = true ->
  deploy cfg w
  = ([Log [Lit ("Script not found: " +:+ Webhook.script_path cfg)];
      SendError 500 [Lit "Deploy script not found"]], inr tt).
Proof.
  intros Hex Hq. calls_return Hq.
  unfold deploy, log, send_error. now rewrite Hex, Hev, Hev0.
Qed.

Lemma deploy_completed (cfg : Webhook.config) (w : world)
    (result : CompletedProcess) :
  path_exists w (Webhook.script_path cfg) = true ->
  subprocess_run w [Webhook.script_path cfg; "--auto"] 300
    (Webhook.AUTOMEM_DIR cfg) = inr result ->
  let report :=
    if returncode result =? 0 then
      Log [Lit ("Deployment successful:" +:+ String "010" EmptyString);
           Str (stdout result)]
      :: json_response 200
           [("status", u "success");
            ("message", u "Deployment completed");
            ("output", slice_last 1000 (stdout result))]
    else
      Log [Lit ("Deployment failed:" +:+ String "010" EmptyString);
           Str (stderr result)]
      :: json_response 500
           [("status", u "error");
            ("message", u "Deployment failed");
            ("error", slice_last 1000 (stderr result))] in
  succeed w (Log [Lit "Starting deployment..."] :: report) = true ->
  deploy cfg w
  = (Log [Lit "Starting deployment..."]
       :: SubprocessRun [Webhook.script_path cfg; "--auto"] 300
            (Webhook.AUTOMEM_DIR cfg)
       :: report, inr tt).
Proof.
  intros Hex Hrun report Hq. subst report.
  apply succeed_cons in Hq as [Hstart Hq].
  apply returns_perform in Hstart; [|reflexivity].
  unfold deploy, run, log. rewrite Hex, Hstart, Hrun.
  cbn [negb bind emit lift].
  destruct (returncode result =? 0);
    apply succeed_cons in Hq as [Hlog Hq];
    (apply returns_perform in Hlog; [|reflexivity]);
    rewrite Hlog, (send_json_returns w _ _ Hq); reflexivity.
Qed.

Lemma deploy_timed_out (cfg : Webhook.config) (w : world) (e : exn) :
  path_exists w (Webhook.script_path cfg) = true ->
  subprocess_run w [Webhook.script_path cfg; "--auto"] 300
    (Webhook.AUTOMEM_DIR cfg) = inl e ->
  exn_cls e = TimeoutExpired ->
  succeed w [Log [Lit "Starting deployment..."];
             Log [Lit "Deployment timed out"];
             SendError 504 [Lit "Deployment timed out"]] = true ->
  deploy cfg w
  = ([Log [Lit "Starting deployment..."];
      SubprocessRun [Webhook.script_path cfg; "--auto"] 300
        (Webhook.AUTOMEM_DIR cfg);
      Log [Lit "Deployment timed out"];
      SendError 504 [Lit "Deployment timed out"]], inr tt).
Proof.
  intros Hex Hrun Hcls Hq. calls_return Hq.
  unfold deploy, run, log, send_error. rewrite Hex, Hev, Hrun. cbn.
  now rewrite Hcls, Hev0, Hev1.
Qed.

Lemma deploy_raised (cfg : Webhook.config) (w : world) (e : exn) :
  path_exists w (Webhook.script_path cfg) = true ->
  subprocess_run w [Webhook.script_path cfg; "--auto"] 300
    (Webhook.AUTOMEM_DIR cfg) = inl e ->
  exn_cls e <> TimeoutExpired -> is_Exception e = true ->
  succeed w [Log [Lit "Starting deployment..."];
             Log [Lit ("Deployment error: " +:+ exn_str e)];
             SendError 500 [Lit (exn_str e)]] = true ->
  deploy cfg w
  = ([Log [Lit "Starting deployment..."];
      SubprocessRun [Webhook.script_path cfg; "--auto"] 300
        (Webhook.AUTOMEM_DIR cfg);
      Log [Lit ("Deployment error: " +:+ exn_str e)];
      SendError 500 [Lit (exn_str e)]], inr tt).
Proof.
  intros Hex Hrun Hcls Hexc Hq. calls_return Hq.
  unfold deploy, run, log, send_error. rewrite Hex, Hev, Hrun. cbn.
  rewrite Hexc, Hev0, Hev1. now destruct (exn_cls e).
Qed.

Lemma deploy_not_caught (cfg : Webhook.config) (w : world) (e : exn) :
  path_exists w (Webhook.script_path cfg) = true ->
  subprocess_run w [Webhook.script_path cfg; "--auto"] 300
    (Webhook.AUTOMEM_DIR cfg) = inl e ->
  is_Exception e = false ->
  fails w (Log [Lit "Starting deployment..."]) = None ->
  deploy cfg w
  = ([Log [Lit "Starting deployment..."];
      SubprocessRun [Webhook.script_path cfg; "--auto"] 300
        (Webhook.AUTOMEM_DIR cfg)], inl e).
Proof.
  intros Hex Hrun Hexc Hlog.
  unfold deploy, run, log. rewrite Hex, (perform_returns w _ Hlog), Hrun. cbn.
  rewrite Hexc. unfold is_Exception in Hexc. now destruct (exn_cls e).
Qed.

Lemma check_completed (cfg : Webhook.config) (w : world)
    (result : CompletedProcess) :
  subprocess_run w [Webhook.script_path cfg; "--check"] 60
    (Webhook.AUTOMEM_DIR cfg) = inr result ->
  succeed w (json_response 200
               [("status", u "ok"); ("output", stdout result)]) = true ->
  check cfg w
  = (SubprocessRun [Webhook.script_path cfg; "--check"] 60
       (Webhook.AUTOMEM_DIR cfg)
       :: json_response 200 [("status", u "ok"); ("output", stdout result)],
     inr tt).
Proof.
  intros Hrun Hq. unfold check, run. rewrite Hrun. cbn [bind emit lift].
  now rewrite (send_json_returns w _ _ Hq).
Qed.

(** [s[-n:]] is the end of [s], and has [n] characters unless [s] has
    fewer. *)
Lemma slice_last_tail (n : nat) (s : str) :
  (exists older, s = older ++ slice_last n s)
  /\ List.length (slice_last n s) = Nat.min n (List.length s).
Proof.
  unfold slice_last. split.
  - exists (firstn (List.length s - n) s). symmetry. apply firstn_skipn.
  - rewrite List.length_skipn. lia.
Qed.

(** The sample requests that carry the shared secret are authorized. *)
Ltac sample_let_in body n :=
  exact (shared_secret_lets_in Sample.cfg (IOSample.req_secret body) n body
           eq_refl eq_refl eq_refl eq_refl eq_refl eq_refl).

(** *** What the specification claims *)

(** C1, amended.  With a non-empty secret, take a POST /deploy whose
    [Content-Length] converts to [n], whose body read returns [payload], and
    which has no (or an empty) [X-Webhook-Secret] header.  If its
    [X-Hub-Signature-256] header is [sha256=] followed by the hexadecimal
    HMAC-SHA256 of [payload] under the secret, the handler goes on to
    dispatch.  If the header differs from that value in one character and
    is still ASCII, the handler rejects the request: it sends 403 when the
    log line is printed and the response is written.  If the header is the
    valid signature of a body that differs from [payload] in one byte, the
    request is rejected likewise, unless the two bodies have the same
    HMAC-SHA256 under the secret, the one case in which it is dispatched. *)
Theorem signature_proof (cfg : Webhook.config) (w : world) (req : request)
    (n : Z) (payload : list byte) (sig : string) :
  truthy (Webhook.WEBHOOK_SECRET cfg) = true ->
  path req = "/deploy" ->
  content_length req = inr n ->
  rfile_read req n = inr payload ->
  truthy_opt (Webhook.headers_get (headers req) "X-Webhook-Secret") = false ->
  Webhook.headers_get (headers req) "X-Hub-Signature-256" = Some sig ->
  (sig = Webhook.expected_signature (Webhook.WEBHOOK_SECRET cfg) payload ->
   do_POST cfg w req = dispatch cfg w req payload)
  /\ (Webhook.single_char_change
        (Webhook.expected_signature (Webhook.WEBHOOK_SECRET cfg) payload) sig ->
      isascii sig = true ->
      do_POST cfg w req = reject w req
      /\ (succeed w (rejection req) = true ->
          do_POST cfg w req = (rejection req, inr tt)))
  /\ (forall signed_body : list byte,
        sig = Webhook.expected_signature (Webhook.WEBHOOK_SECRET cfg)
                signed_body ->
        Webhook.single_change signed_body payload ->
        (sig <> Webhook.expected_signature (Webhook.WEBHOOK_SECRET cfg) payload
         /\ do_POST cfg w req = reject w req
         /\ (succeed w (rejection req) = true ->
             do_POST cfg w req = (rejection req, inr tt)))
        \/ (sig = Webhook.expected_signature (Webhook.WEBHOOK_SECRET cfg)
                    payload
            /\ do_POST cfg w req = dispatch cfg w req payload)).
Proof.
  intros Hsecret Hpath Hlen Hread Hws Hsig.
  assert (Hrej : isascii sig = true ->
            sig <> Webhook.expected_signature (Webhook.WEBHOOK_SECRET cfg)
                     payload ->
            do_POST cfg w req = reject w req
            /\ (succeed w (rejection req) = true ->
                do_POST cfg w req = (rejection req, inr tt))).
  { intros Hascii Hne.
    assert (Hr : do_POST cfg w req = reject w req)
      by (eapply signature_mismatch_rejected; eassumption).
    split; [exact Hr|]. intros Hq. rewrite Hr. now apply reject_403. }
  assert (Hacc : sig = Webhook.expected_signature (Webhook.WEBHOOK_SECRET cfg)
                         payload ->
                 do_POST cfg w req = dispatch cfg w req payload).
  { intros ->. now apply (signature_lets_in cfg req n payload). }
  split; [exact Hacc|split].
  - intros Hchange Hascii. apply (Hrej Hascii).
    apply not_eq_sym. now apply WebhookSpec.single_char_change_ne.
  - intros signed_body Hsigned _.
    destruct (string_dec sig
                (Webhook.expected_signature (Webhook.WEBHOOK_SECRET cfg)
                   payload)) as [Heq|Hne].
    + right. split; [exact Heq | exact (Hacc Heq)].
    + left. split; [exact Hne|]. apply Hrej; [|exact Hne].
      rewrite Hsigned. apply WebhookSpec.expected_isascii.
Qed.

Lemma signature_proof_witness :
  do_POST Sample.cfg (IOSample.world_with true IOSample.ok_run
                        IOSample.all_return) IOSample.req_signed
  = dispatch Sample.cfg (IOSample.world_with true IOSample.ok_run
                           IOSample.all_return)
      IOSample.req_signed Sample.body_check
  /\ do_POST Sample.cfg (IOSample.world_with true IOSample.ok_run
                           IOSample.all_return)
       IOSample.req_tampered_signature
     = (rejection IOSample.req_tampered_signature, inr tt)
  /\ do_POST Sample.cfg (IOSample.world_with true IOSample.ok_run
                           IOSample.all_return)
       IOSample.req_tampered_body
     = (rejection IOSample.req_tampered_body, inr tt).
Proof.
  split; [|split].
  - apply (signature_proof Sample.cfg _ IOSample.req_signed 18
             Sample.body_check (Sample.signed "s3cret" Sample.body_check));
      reflexivity.
  - apply (signature_proof Sample.cfg _ IOSample.req_tampered_signature 18
             Sample.body_check (Sample.tampered "s3cret" Sample.body_check));
      try reflexivity.
    vm_compute. do 7 apply Webhook.change_later. apply Webhook.change_here.
    discriminate.
  - destruct (proj2 (proj2
               (signature_proof Sample.cfg
                  (IOSample.world_with true IOSample.ok_run
                     IOSample.all_return)
                  IOSample.req_tampered_body 18 Sample.body_chock
                  (Sample.signed "s3cret" Sample.body_check)
                  eq_refl eq_refl eq_refl eq_refl eq_refl eq_refl))
               Sample.body_check eq_refl)
      as [(_ & _ & Hsent) | (Heq & _)].
    + vm_compute. do 13 apply Webhook.change_later. apply Webhook.change_here.
      discriminate.
    + apply Hsent. reflexivity.
    + vm_compute in Heq. discriminate Heq.
Defined.


(** C3, amended: the deploy action.  When the script is there and its run
    completes, and every line is printed and every part of the response is
    written, exit code 0 gives a 200 response whose [output] is the last
    1000 characters of the standard output, and any other exit code a 500
    response whose [error] is the last 1000 characters of the standard
    error; what comes before those characters is left out. *)
Theorem deploy_reports_outcome (cfg : Webhook.config) (w : world)
    (req : request) (payload : list byte) (source : value)
    (result : CompletedProcess) :
  authorized cfg req payload ->
  requested w payload = Some (VStr (u "deploy")) ->
  sender w payload = Some source ->
  path_exists w (Webhook.script_path cfg) = true ->
  subprocess_run w [Webhook.script_path cfg; "--auto"] 300
    (Webhook.AUTOMEM_DIR cfg) = inr result ->
  let report :=
    if returncode result =? 0 then
      Log [Lit ("Deployment successful:" +:+ String "010" EmptyString);
           Str (stdout result)]
      :: json_response 200
           [("status", u "success");
            ("message", u "Deployment completed");
            ("output", slice_last 1000 (stdout result))]
    else
      Log [Lit ("Deployment failed:" +:+ String "010" EmptyString);
           Str (stderr result)]
      :: json_response 500
           [("status", u "error");
            ("message", u "Deployment failed");
            ("error", slice_last 1000 (stderr result))] in
  (succeed w (Log (received req (VStr (u "deploy")) source)
                :: Log [Lit "Starting deployment..."] :: report) = true ->
   do_POST cfg w req
   = (Log (received req (VStr (u "deploy")) source)
        :: Log [Lit "Starting deployment..."]
        :: SubprocessRun [Webhook.script_path cfg; "--auto"] 300
             (Webhook.AUTOMEM_DIR cfg)
        :: report, inr tt))
  /\ (exists older, stdout result = older ++ slice_last 1000 (stdout result))
  /\ List.length (slice_last 1000 (stdout result))
     = Nat.min 1000 (List.length (stdout result))
  /\ (exists older, stderr result = older ++ slice_last 1000 (stderr result))
  /\ List.length (slice_last 1000 (stderr result))
     = Nat.min 1000 (List.length (stderr result)).
Proof.
  intros Hauth Hreq Hsrc Hex Hrun report. split.
  - intros Hq. apply succeed_cons in Hq as [Hlog Hq].
    rewrite (Hauth w).
    rewrite (dispatch_logged cfg w req payload _ source Hreq Hsrc)
      by (cbn [returns] in Hlog; now destruct (fails w _)).
    unfold branch_of. change (eq_str (VStr (u "deploy")) "deploy") with true.
    cbv iota. now rewrite (deploy_completed cfg w result Hex Hrun Hq).
  - destruct (slice_last_tail 1000 (stdout result)) as [Ho Hlo].
    destruct (slice_last_tail 1000 (stderr result)) as [He Hle].
    auto.
Qed.

Lemma deploy_reports_outcome_witness :
  do_POST Sample.cfg
    (IOSample.world_with true IOSample.failed_run IOSample.all_return)
    (IOSample.req_secret Sample.body_text)
  = ([Log (received (IOSample.req_secret Sample.body_text)
             (VStr (u "deploy")) (VStr (u "unknown")));
      Log [Lit "Starting deployment..."];
      SubprocessRun ["/opt/automem/scripts/sync-and-deploy.sh"; "--auto"]
        300 "/opt/automem";
      Log [Lit ("Deployment failed:" +:+ String "010" EmptyString);
           Str (u "fatal: merge conflict")];
      SendResponse 500;
      SendHeader "Content-Type" "application/json";
      EndHeaders;
      Write [("status", u "error");
             ("message", u "Deployment failed");
             ("error", u "fatal: merge conflict")]], inr tt).
Proof.
  apply (proj1 (deploy_reports_outcome Sample.cfg
                  (IOSample.world_with true IOSample.failed_run
                     IOSample.all_return)
                  (IOSample.req_secret Sample.body_text) Sample.body_text
                  (VStr (u "unknown"))
                  {| returncode := 1; stdout := u "Fetching...";
                     stderr := u "fatal: merge conflict" |}
                  ltac:(sample_let_in Sample.body_text 13)
                  eq_refl eq_refl eq_refl eq_refl)).
  reflexivity.
Defined.

(** C5, amended: the deploy action.  When the script is not there,
    [subprocess.run] is not called, whatever else happens; and when the
    two log lines are printed and the response is sent, the response is
    500 with the message [Deploy script not found]; the path is named in
    the log line. *)
Theorem missing_script_reported (cfg : Webhook.config) (w : world)
    (req : request) (payload : list byte) (source : value) :
  authorized cfg req payload ->
  requested w payload = Some (VStr (u "deploy")) ->
  sender w payload = Some source ->
  path_exists w (Webhook.script_path cfg) = false ->
  (succeed w
     [Log (received req (VStr (u "deploy")) source);
      Log [Lit ("Script not found: " +:+ Webhook.script_path cfg)];
      SendError 500 [Lit "Deploy script not found"]] = true ->
   do_POST cfg w req
   = ([Log (received req (VStr (u "deploy")) source);
       Log [Lit ("Script not found: " +:+ Webhook.script_path cfg)];
       SendError 500 [Lit "Deploy script not found"]], inr tt))
  /\ runs (trace (do_POST cfg w req)) = []
  /\ mentions (Webhook.script_path cfg)
       [Lit ("Script not found: " +:+ Webhook.script_path cfg)] = true.
Proof.
  intros Hauth Hreq Hsrc Hex. rewrite (Hauth w). split; [|split].
  - intros Hq. apply succeed_cons in Hq as [Hlog Hq].
    rewrite (dispatch_logged cfg w req payload _ source Hreq Hsrc)
      by (cbn [returns] in Hlog; now destruct (fails w _)).
    unfold branch_of. change (eq_str (VStr (u "deploy")) "deploy") with true.
    cbv iota. now rewrite (deploy_missing cfg w Hex Hq).
  - rewrite (dispatch_branches cfg w req payload _ source Hreq Hsrc).
    unfold branch_of. change (eq_str (VStr (u "deploy")) "deploy") with true.
    cbv iota. unfold deploy, log, send_error, perform. rewrite Hex.
    cbn [negb].
    destruct (fails w (Log (received _ _ _))); [reflexivity|].
    destruct (fails w (Log [Lit _])); [reflexivity|].
    now destruct (fails w (SendError _ _)).
  - cbn [mentions existsb]. now rewrite WebhookSpec.contains_suffix.
Qed.

Lemma missing_script_reported_witness :
  runs (trace (do_POST Sample.cfg
                 (IOSample.world_with false IOSample.ok_run
                    IOSample.all_return)
                 (IOSample.req_secret Sample.body_source))) = [].
Proof.
  apply (missing_script_reported Sample.cfg
           (IOSample.world_with false IOSample.ok_run IOSample.all_return)
           (IOSample.req_secret Sample.body_source) Sample.body_source
           (VStr (u "ci"))
           ltac:(sample_let_in Sample.body_source 15)
           eq_refl eq_refl eq_refl).
Defined.

(** C6, amended.  When [WEBHOOK_SECRET] is set to the empty string, every
    POST /deploy whose [Content-Length] converts and whose body is read
    goes on to dispatch, whatever its other headers and its body: nothing
    is verified.  When the variable is unset the secret is
    [automem-deploy-secret] and requests are verified against it: a
    request goes on to dispatch only if the header it presents is the valid
    signature of the body read or its [X-Webhook-Secret] header is that
    secret, and a request that presents nothing is rejected, with 403
    when the log line is printed and the response is sent. *)
Theorem open_mode (environ : gmap string string) (here : string) :
  (environ !! "WEBHOOK_SECRET" = Some EmptyString ->
   forall (req : request) (n : Z) (payload : list byte),
     path req = "/deploy" -> content_length req = inr n ->
     rfile_read req n = inr payload ->
     authorized (Webhook.load_config environ here) req payload)
  /\ (environ !! "WEBHOOK_SECRET" = None ->
      Webhook.WEBHOOK_SECRET (Webhook.load_config environ here)
      = "automem-deploy-secret"
      /\ (forall (req : request) (payload : list byte),
            authorized (Webhook.load_config environ here) req payload ->
            presented req
            = Some (Webhook.expected_signature "automem-deploy-secret" payload)
            \/ Webhook.headers_get (headers req) "X-Webhook-Secret"
               = Some "automem-deploy-secret")
      /\ (forall (w : world) (req : request) (n : Z) (payload : list byte),
            path req = "/deploy" -> content_length req = inr n ->
            rfile_read req n = inr payload ->
            truthy_opt (presented req) = false ->
            do_POST (Webhook.load_config environ here) w req = reject w req
            /\ (succeed w (rejection req) = true ->
                do_POST (Webhook.load_config environ here) w req
                = (rejection req, inr tt)))).
Proof.
  split.
  - intros Henv req n payload Hpath Hlen Hread.
    apply (open_secret_authorized _ req n payload); try assumption.
    unfold Webhook.load_config, Webhook.getenv. cbn [Webhook.WEBHOOK_SECRET].
    now rewrite Henv.
  - intros Henv.
    assert (Hsecret : Webhook.WEBHOOK_SECRET (Webhook.load_config environ here)
                      = "automem-deploy-secret").
    { unfold Webhook.load_config, Webhook.getenv.
      cbn [Webhook.WEBHOOK_SECRET]. now rewrite Henv. }
    split; [exact Hsecret|split].
    + intros req payload Hauth.
      destruct (authorized_gate _ req payload Hauth)
        as (_ & n & _ & _ & Hgate).
      rewrite Hsecret in Hgate.
      destruct Hgate as [Hopen | [Hvalid | [_ Hshared]]].
      * discriminate Hopen.
      * left. now apply WebhookEdges.verify_signature_accepts.
      * right. now apply WebhookEdges.opt_str_ne_false.
    + intros w req n payload Hpath Hlen Hread Hnone.
      assert (Hr : do_POST (Webhook.load_config environ here) w req
                   = reject w req).
      { apply (no_proof_rejected _ w req n payload); try assumption.
        now rewrite Hsecret. }
      split; [exact Hr|]. intros Hq. rewrite Hr. now apply reject_403.
Qed.

Lemma open_mode_witness :
  authorized (Webhook.load_config Sample.environ_empty_secret "/opt/automem")
    (IOSample.req_bare Sample.body_check) Sample.body_check
  /\ (presented IOSample.req_default_secret
      = Some (Webhook.expected_signature "automem-deploy-secret"
                Sample.body_check)
      \/ Webhook.headers_get (headers IOSample.req_default_secret)
           "X-Webhook-Secret" = Some "automem-deploy-secret")
  /\ do_POST (Webhook.load_config Sample.environ_unset "/opt/automem")
       (IOSample.world_with true IOSample.ok_run IOSample.all_return)
       (IOSample.req_bare Sample.body_check)
     = (rejection (IOSample.req_bare Sample.body_check), inr tt).
Proof.
  split; [|split].
  - apply (proj1 (open_mode Sample.environ_empty_secret "/opt/automem")
             eq_refl (IOSample.req_bare Sample.body_check) 18
             Sample.body_check);
      reflexivity.
  - apply (proj1 (proj2 (proj2 (open_mode Sample.environ_unset "/opt/automem")
                           eq_refl))
             IOSample.req_default_secret Sample.body_check).
    apply (shared_secret_lets_in
             (Webhook.load_config Sample.environ_unset "/opt/automem")
             IOSample.req_default_secret 18 Sample.body_check);
      reflexivity.
  - apply (proj2 (proj2 (proj2 (open_mode Sample.environ_unset "/opt/automem")
                           eq_refl))
             (IOSample.world_with true IOSample.ok_run IOSample.all_return)
             (IOSample.req_bare Sample.body_check) 18 Sample.body_check);
      reflexivity.
Defined.

(** *** Further properties of the handler *)

(** [authorized] says what lines 54 to 68 test, no more and no less. *)
Theorem authorized_iff (cfg : Webhook.config) (req : request)
    (payload : list byte) :
  authorized cfg req payload <-> passes_gate cfg req payload.
Proof.
  split; [apply authorized_gate | apply gate_authorizes].
Qed.

(** The shared secret.  For a non-empty secret and a POST /deploy whose
    [Content-Length] converts and whose body is read: an
    [X-Webhook-Secret] header equal to the secret, when the secret is
    ASCII, authorizes the request, whatever [X-Hub-Signature-256] holds; a
    request that presents nothing, or presents an ASCII value that is not
    the signature while [X-Webhook-Secret] is not the secret, is rejected,
    with 403 when the log line is printed and the response is sent. *)
Theorem shared_secret_proof (cfg : Webhook.config) (w : world) (req : request)
    (n : Z) (payload : list byte) :
  path req = "/deploy" -> content_length req = inr n ->
  rfile_read req n = inr payload ->
  truthy (Webhook.WEBHOOK_SECRET cfg) = true ->
  (isascii (Webhook.WEBHOOK_SECRET cfg) = true ->
   Webhook.headers_get (headers req) "X-Webhook-Secret"
   = Some (Webhook.WEBHOOK_SECRET cfg) ->
   do_POST cfg w req = dispatch cfg w req payload)
  /\ (truthy_opt (presented req) = false
      \/ (exists sig,
            presented req = Some sig /\ isascii sig = true
            /\ sig <> Webhook.expected_signature (Webhook.WEBHOOK_SECRET cfg)
                        payload
            /\ opt_str_ne
                 (Webhook.headers_get (headers req) "X-Webhook-Secret")
                 (Webhook.WEBHOOK_SECRET cfg) = true) ->
      do_POST cfg w req = reject w req
      /\ (succeed w (rejection req) = true ->
          do_POST cfg w req = (rejection req, inr tt))).
Proof.
  intros Hpath Hlen Hread Hsecret. split.
  - intros Hascii Hws. now apply (shared_secret_lets_in cfg req n payload).
  - intros Hcase.
    assert (Hr : do_POST cfg w req = reject w req).
    { destruct Hcase as [Hnone | (sig & Hsig & Hascii & Hne & Hws)].
      - now apply (no_proof_rejected cfg w req n payload).
      - rewrite (do_POST_read cfg w req n payload Hpath Hlen Hread).
        rewrite Hsecret, Hsig.
        rewrite WebhookSpec.verify_signature_mismatch by assumption.
        now rewrite Hws. }
    split; [exact Hr|]. intros Hq. rewrite Hr. now apply reject_403.
Qed.

Lemma shared_secret_proof_witness :
  do_POST Sample.cfg
    (IOSample.world_with true IOSample.ok_run IOSample.all_return)
    (IOSample.req_secret Sample.body_check)
  = dispatch Sample.cfg
      (IOSample.world_with true IOSample.ok_run IOSample.all_return)
      (IOSample.req_secret Sample.body_check) Sample.body_check
  /\ do_POST Sample.cfg
       (IOSample.world_with true IOSample.ok_run IOSample.all_return)
       (IOSample.req_bare Sample.body_check)
     = (rejection (IOSample.req_bare Sample.body_check), inr tt).
Proof.
  split.
  - apply (proj1 (shared_secret_proof Sample.cfg
                    (IOSample.world_with true IOSample.ok_run
                       IOSample.all_return)
                    (IOSample.req_secret Sample.body_check) 18
                    Sample.body_check eq_refl eq_refl eq_refl eq_refl));
      reflexivity.
  - apply (proj2 (shared_secret_proof Sample.cfg
                    (IOSample.world_with true IOSample.ok_run
                       IOSample.all_return)
                    (IOSample.req_bare Sample.body_check) 18
                    Sample.body_check eq_refl eq_refl eq_refl eq_refl)).
    + left. reflexivity.
    + reflexivity.
Defined.

(** With a non-empty secret, a POST /deploy whose [Content-Length] converts,
    whose body is read and whose presented header holds a character outside
    ASCII makes [do_POST] raise [TypeError] before anything is logged or
    sent. *)
Theorem non_ascii_signature_raises (cfg : Webhook.config) (w : world)
    (req : request) (n : Z) (payload : list byte) (sig : string) :
  path req = "/deploy" -> content_length req = inr n ->
  rfile_read req n = inr payload ->
  truthy (Webhook.WEBHOOK_SECRET cfg) = true ->
  presented req = Some sig -> isascii sig = false ->
  exists e, do_POST cfg w req = ([], inl e) /\ exn_cls e = TypeError.
Proof.
  intros Hpath Hlen Hread Hsecret Hsig Hascii.
  rewrite (do_POST_read cfg w req n payload Hpath Hlen Hread).
  rewrite Hsecret, Hsig.
  destruct (WebhookSpec.verify_signature_non_ascii payload sig
              (Webhook.WEBHOOK_SECRET cfg) Hascii) as (e & -> & Hcls).
  now exists e.
Qed.

Lemma non_ascii_signature_raises_witness :
  exists e,
    do_POST Sample.cfg
      (IOSample.world_with true IOSample.ok_run IOSample.all_return)
      IOSample.req_latin1_signature = ([], inl e)
    /\ exn_cls e = TypeError.
Proof.
  exact (non_ascii_signature_raises Sample.cfg
           (IOSample.world_with true IOSample.ok_run IOSample.all_return)
           IOSample.req_latin1_signature 18 Sample.body_check
           Sample.latin1_signature
           eq_refl eq_refl eq_refl eq_refl eq_refl eq_refl).
Defined.

(** When [WEBHOOK_SECRET] is unset, a POST /deploy whose [Content-Length]
    converts, whose body is read and whose [X-Webhook-Secret] header is the
    default written in the source is authorized. *)
Theorem default_secret_authorizes (environ : gmap string string)
    (here : string) (req : request) (n : Z) (payload : list byte) :
  environ !! "WEBHOOK_SECRET" = None ->
  path req = "/deploy" -> content_length req = inr n ->
  rfile_read req n = inr payload ->
  Webhook.headers_get (headers req) "X-Webhook-Secret"
  = Some "automem-deploy-secret" ->
  authorized (Webhook.load_config environ here) req payload.
Proof.
  intros Henv Hpath Hlen Hread Hws.
  assert (Hsecret : Webhook.WEBHOOK_SECRET (Webhook.load_config environ here)
                    = "automem-deploy-secret").
  { unfold Webhook.load_config, Webhook.getenv.
    cbn [Webhook.WEBHOOK_SECRET]. now rewrite Henv. }
  apply (shared_secret_lets_in _ req n payload); try assumption;
    rewrite Hsecret; try reflexivity. exact Hws.
Qed.

Lemma default_secret_authorizes_witness :
  authorized (Webhook.load_config Sample.environ_unset "/opt/automem")
    IOSample.req_default_secret Sample.body_check.
Proof.
  apply (default_secret_authorizes Sample.environ_unset "/opt/automem"
           IOSample.req_default_secret 18 Sample.body_check);
    reflexivity.
Defined.

(** The check action, when its run completes and the response is written,
    answers 200 with status [ok] and the whole standard output, whatever
    the exit code. *)
Theorem check_reports_output (cfg : Webhook.config) (w : world)
    (req : request) (payload : list byte) (source : value)
    (result : CompletedProcess) :
  authorized cfg req payload ->
  requested w payload = Some (VStr (u "check")) ->
  sender w payload = Some source ->
  subprocess_run w [Webhook.script_path cfg; "--check"] 60
    (Webhook.AUTOMEM_DIR cfg) = inr result ->
  succeed w (Log (received req (VStr (u "check")) source)
               :: json_response 200
                    [("status", u "ok"); ("output", stdout result)]) = true ->
  do_POST cfg w req
  = (Log (received req (VStr (u "check")) source)
       :: SubprocessRun [Webhook.script_path cfg; "--check"] 60
            (Webhook.AUTOMEM_DIR cfg)
       :: json_response 200 [("status", u "ok"); ("output", stdout result)],
     inr tt).
Proof.
  intros Hauth Hreq Hsrc Hrun Hq. apply succeed_cons in Hq as [Hlog Hq].
  rewrite (Hauth w).
  rewrite (dispatch_logged cfg w req payload _ source Hreq Hsrc)
    by (cbn [returns] in Hlog; now destruct (fails w _)).
  unfold branch_of. change (eq_str (VStr (u "check")) "deploy") with false.
  change (eq_str (VStr (u "check")) "check") with true.
  cbv iota. now rewrite (check_completed cfg w result Hrun Hq).
Qed.

Lemma check_reports_output_witness :
  do_POST Sample.cfg
    (IOSample.world_with true IOSample.failed_run IOSample.all_return)
    (IOSample.req_secret Sample.body_check)
  = ([Log (received (IOSample.req_secret Sample.body_check)
             (VStr (u "check")) (VStr (u "unknown")));
      SubprocessRun ["/opt/automem/scripts/sync-and-deploy.sh"; "--check"]
        60 "/opt/automem";
      SendResponse 200;
      SendHeader "Content-Type" "application/json";
      EndHeaders;
      Write [("status", u "ok"); ("output", u "Fetching...")]], inr tt).
Proof.
  apply (check_reports_output Sample.cfg
           (IOSample.world_with true IOSample.failed_run IOSample.all_return)
           (IOSample.req_secret Sample.body_check) Sample.body_check
           (VStr (u "unknown"))
           {| returncode := 1; stdout := u "Fetching...";
              stderr := u "fatal: merge conflict" |}
           ltac:(sample_let_in Sample.body_check 18)
           eq_refl eq_refl eq_refl eq_refl).
Defined.

(** The deploy action, when the script runs past its 300 seconds and the
    lines are printed and the response is sent: the handler logs the
    timeout and answers 504, with nothing of the script's output. *)
Theorem deploy_timeout_504 (cfg : Webhook.config) (w : world) (req : request)
    (payload : list byte) (source : value) (e : exn) :
  authorized cfg req payload ->
  requested w payload = Some (VStr (u "deploy")) ->
  sender w payload = Some source ->
  path_exists w (Webhook.script_path cfg) = true ->
  subprocess_run w [Webhook.script_path cfg; "--auto"] 300
    (Webhook.AUTOMEM_DIR cfg) = inl e ->
  exn_cls e = TimeoutExpired ->
  succeed w [Log (received req (VStr (u "deploy")) source);
             Log [Lit "Starting deployment..."];
             Log [Lit "Deployment timed out"];
             SendError 504 [Lit "Deployment timed out"]] = true ->
  do_POST cfg w req
  = ([Log (received req (VStr (u "deploy")) source);
      Log [Lit "Starting deployment..."];
      SubprocessRun [Webhook.script_path cfg; "--auto"] 300
        (Webhook.AUTOMEM_DIR cfg);
      Log [Lit "Deployment timed out"];
      SendError 504 [Lit "Deployment timed out"]], inr tt).
Proof.
  intros Hauth Hreq Hsrc Hex Hrun Hcls Hq.
  apply succeed_cons in Hq as [Hlog Hq]. rewrite (Hauth w).
  rewrite (dispatch_logged cfg w req payload _ source Hreq Hsrc)
    by (cbn [returns] in Hlog; now destruct (fails w _)).
  unfold branch_of. change (eq_str (VStr (u "deploy")) "deploy") with true.
  cbv iota. now rewrite (deploy_timed_out cfg w e Hex Hrun Hcls Hq).
Qed.

Lemma deploy_timeout_504_witness :
  do_POST Sample.cfg
    (IOSample.world_with true IOSample.timed_out IOSample.all_return)
    (IOSample.req_secret Sample.body_empty_object)
  = ([Log (received (IOSample.req_secret Sample.body_empty_object)
             (VStr (u "deploy")) (VStr (u "unknown")));
      Log [Lit "Starting deployment..."];
      SubprocessRun ["/opt/automem/scripts/sync-and-deploy.sh"; "--auto"]
        300 "/opt/automem";
      Log [Lit "Deployment timed out"];
      SendError 504 [Lit "Deployment timed out"]], inr tt).
Proof.
  apply (deploy_timeout_504 Sample.cfg
           (IOSample.world_with true IOSample.timed_out IOSample.all_return)
           (IOSample.req_secret Sample.body_empty_object)
           Sample.body_empty_object (VStr (u "unknown")) Sample.timeout_error
           ltac:(sample_let_in Sample.body_empty_object 2)
           eq_refl eq_refl eq_refl eq_refl eq_refl eq_refl).
Defined.

(** The deploy action, when [subprocess.run] raises something other than
    [TimeoutExpired].  If it is an [Exception] and the lines are printed
    and the response is sent, the handler logs it and answers 500 with
    [str(e)] as the message; if it is not an [Exception], it leaves
    [do_POST] and no response is sent. *)
Theorem deploy_error_500 (cfg : Webhook.config) (w : world) (req : request)
    (payload : list byte) (source : value) (e : exn) :
  authorized cfg req payload ->
  requested w payload = Some (VStr (u "deploy")) ->
  sender w payload = Some source ->
  path_exists w (Webhook.script_path cfg) = true ->
  subprocess_run w [Webhook.script_path cfg; "--auto"] 300
    (Webhook.AUTOMEM_DIR cfg) = inl e ->
  exn_cls e <> TimeoutExpired ->
  (is_Exception e = true ->
   succeed w [Log (received req (VStr (u "deploy")) source);
              Log [Lit "Starting deployment..."];
              Log [Lit ("Deployment error: " +:+ exn_str e)];
              SendError 500 [Lit (exn_str e)]] = true ->
   do_POST cfg w req
   = ([Log (received req (VStr (u "deploy")) source);
       Log [Lit "Starting deployment..."];
       SubprocessRun [Webhook.script_path cfg; "--auto"] 300
         (Webhook.AUTOMEM_DIR cfg);
       Log [Lit ("Deployment error: " +:+ exn_str e)];
       SendError 500 [Lit (exn_str e)]], inr tt))
  /\ (is_Exception e = false ->
      succeed w [Log (received req (VStr (u "deploy")) source);
                 Log [Lit "Starting deployment..."]] = true ->
      do_POST cfg w req
      = ([Log (received req (VStr (u "deploy")) source);
          Log [Lit "Starting deployment..."];
          SubprocessRun [Webhook.script_path cfg; "--auto"] 300
            (Webhook.AUTOMEM_DIR cfg)], inl e)).
Proof.
  intros Hauth Hreq Hsrc Hex Hrun Hcls. rewrite (Hauth w).
  split; intros Hexc Hq; apply succeed_cons in Hq as [Hlog Hq];
    rewrite (dispatch_logged cfg w req payload _ source Hreq Hsrc)
      by (cbn [returns] in Hlog; now destruct (fails w _));
    unfold branch_of; change (eq_str (VStr (u "deploy")) "deploy") with true;
    cbv iota.
  - now rewrite (deploy_raised cfg w e Hex Hrun Hcls Hexc Hq).
  - apply succeed_cons in Hq as [Hstart _].
    rewrite (deploy_not_caught cfg w e Hex Hrun Hexc); [reflexivity|].
    cbn [returns] in Hstart. now destruct (fails w _).
Qed.

Lemma deploy_error_500_witness :
  do_POST Sample.cfg
    (IOSample.world_with true IOSample.denied IOSample.all_return)
    (IOSample.req_secret Sample.body_empty_object)
  = ([Log (received (IOSample.req_secret Sample.body_empty_object)
             (VStr (u "deploy")) (VStr (u "unknown")));
      Log [Lit "Starting deployment..."];
      SubprocessRun ["/opt/automem/scripts/sync-and-deploy.sh"; "--auto"]
        300 "/opt/automem";
      Log [Lit "Deployment error: [Errno 13] Permission denied"];
      SendError 500 [Lit "[Errno 13] Permission denied"]], inr tt).
Proof.
  apply (proj1 (deploy_error_500 Sample.cfg
                  (IOSample.world_with true IOSample.denied
                     IOSample.all_return)
                  (IOSample.req_secret Sample.body_empty_object)
                  Sample.body_empty_object (VStr (u "unknown"))
                  MoreSamples.permission_error
                  ltac:(sample_let_in Sample.body_empty_object 2)
                  eq_refl eq_refl eq_refl eq_refl
                  ltac:(discriminate)));
    reflexivity.
Defined.

(** *** One request, at most one run *)

Lemma runs_app (t t' : list event) : runs (t ++ t') = runs t ++ runs t'.
Proof. unfold runs. apply List.filter_app. Qed.

Lemma runs_bind {A B : Type} (m : M event A) (k : A -> M event B) :
  runs (trace (bind m k))
  = runs (trace m)
    ++ match outcome m with
       | inr a => runs (trace (k a))
       | inl _ => []
       end.
Proof.
  destruct m as [t [e|a]]; cbn [bind trace outcome fst snd].
  - now rewrite app_nil_r.
  - destruct (k a) as [t' r]. cbn [fst]. apply runs_app.
Qed.

Lemma runs_try_except {A : Type} (body : M event A)
    (handler : exn -> option (M event A)) :
  runs (trace (try_except body handler))
  = runs (trace body)
    ++ match outcome body with
       | inl e =>
           match handler e with
           | Some h => runs (trace h)
           | None => []
           end
       | inr _ => []
       end.
Proof.
  destruct body as [t [e|a]]; cbn [try_except trace outcome fst snd].
  - destruct (handler e) as [[t' r]|]; cbn [fst].
    + apply runs_app.
    + now rewrite app_nil_r.
  - now rewrite app_nil_r.
Qed.

(** A call that prints or sends runs nothing. *)
Lemma perform_silent (w : world) (ev : event) :
  is_run ev = false -> runs (trace (perform w ev)) = [].
Proof.
  intros Hev. unfold perform. destruct (fails w ev); [reflexivity|].
  cbn [emit trace fst runs List.filter]. now rewrite Hev.
Qed.

Lemma bind_silent {A B : Type} (m : M event A) (k : A -> M event B) :
  runs (trace m) = [] -> (forall a, runs (trace (k a)) = []) ->
  runs (trace (bind m k)) = [].
Proof.
  intros Hm Hk. rewrite runs_bind, Hm.
  destruct (outcome m); [reflexivity | apply Hk].
Qed.

Lemma send_json_silent (w : world) (code : Z) (body : list (string * str)) :
  runs (trace (send_json w code body)) = [].
Proof.
  unfold send_json.
  repeat (apply bind_silent; [now apply perform_silent | intros _]).
  now apply perform_silent.
Qed.

Lemma logged_silent (w : world) (line message : text) (code : Z) :
  runs (trace (log w line ;; send_error w code message)) = [].
Proof.
  apply bind_silent; [|intros _]; now apply perform_silent.
Qed.

Lemma deploy_runs_body (cfg : Webhook.config) (w : world) :
  path_exists w (Webhook.script_path cfg) = true ->
  runs (trace (deploy cfg w))
  = match fails w (Log [Lit "Starting deployment..."]) with
    | None => [SubprocessRun [Webhook.script_path cfg; "--auto"] 300
                 (Webhook.AUTOMEM_DIR cfg)]
    | Some _ => []
    end.
Proof.
  intros Hex. unfold deploy. rewrite Hex. cbn [negb].
  rewrite runs_try_except.
  match goal with
  | |- _ ++ ?handled = _ =>
      assert (Hh : handled = []);
      [|rewrite Hh, app_nil_r; clear Hh]
  end.
  { destruct (outcome _) as [e|]; [|reflexivity].
    destruct (exn_class_eqb (exn_cls e) TimeoutExpired);
      [apply logged_silent|].
    destruct (is_Exception e); [apply logged_silent | reflexivity]. }
  rewrite runs_bind.
  change (log w [Lit "Starting deployment..."])
    with (match fails w (Log [Lit "Starting deployment..."]) with
          | Some e => @raise event unit e
          | None => emit (Log [Lit "Starting deployment..."])
          end).
  destruct (fails w (Log [Lit "Starting deployment..."])); [reflexivity|].
  cbn [emit trace outcome fst snd runs List.filter is_run app].
  rewrite runs_bind. unfold run at 1.
  cbn [bind emit lift trace fst runs List.filter is_run app].
  f_equal. unfold run.
  destruct (subprocess_run w _ _ _) as [e|result];
    cbn [bind emit lift outcome snd trace fst app]; [reflexivity|].
  destruct (returncode result =? 0);
    (apply bind_silent; [now apply perform_silent |]);
    intros _; apply send_json_silent.
Qed.

Lemma deploy_runs (cfg : Webhook.config) (w : world) :
  path_exists w (Webhook.script_path cfg) = true ->
  fails w (Log [Lit "Starting deployment..."]) = None ->
  runs (trace (deploy cfg w))
  = [SubprocessRun [Webhook.script_path cfg; "--auto"] 300
       (Webhook.AUTOMEM_DIR cfg)].
Proof. intros Hex Hstart. now rewrite (deploy_runs_body cfg w Hex), Hstart. Qed.

Lemma deploy_missing_silent (cfg : Webhook.config) (w : world) :
  path_exists w (Webhook.script_path cfg) = false ->
  runs (trace (deploy cfg w)) = [].
Proof.
  intros Hex. unfold deploy. rewrite Hex. cbn [negb]. apply logged_silent.
Qed.

Lemma deploy_bounds (cfg : Webhook.config) (w : world) :
  (List.length (runs (trace (deploy cfg w))) <= 1)%nat.
Proof.
  destruct (path_exists w (Webhook.script_path cfg)) eqn:Hex.
  - rewrite (deploy_runs_body cfg w Hex).
    destruct (fails w _); cbn [List.length]; lia.
  - rewrite (deploy_missing_silent cfg w Hex). cbn [List.length]. lia.
Qed.

Lemma check_runs (cfg : Webhook.config) (w : world) :
  runs (trace (check cfg w))
  = [SubprocessRun [Webhook.script_path cfg; "--check"] 60
       (Webhook.AUTOMEM_DIR cfg)].
Proof.
  unfold check. rewrite runs_bind. unfold run.
  cbn [bind emit lift trace fst runs List.filter is_run app].
  destruct (subprocess_run w _ _ _) as [e|result];
    cbn [bind emit lift outcome snd trace fst app]; [reflexivity|].
  now rewrite send_json_silent.
Qed.

Lemma branch_bounds (cfg : Webhook.config) (w : world) (action : value) :
  (List.length (runs (trace (branch_of cfg w action))) <= 1)%nat.
Proof.
  unfold branch_of. destruct (eq_str action "deploy").
  - apply deploy_bounds.
  - destruct (eq_str action "check").
    + rewrite check_runs. cbn. lia.
    + unfold send_error. rewrite perform_silent by reflexivity.
      cbn [List.length]. lia.
Qed.

Lemma dispatch_bounds (cfg : Webhook.config) (w : world) (req : request)
    (payload : list byte) :
  (List.length (runs (trace (dispatch cfg w req payload))) <= 1)%nat.
Proof.
  unfold dispatch.
  pose proof (parse_body_no_call w payload) as Ht.
  destruct (parse_body w payload) as [t [e|data]]; cbn [trace fst] in Ht;
    subst t; [cbn; lia|].
  change (@pair (list event) (exn + value) [] (inr data))
    with (@ret event value data).
  rewrite bind_ret.
  destruct data; cbn [value_get]; rewrite ?bind_lift_inl; try (cbn; lia).
  rewrite !bind_lift_inr.
  fold (branch_of cfg w (dict_get d (u "action") (VStr (u "deploy")))).
  pose proof (branch_bounds cfg w (dict_get d (u "action") (VStr (u "deploy"))))
    as Hb.
  unfold log, perform. destruct (fails w _); [cbn; lia|].
  rewrite bind_emit.
  destruct (branch_of cfg w _) as [t r]. cbn [trace fst] in *.
  unfold runs in *. cbn [List.filter is_run]. exact Hb.
Qed.

(** [do_POST] calls [subprocess.run] at most once, whatever is raised and
    whichever call fails. *)
Theorem script_run_at_most_once (cfg : Webhook.config) (w : world)
    (req : request) :
  (List.length (runs (trace (do_POST cfg w req))) <= 1)%nat.
Proof.
  unfold do_POST. destruct (negb (String.eqb (path req) "/deploy")).
  - unfold send_error. rewrite perform_silent by reflexivity.
    cbn [List.length]. lia.
  - destruct (content_length req) as [e|n]; [cbn; lia|].
    rewrite bind_lift_inr.
    destruct (rfile_read req n) as [e|payload]; [cbn; lia|].
    rewrite bind_lift_inr.
    assert (Hrej : (List.length (runs (trace (reject w req))) <= 1)%nat).
    { unfold reject. rewrite logged_silent. cbn [List.length]. lia. }
    pose proof (dispatch_bounds cfg w req payload) as Hdis.
    destruct (truthy (Webhook.WEBHOOK_SECRET cfg)).
    + destruct (Webhook.verify_signature _ _ _) as [e|[|]];
        [cbn; lia | |]; rewrite bind_lift_inr, bind_ret; cbn [negb];
        [exact Hdis|].
      now destruct (opt_str_ne _ _).
    + rewrite bind_ret. exact Hdis.
Qed.

Lemma str_eqb_eq (s t : str) : str_eqb s t = true -> s = t.
Proof.
  revert t. induction s as [|c s IH]; intros [|d t]; cbn [str_eqb];
    try discriminate; [reflexivity|].
  intros Heq. apply andb_prop in Heq as [Hc Hs].
  apply N.eqb_eq in Hc. subst d. f_equal. now apply IH.
Qed.

Lemma dict_get_absent (d : list (str * value)) (key : str) (dflt : value) :
  (forall v, ~ In (key, v) d) -> dict_get d key dflt = dflt.
Proof.
  induction d as [|[k v] d IH]; intros Habs; cbn [dict_get]; [reflexivity|].
  destruct (str_eqb k key) eqn:Hk.
  - exfalso. apply (Habs v). left. now rewrite (str_eqb_eq k key Hk).
  - apply IH. intros v' Hin. apply (Habs v'). now right.
Qed.

(** How the action follows from the body, and what is run for it.
    [check] runs the script with [--check] and 60 seconds once the request
    is logged; no body, a body that [json.loads] refuses with
    [JSONDecodeError] and an object without [action] ask for [deploy],
    which runs the script with [--auto] and 300 seconds once the request
    and the start are logged, when the script is there; any other action
    runs nothing, and gets 400 when the request is logged and the
    response is sent. *)
Theorem action_selects_invocation (cfg : Webhook.config) (w : world)
    (req : request) (payload : list byte) :
  authorized cfg req payload ->
  (forall source,
     requested w payload = Some (VStr (u "check")) ->
     sender w payload = Some source ->
     fails w (Log (received req (VStr (u "check")) source)) = None ->
     runs (trace (do_POST cfg w req))
     = [SubprocessRun [Webhook.script_path cfg; "--check"] 60
          (Webhook.AUTOMEM_DIR cfg)])
  /\ (payload = []
      \/ (exists e, json_loads w payload = inl e
                    /\ exn_cls e = JSONDecodeError)
      \/ (exists d, json_loads w payload = inr (VDict d)
                    /\ forall v, ~ In (u "action", v) d) ->
      requested w payload = Some (VStr (u "deploy")))
  /\ (forall source,
        requested w payload = Some (VStr (u "deploy")) ->
        sender w payload = Some source ->
        path_exists w (Webhook.script_path cfg) = true ->
        succeed w [Log (received req (VStr (u "deploy")) source);
                   Log [Lit "Starting deployment..."]] = true ->
        runs (trace (do_POST cfg w req))
        = [SubprocessRun [Webhook.script_path cfg; "--auto"] 300
             (Webhook.AUTOMEM_DIR cfg)])
  /\ (forall action source,
        requested w payload = Some action ->
        sender w payload = Some source ->
        eq_str action "deploy" = false -> eq_str action "check" = false ->
        runs (trace (do_POST cfg w req)) = []
        /\ (succeed w
              [Log (received req action source);
               SendError 400 [Lit "Unknown action: "; Fmt action]] = true ->
            do_POST cfg w req
            = ([Log (received req action source);
                SendError 400 [Lit "Unknown action: "; Fmt action]],
               inr tt))).
Proof.
  intros Hauth. rewrite (Hauth w). split; [|split; [|split]].
  - intros source Hreq Hsrc Hlog.
    rewrite (dispatch_logged cfg w req payload _ source Hreq Hsrc Hlog).
    cbn [trace fst runs List.filter is_run]. apply check_runs.
  - unfold requested, parse_body.
    intros [-> | [(e & Hl & Hcls) | (d & Hl & Habs)]]; [reflexivity | |];
      destruct payload as [|x payload]; try reflexivity;
      cbn [truthy_bytes]; rewrite Hl;
      cbn [lift try_except outcome snd].
    + now rewrite Hcls.
    + now rewrite dict_get_absent.
  - intros source Hreq Hsrc Hex Hq. apply succeed_cons in Hq as [Hlog Hq].
    apply succeed_cons in Hq as [Hstart _].
    rewrite (dispatch_logged cfg w req payload _ source Hreq Hsrc)
      by (cbn [returns] in Hlog; now destruct (fails w _)).
    cbn [trace fst runs List.filter is_run]. apply (deploy_runs cfg w Hex).
    cbn [returns] in Hstart. now destruct (fails w _).
  - intros action source Hreq Hsrc Hd Hc.
    rewrite (dispatch_branches cfg w req payload action source Hreq Hsrc).
    unfold branch_of. rewrite Hd, Hc. split.
    + apply logged_silent.
    + intros Hq. calls_return Hq. unfold log, send_error.
      now rewrite Hev, Hev0.
Qed.

Lemma action_selects_invocation_witness :
  runs (trace (do_POST Sample.cfg
                 (IOSample.world_with true IOSample.ok_run
                    IOSample.all_return)
                 (IOSample.req_secret Sample.body_check)))
  = [SubprocessRun ["/opt/automem/scripts/sync-and-deploy.sh"; "--check"] 60
       "/opt/automem"]
  /\ requested (IOSample.world_with true IOSample.ok_run IOSample.all_return)
       Sample.body_text
     = Some (VStr (u "deploy"))
  /\ runs (trace (do_POST Sample.cfg
                    (IOSample.world_with true IOSample.ok_run
                       IOSample.all_return)
                    (IOSample.req_secret Sample.body_source)))
     = [SubprocessRun ["/opt/automem/scripts/sync-and-deploy.sh"; "--auto"] 300
          "/opt/automem"]
  /\ do_POST Sample.cfg
       (IOSample.world_with true IOSample.ok_run IOSample.all_return)
       (IOSample.req_secret Sample.body_restart)
     = ([Log (received (IOSample.req_secret Sample.body_restart)
                (VStr (u "restart")) (VStr (u "unknown")));
         SendError 400 [Lit "Unknown action: "; Fmt (VStr (u "restart"))]],
        inr tt).
Proof.
  split; [|split; [|split]].
  - apply (proj1 (action_selects_invocation Sample.cfg
                    (IOSample.world_with true IOSample.ok_run
                       IOSample.all_return)
                    (IOSample.req_secret Sample.body_check) Sample.body_check
                    ltac:(sample_let_in Sample.body_check 18))
             (VStr (u "unknown")));
      reflexivity.
  - apply (proj1 (proj2 (action_selects_invocation Sample.cfg
                    (IOSample.world_with true IOSample.ok_run
                       IOSample.all_return)
                    (IOSample.req_secret Sample.body_text) Sample.body_text
                    ltac:(sample_let_in Sample.body_text 13)))).
    right. left. eexists. split; reflexivity.
  - apply (proj1 (proj2 (proj2 (action_selects_invocation Sample.cfg
                    (IOSample.world_with true IOSample.ok_run
                       IOSample.all_return)
                    (IOSample.req_secret Sample.body_source) Sample.body_source
                    ltac:(sample_let_in Sample.body_source 15))))
             (VStr (u "ci")));
      reflexivity.
  - apply (proj2 (proj2 (proj2 (action_selects_invocation Sample.cfg
                    (IOSample.world_with true IOSample.ok_run
                       IOSample.all_return)
                    (IOSample.req_secret Sample.body_restart)
                    Sample.body_restart
                    ltac:(sample_let_in Sample.body_restart 20))))
             (VStr (u "restart")) (VStr (u "unknown")));
      reflexivity.
Defined.

(** *** Where input and output fail *)



(** The request that asks for the action U+90E8 U+7F72: the request is
    logged, and [send_error] raises on the message it cannot encode; no
    400 is sent. *)
Example unsendable_action :
  do_POST Sample.cfg
    (IOSample.world_with true IOSample.ok_run IOSample.latin1_status)
    (IOSample.req_secret IOSample.body_wide_action)
  = ([Log (received (IOSample.req_secret IOSample.body_wide_action)
             (VStr IOSample.wide_action) (VStr (u "unknown")))],
     inl IOSample.unsendable).
Proof. vm_compute. reflexivity. Qed.

(** A write that fails inside the [try] of the deploy action.  The run
    has completed and the status line and the headers are sent; the write
    of the body raises an [Exception].  The handler of line 131 takes it
    for an error of the deployment: it logs it and calls [send_error],
    which starts a second response when it returns, and whose exception
    leaves [do_POST] when it raises. *)
Theorem failed_write_second_response (cfg : Webhook.config) (w : world)
    (req : request) (payload : list byte) (source : value)
    (result : CompletedProcess) (e : exn) :
  authorized cfg req payload ->
  requested w payload = Some (VStr (u "deploy")) ->
  sender w payload = Some source ->
  path_exists w (Webhook.script_path cfg) = true ->
  subprocess_run w [Webhook.script_path cfg; "--auto"] 300
    (Webhook.AUTOMEM_DIR cfg) = inr result ->
  returncode result = 0 ->
  let sent :=
    [Log (received req (VStr (u "deploy")) source);
     Log [Lit "Starting deployment..."];
     SubprocessRun [Webhook.script_path cfg; "--auto"] 300
       (Webhook.AUTOMEM_DIR cfg);
     Log [Lit ("Deployment successful:" +:+ String "010" EmptyString);
          Str (stdout result)];
     SendResponse 200;
     SendHeader "Content-Type" "application/json";
     EndHeaders;
     Log [Lit ("Deployment error: " +:+ exn_str e)]] in
  succeed w sent = true ->
  fails w (Write [("status", u "success");
                  ("message", u "Deployment completed");
                  ("output", slice_last 1000 (stdout result))]) = Some e ->
  exn_cls e <> TimeoutExpired -> is_Exception e = true ->
  (fails w (SendError 500 [Lit (exn_str e)]) = None ->
   do_POST cfg w req = (sent ++ [SendError 500 [Lit (exn_str e)]], inr tt)
   /\ responses (trace (do_POST cfg w req)) = 2%nat)
  /\ (forall e',
        fails w (SendError 500 [Lit (exn_str e)]) = Some e' ->
        do_POST cfg w req = (sent, inl e')).
Proof.
  intros Hauth Hreq Hsrc Hex Hrun Hrc sent Hq Hwrite Hcls Hexc.
  subst sent. calls_return Hq.
  assert (Hpost : do_POST cfg w req
            = (let (t, r) := send_error w 500 [Lit (exn_str e)] in
               ([Log (received req (VStr (u "deploy")) source);
                 Log [Lit "Starting deployment..."];
                 SubprocessRun [Webhook.script_path cfg; "--auto"] 300
                   (Webhook.AUTOMEM_DIR cfg);
                 Log [Lit ("Deployment successful:"
                           +:+ String "010" EmptyString);
                      Str (stdout result)];
                 SendResponse 200;
                 SendHeader "Content-Type" "application/json";
                 EndHeaders;
                 Log [Lit ("Deployment error: " +:+ exn_str e)]] ++ t, r))).
  { rewrite (Hauth w).
    rewrite (dispatch_branches cfg w req payload _ source Hreq Hsrc).
    unfold branch_of. change (eq_str (VStr (u "deploy")) "deploy") with true.
    cbv iota. unfold deploy, run, log, send_json.
    rewrite Hex, Hev, Hev0, Hrun. cbn [negb bind emit lift].
    rewrite Hrc. cbn [Z.eqb].
    rewrite Hev1, Hev2, Hev3, Hev4, (perform_raises w _ e Hwrite).
    cbn [bind emit raise try_except]. rewrite Hexc, Hev5.
    destruct (exn_class_eqb (exn_cls e) TimeoutExpired) eqn:Hto;
      [exfalso; apply Hcls; now destruct (exn_cls e)|].
    cbn [bind emit]. now destruct (send_error w 500 [Lit (exn_str e)]). }
  split.
  - intros Hsend. rewrite Hpost. unfold send_error.
    rewrite (perform_returns w _ Hsend). split; reflexivity.
  - intros e' Hsend. rewrite Hpost. unfold send_error.
    rewrite (perform_raises w _ e' Hsend). cbn [raise]. now rewrite app_nil_r.
Qed.

Lemma failed_write_second_response_witness :
  do_POST Sample.cfg
    (IOSample.world_with true IOSample.ok_run IOSample.client_gone)
    (IOSample.req_secret Sample.body_empty_object)
  = ([Log (received (IOSample.req_secret Sample.body_empty_object)
             (VStr (u "deploy")) (VStr (u "unknown")));
      Log [Lit "Starting deployment..."];
      SubprocessRun ["/opt/automem/scripts/sync-and-deploy.sh"; "--auto"]
        300 "/opt/automem";
      Log [Lit ("Deployment successful:" +:+ String "010" EmptyString);
           Str (u "Already up to date.")];
      SendResponse 200;
      SendHeader "Content-Type" "application/json";
      EndHeaders;
      Log [Lit "Deployment error: [Errno 32] Broken pipe"]],
     inl IOSample.broken_pipe).
Proof.
  apply (proj2 (failed_write_second_response Sample.cfg
                  (IOSample.world_with true IOSample.ok_run
                     IOSample.client_gone)
                  (IOSample.req_secret Sample.body_empty_object)
                  Sample.body_empty_object (VStr (u "unknown"))
                  {| returncode := 0; stdout := u "Already up to date.";
                     stderr := [] |}
                  IOSample.broken_pipe
                  ltac:(sample_let_in Sample.body_empty_object 2)
                  eq_refl eq_refl eq_refl eq_refl eq_refl eq_refl eq_refl
                  ltac:(discriminate) eq_refl)).
  reflexivity.
Defined.

(** *** [WEBHOOK_PORT] *)

Lemma count_digits_le (s : string) :
  (count_digits s <= String.length s)%nat.
Proof.
  induction s as [|c s IH]; cbn [count_digits String.length]; [lia|].
  destruct (digit_of c); lia.
Qed.

(** [WEBHOOK_PORT] is 9000 when the variable is unset and the number [n]
    when it is set to the decimal numeral of [n], if that has at most 4300
    digits; loading the module raises [ValueError] when it is set to a
    string with more than 4300 digits, or to one that is no numeral. *)
Theorem port_from_environment (environ : gmap string string) :
  (environ !! "WEBHOOK_PORT" = None -> WEBHOOK_PORT environ = inr 9000)
  /\ (forall n : N,
        (String.length (pretty n) <= 4300)%nat ->
        environ !! "WEBHOOK_PORT" = Some (pretty n) ->
        WEBHOOK_PORT environ = inr (Z.of_N n))
  /\ (forall s : string,
        environ !! "WEBHOOK_PORT" = Some s ->
        (4300 < count_digits s)%nat \/ (exists e, Py.int s = inl e) ->
        exists e, WEBHOOK_PORT environ = inl e /\ exn_cls e = ValueError).
Proof.
  assert (Hget : forall s, environ !! "WEBHOOK_PORT" = Some s ->
            WEBHOOK_PORT environ = int s).
  { intros s Hs. unfold WEBHOOK_PORT, Webhook.getenv. now rewrite Hs. }
  split; [|split].
  - intros Hs. unfold WEBHOOK_PORT, Webhook.getenv. now rewrite Hs.
  - intros n Hlen Hs. rewrite (Hget _ Hs). unfold int.
    pose proof (count_digits_le (pretty n)) as Hle.
    destruct (Nat.ltb_spec 4300 (count_digits (pretty n))); [lia|].
    apply IntFacts.int_pretty.
  - intros s Hs Hbad. rewrite (Hget _ Hs). unfold int.
    destruct (Nat.ltb_spec 4300 (count_digits s)) as [Hmany|Hfew].
    + eexists. split; reflexivity.
    + destruct Hbad as [Hmany | (e & Hint)]; [lia|].
      exists e. split; [exact Hint|].
      now rewrite (WebhookEdges.int_error s e Hint).
Qed.

Lemma port_from_environment_witness :
  WEBHOOK_PORT Sample.environ_unset = inr 9000
  /\ WEBHOOK_PORT (insert "WEBHOOK_PORT" "8080" Sample.environ_unset)
     = inr 8080
  /\ exists e,
       WEBHOOK_PORT (insert "WEBHOOK_PORT" "http" Sample.environ_unset)
       = inl e /\ exn_cls e = ValueError.
Proof.
  split; [|split].
  - apply (proj1 (port_from_environment Sample.environ_unset)). reflexivity.
  - apply (proj1 (proj2 (port_from_environment
                           (insert "WEBHOOK_PORT" "8080" Sample.environ_unset)))
             8080%N).
    + vm_compute. lia.
    + reflexivity.
  - apply (proj2 (proj2 (port_from_environment
                           (insert "WEBHOOK_PORT" "http" Sample.environ_unset)))
             "http").
    + reflexivity.
    + right. eexists. reflexivity.
Defined.

End WebhookIOSpec.
